(** * unionfs-fuse: branch operations, whiteouts and copy-on-write

    A shallow embedding of [src/branch_ops.c], [src/general.c],
    [src/cow_utils.c] and [src/cow.c].  The C code talks to the kernel
    through system calls and reports errors through return values and
    [errno]; the embedding runs it in a small state monad over an abstract
    operating system, keeps [errno] and records every system call that is
    issued.  The messages to the daemon log (usyslog, DBG_IN) are left
    out. *)

From Stdlib Require Import ZArith List String Ascii Bool Lia.
Import ListNotations.

Local Open Scope Z_scope.

(** ** Platform constants (Linux values of <errno.h>, <sys/stat.h>, <fcntl.h>) *)

Definition EPERM : Z := 1.
Definition ENOENT : Z := 2.
Definition ENOMEM : Z := 12.
Definition ENAMETOOLONG : Z := 36.
Definition ELOOP : Z := 40.
Definition EOPNOTSUPP : Z := 95.
Definition ENOTSUP : Z := 95.

Definition S_IFMT : Z := 61440.   (* 0170000 *)
Definition S_IFSOCK : Z := 49152. (* 0140000 *)
Definition S_IFLNK : Z := 40960.  (* 0120000 *)
Definition S_IFREG : Z := 32768.  (* 0100000 *)
Definition S_IFBLK : Z := 24576.  (* 0060000 *)
Definition S_IFDIR : Z := 16384.  (* 0040000 *)
Definition S_IFCHR : Z := 8192.   (* 0020000 *)
Definition S_IFIFO : Z := 4096.   (* 0010000 *)
Definition S_ISUID : Z := 2048.   (* 04000 *)
Definition S_ISGID : Z := 1024.   (* 02000 *)
Definition S_ISVTX : Z := 512.    (* 01000 *)
Definition S_ISTXT : Z := S_ISVTX.
Definition S_IRWXU : Z := 448.    (* 0700 *)
Definition S_IRUSR : Z := 256.
Definition S_IWUSR : Z := 128.
Definition S_IRWXG : Z := 56.     (* 0070 *)
Definition S_IRWXO : Z := 7.      (* 0007 *)

Definition O_RDONLY : Z := 0.
Definition O_WRONLY : Z := 1.
Definition O_CREAT : Z := 64.
Definition O_TRUNC : Z := 512.
Definition O_NOFOLLOW : Z := 131072.
Definition O_DIRECTORY : Z := 65536.

Definition MAXBSIZE : Z := 4096.

Definition S_ISDIR (m : Z) : bool := Z.land m S_IFMT =? S_IFDIR.
Definition S_ISLNK (m : Z) : bool := Z.land m S_IFMT =? S_IFLNK.

(** ** C strings *)

Definition strlen (s : string) : Z := Z.of_nat (String.length s).

Definition is_slash (c : ascii) : bool := Ascii.eqb c "/"%char.

(** The walk over slashes: the part of [s] after its leading slashes. *)
Fixpoint skip_slashes (s : string) : string :=
  match s with
  | String c s' => if is_slash c then skip_slashes s' else s
  | EmptyString => s
  end.

(** The leading slashes themselves. *)
Fixpoint take_slashes (s : string) : string :=
  match s with
  | String c s' => if is_slash c then String c (take_slashes s') else EmptyString
  | EmptyString => EmptyString
  end.

(** The walk over a directory name: the name [walk] runs over, and what
    is left behind it. *)
Fixpoint take_name (s : string) : string :=
  match s with
  | String c s' => if is_slash c then EmptyString else String c (take_name s')
  | EmptyString => EmptyString
  end.

Fixpoint skip_name (s : string) : string :=
  match s with
  | String c s' => if is_slash c then s else skip_name s'
  | EmptyString => s
  end.

Definition concat_all (l : list string) : string :=
  fold_right String.append EmptyString l.

(** ** Data model *)

(** The fields of [struct stat] the code reads or writes. *)
Record stat_t := mkstat {
  st_mode : Z;
  st_uid : Z;
  st_gid : Z;
  st_size : Z;
  st_atime : Z;
  st_mtime : Z;
  st_rdev : Z;
  st_flags : Z
}.

Definition set_mode (fs : stat_t) (m : Z) : stat_t :=
  mkstat m (st_uid fs) (st_gid fs) (st_size fs) (st_atime fs) (st_mtime fs)
         (st_rdev fs) (st_flags fs).

(** One entry of [uopt.branches]. *)
Record branch_entry := mkbranch {
  path : string;   (* root of the branch *)
  fd : Z           (* directory handle of the root *)
}.

(** The process-wide options [uopt]. *)
Record uopt_t := mkuopt {
  cow_enabled : bool;
  nbranches : Z;
  branches : list branch_entry
}.

Inductive filetype_t := NOT_EXISTING | IS_DIR | IS_FILE.

Inductive whiteout := WHITEOUT_FILE | WHITEOUT_DIR.

(** [struct cow]; [cow_stat] is the buffer [cow->stat] points to. *)
Record cow_t := mkcow {
  cow_umask : Z;
  cow_uid : Z;
  from_branch : Z;
  from_path : string;
  cow_stat : stat_t;
  to_branch : Z;
  to_path : string
}.

(** ** The operating system *)

(** Where a system call points: a name relative to a directory handle
    (the openat family) or a plain path. *)
Inductive loc :=
| AtFd (dirfd : Z) (rel : string)
| Abs (p : string).

Inductive syscall :=
| Stat (l : loc)
| Lstat (l : loc)
| Open (l : loc) (flags mode : Z)
| Creat (l : loc) (mode : Z)
| Close (d : Z)
| Opendir (l : loc)
| Fdopendir (d : Z)
| Readdir (dp : Z)
| Closedir (dp : Z)
| Mkdir (l : loc) (mode : Z)
| Rmdir (l : loc)
| Unlink (l : loc)
| Lchown (l : loc) (owner group : Z)
| Chown (l : loc) (owner group : Z)
| Chmod (l : loc) (mode : Z)
| Mknod (l : loc) (mode dev : Z)
| Mkfifo (l : loc) (mode : Z)
| Readlink (l : loc) (bufsiz : Z)
| Symlink (oldpath : string) (l : loc)
| Link (l1 l2 : loc)
| Rename (l1 l2 : loc)
| Truncate (l : loc) (length : Z)
| Ftruncate (d : Z) (length : Z)
| Utimens (l : loc) (atime mtime : Z)
| Utimes (l : loc) (atime mtime : Z)
| Chflags (l : loc) (flags : Z)
| Setxattr (l : loc) (name value : string) (flags : Z)
| Fsetxattr (d : Z) (name value : string) (flags : Z)
| Getxattr (l : loc) (name : string) (size : Z)
| Fgetxattr (d : Z) (name : string) (size : Z)
| Listxattr (l : loc) (size : Z)
| Flistxattr (d : Z) (size : Z)
| Removexattr (l : loc) (name : string)
| Fremovexattr (d : Z) (name : string)
| Read (d : Z) (count : Z)
| Write (d : Z) (data : string) (count : Z)
| Mmap (d : Z) (length : Z)
| Madvise (length : Z)
| Munmap (length : Z)
| Fstat (d : Z)
| Fchmod (d : Z) (mode : Z)
| Getuid
| Umask (mask : Z)
| Setlocale.

(** What the kernel answers: failure with an [errno] value, or success
    with an integer, a [struct stat] or a string. *)
Inductive reply :=
| Fail (e : Z)
| Ok (v : Z)
| OkStat (st : stat_t)
| OkStr (s : string).

(** What the build and the rest of the program fix for the code below. *)
Class Platform := {
  World : Type;
  os : syscall -> World -> reply * World;
  (* unionfs.h *)
  PATHLEN_MAX : Z;
  METADIR : string;
  HIDETAG : string;
  (* build-time switches *)
  HAVE_AT_FAMILY : bool;
  HAVE_CHFLAGS : bool;
  (* string.c: [None] is the NULL of a failed allocation *)
  u_dirname : string -> option string;
  (* string.c: [None] is a non-zero return *)
  build_path : Z -> list string -> option string;
  (* what an automatic [struct stat] holds before anything is stored in it *)
  indet : stat_t
}.

(** ** The monad: state, [errno], the calls made so far, and faults *)

Record state {P : Platform} := mkstate {
  world : World;
  errno : Z;
  trace : list syscall
}.
Arguments mkstate {P} world errno trace.
Arguments world {P} s.
Arguments errno {P} s.
Arguments trace {P} s.

(** Behaviour the C standard leaves undefined, and the fuel of the two
    loops whose length the kernel decides. *)
Inductive fault :=
| NoSuchBranch (branch : Z)   (* uopt.branches[branch] outside the array *)
| BufferOverflow              (* a copy past the end of a char array *)
| OutOfFuel.

Inductive result {P : Platform} (A : Type) :=
| Val (a : A) (s : state)
| Fault (f : fault) (s : state).
Arguments Val {P A} a s.
Arguments Fault {P A} f s.

Definition M {P : Platform} (A : Type) : Type := state -> result A.

Definition ret {P : Platform} {A} (a : A) : M A := fun s => Val a s.

Definition bind {P : Platform} {A B} (m : M A) (k : A -> M B) : M B :=
  fun s => match m s with
           | Val a s' => k a s'
           | Fault f s' => Fault f s'
           end.

Definition raise {P : Platform} {A} (f : fault) : M A := fun s => Fault f s.

Declare Scope m_scope.
Delimit Scope m_scope with M.
Notation "x <- m ;; k" := (bind m (fun x => k))
  (at level 61, m at next level, right associativity) : m_scope.
Notation "' p <- m ;; k" := (bind m (fun x => match x with p => k end))
  (at level 61, p pattern, m at next level, right associativity) : m_scope.
Notation "m ;; k" := (bind m (fun _ => k))
  (at level 61, right associativity) : m_scope.
Local Open Scope m_scope.

Section Program.
Context {P : Platform}.
Variable uopt : uopt_t.

Definition set_errno (e : Z) : M unit :=
  fun s => Val tt (mkstate (world s) e (trace s)).

Definition get_errno : M Z := fun s => Val (errno s) s.

(** Issue one system call: the kernel answers and moves to a new world,
    a failure stores its code in [errno], the call is recorded. *)
Definition sys (c : syscall) : M reply :=
  fun s =>
    let (r, w) := os c (world s) in
    Val r (mkstate w
                   (match r with Fail e => e | _ => errno s end)
                   (trace s ++ [c])).

(** The C return value of a call that answers 0 or -1. *)
Definition rc (r : reply) : Z :=
  match r with Fail _ => -1 | _ => 0 end.

(** The C return value of a call that answers a descriptor, a count or a
    handle. *)
Definition rv (r : reply) : Z :=
  match r with Fail _ => -1 | Ok v => v | OkStat _ => 0 | OkStr s => strlen s end.

Definition sys_rc (c : syscall) : M Z := r <- sys c ;; ret (rc r).
Definition sys_rv (c : syscall) : M Z := r <- sys c ;; ret (rv r).

(** A call that fills a [struct stat] on success and leaves it alone
    otherwise. *)
Definition sys_stat (c : syscall) (buf : stat_t) : M (Z * stat_t) :=
  r <- sys c ;;
  match r with
  | Fail _ => ret (-1, buf)
  | OkStat st => ret (0, st)
  | _ => ret (0, buf)
  end.

(** [uopt.branches[branch]] *)
Definition branch_at (branch : Z) : M branch_entry :=
  if branch <? 0 then raise (NoSuchBranch branch)
  else match nth_error (branches uopt) (Z.to_nat branch) with
       | Some b => ret b
       | None => raise (NoSuchBranch branch)
       end.

(** ** branch_ops.c *)

(** The loop of [va_build_path] over the NULL terminated arguments. *)
Fixpoint va_build_loop (ap : list string) (p : string) (space : Z)
  : M (Z * string) :=
  match ap with
  | [] => ret (0, p)
  | str :: ap' =>
      let len := strlen str in
      let space := space - len in
      if space <=? 0 then (* must have space for the terminator *)
        set_errno ENAMETOOLONG ;;
        e <- get_errno ;;
        ret (- e, p)
      else va_build_loop ap' (p ++ str)%string space
  end.

(** [va_build_path]: the return value and what [path] holds. *)
Definition va_build_path (space : Z) (branch : Z) (ap : list string)
  : M (Z * string) :=
  if HAVE_AT_FAMILY then va_build_loop ap EmptyString space
  else
    b <- branch_at branch ;;
    let len := strlen (path b) in
    (* strcpy(p, uopt.branches[branch].path) into [space] bytes *)
    if space <=? len then raise BufferOverflow
    else va_build_loop ap (path b) (space - len).

Definition branch_build_path (space : Z) (branch : Z) (p : string)
  : M (Z * string) :=
  va_build_path space branch [p].

Definition relative (p : string) : string :=
  match skip_slashes p with
  | EmptyString => "."%string
  | s => s
  end.

(** The object a built path names on a branch: [uopt.branches[branch].fd]
    with the relative form, or the path itself. *)
Definition branch_loc (branch : Z) (p : string) : M loc :=
  if HAVE_AT_FAMILY then
    b <- branch_at branch ;; ret (AtFd (fd b) (relative p))
  else ret (Abs p).

Definition branch_va_lstat (buf : stat_t) (branch : Z) (ap : list string)
  : M (Z * stat_t) :=
  '(res, p) <- va_build_path PATHLEN_MAX branch ap ;;
  if res <? 0 then ret (res, buf) else
  l <- branch_loc branch p ;;
  sys_stat (Lstat l) buf.

Definition branch_lstat (buf : stat_t) (branch : Z) (ap : list string)
  : M (Z * stat_t) :=
  branch_va_lstat buf branch ap.

Definition branch_stat (buf : stat_t) (branch : Z) (ap : list string)
  : M (Z * stat_t) :=
  '(res, p) <- va_build_path PATHLEN_MAX branch ap ;;
  if res <? 0 then ret (res, buf) else
  l <- branch_loc branch p ;;
  sys_stat (Stat l) buf.

(** The body shared by the wrappers that return what one call returns. *)
Definition branch_call (branch : Z) (ap : list string)
  (call : loc -> M Z) : M Z :=
  '(res, p) <- va_build_path PATHLEN_MAX branch ap ;;
  if res <? 0 then ret res else
  l <- branch_loc branch p ;;
  call l.

Definition branch_open (flags mode : Z) (branch : Z) (ap : list string) : M Z :=
  branch_call branch ap (fun l => sys_rv (Open l flags mode)).

(** [DIR *]: 0 is NULL. *)
Definition branch_opendir (branch : Z) (ap : list string) : M Z :=
  '(res, p) <- va_build_path PATHLEN_MAX branch ap ;;
  if res <? 0 then ret 0 else
  l <- branch_loc branch p ;;
  if HAVE_AT_FAMILY then
    d <- sys_rv (Open l (Z.lor O_RDONLY O_DIRECTORY) 0) ;;
    if d =? -1 then ret 0 else
    r <- sys (Fdopendir d) ;;
    match r with
    | Ok dir => if dir =? 0 then sys (Close d) ;; ret 0 else ret dir
    | _ => sys (Close d) ;; ret 0
    end
  else
    r <- sys (Opendir l) ;;
    match r with Ok dir => ret dir | _ => ret 0 end.

Definition branch_mkdir (mode : Z) (branch : Z) (ap : list string) : M Z :=
  branch_call branch ap (fun l => sys_rc (Mkdir l mode)).

Definition branch_rmdir (branch : Z) (ap : list string) : M Z :=
  branch_call branch ap (fun l => sys_rc (Rmdir l)).

Definition branch_unlink (branch : Z) (ap : list string) : M Z :=
  branch_call branch ap (fun l => sys_rc (Unlink l)).

Definition branch_lchown (owner group : Z) (branch : Z) (ap : list string) : M Z :=
  branch_call branch ap (fun l => sys_rc (Lchown l owner group)).

Definition branch_chown (owner group : Z) (branch : Z) (ap : list string) : M Z :=
  branch_call branch ap (fun l => sys_rc (Chown l owner group)).

Definition branch_link (oldbranch : Z) (oldpath : string)
  (newbranch : Z) (newpath : string) : M Z :=
  '(res, frompath) <- branch_build_path PATHLEN_MAX oldbranch oldpath ;;
  if res <? 0 then ret res else
  '(res, topath) <- branch_build_path PATHLEN_MAX newbranch newpath ;;
  if res <? 0 then ret res else
  l1 <- branch_loc oldbranch frompath ;;
  l2 <- branch_loc newbranch topath ;;
  sys_rc (Link l1 l2).

Definition branch_chmod (mode : Z) (branch : Z) (ap : list string) : M Z :=
  branch_call branch ap (fun l => sys_rc (Chmod l mode)).

Definition branch_creat (mode : Z) (branch : Z) (ap : list string) : M Z :=
  branch_call branch ap (fun l =>
    if HAVE_AT_FAMILY
    then sys_rv (Open l (Z.lor O_CREAT (Z.lor O_WRONLY O_TRUNC)) mode)
    else sys_rv (Creat l mode)).

Definition branch_mknod (mode dev : Z) (branch : Z) (ap : list string) : M Z :=
  branch_call branch ap (fun l => sys_rc (Mknod l mode dev)).

Definition branch_mkfifo (mode : Z) (branch : Z) (ap : list string) : M Z :=
  branch_call branch ap (fun l => sys_rc (Mkfifo l mode)).

(** The count and what the call stored in [buf]. *)
Definition branch_readlink (buf : string) (bufsiz : Z) (branch : Z)
  (ap : list string) : M (Z * string) :=
  '(res, p) <- va_build_path PATHLEN_MAX branch ap ;;
  if res <? 0 then ret (res, buf) else
  l <- branch_loc branch p ;;
  r <- sys (Readlink l bufsiz) ;;
  match r with
  | OkStr s => ret (strlen s, s)
  | r => ret (rv r, buf)
  end.

Definition branch_symlink (oldpath : string) (branch : Z) (ap : list string)
  : M Z :=
  branch_call branch ap (fun l => sys_rc (Symlink oldpath l)).

Definition branch_rename (oldbranch : Z) (oldpath : string)
  (newbranch : Z) (newpath : string) : M Z :=
  '(res, frompath) <- branch_build_path PATHLEN_MAX oldbranch oldpath ;;
  if res <? 0 then ret res else
  '(res, topath) <- branch_build_path PATHLEN_MAX newbranch newpath ;;
  if res <? 0 then ret res else
  l1 <- branch_loc oldbranch frompath ;;
  l2 <- branch_loc newbranch topath ;;
  sys_rc (Rename l1 l2).

Definition branch_truncate (length : Z) (branch : Z) (ap : list string) : M Z :=
  branch_call branch ap (fun l =>
    if HAVE_AT_FAMILY then
      d <- sys_rv (Open l O_WRONLY 0) ;;
      if d =? -1 then ret (-1) else
      res <- sys_rc (Ftruncate d length) ;;
      sys (Close d) ;;
      ret res
    else sys_rc (Truncate l length)).

Definition branch_utimens (atime mtime : Z) (branch : Z) (ap : list string)
  : M Z :=
  branch_call branch ap (fun l =>
    if HAVE_AT_FAMILY then sys_rc (Utimens l atime mtime)
    else
      res <- sys_rc (Utimes l atime mtime) ;;
      e <- get_errno ;;
      if (res =? -1) && (e =? ENOENT) then
        (* weird utimes() symlink bug? *)
        '(res, buf) <- sys_stat (Lstat l) indet ;;
        if negb (res =? 0) || negb (S_ISLNK (st_mode buf))
        then ret (- ENOENT)
        else ret 0
      else ret res).

Definition branch_chflags (flags : Z) (branch : Z) (ap : list string) : M Z :=
  branch_call branch ap (fun l => sys_rc (Chflags l flags)).

(** The openat variants of the extended attribute calls go through a
    descriptor opened with O_NOFOLLOW. *)
Definition xattr_call (l : loc) (oflags : Z) (at_fd : Z -> syscall)
  (plain : syscall) : M Z :=
  if HAVE_AT_FAMILY then
    d <- sys_rv (Open l (Z.lor oflags O_NOFOLLOW) 0) ;;
    if d =? -1 then
      e <- get_errno ;;
      (if e =? ELOOP then set_errno ENOTSUP else ret tt) ;;
      ret (-1)
    else
      res <- sys_rv (at_fd d) ;;
      sys (Close d) ;;
      ret res
  else sys_rv plain.

Definition branch_lsetxattr (name value : string) (flags : Z) (branch : Z)
  (ap : list string) : M Z :=
  branch_call branch ap (fun l =>
    xattr_call l O_WRONLY (fun d => Fsetxattr d name value flags)
               (Setxattr l name value flags)).

Definition branch_lgetxattr (name : string) (size : Z) (branch : Z)
  (ap : list string) : M Z :=
  branch_call branch ap (fun l =>
    xattr_call l O_RDONLY (fun d => Fgetxattr d name size)
               (Getxattr l name size)).

Definition branch_llistxattr (size : Z) (branch : Z) (ap : list string) : M Z :=
  branch_call branch ap (fun l =>
    xattr_call l O_RDONLY (fun d => Flistxattr d size) (Listxattr l size)).

Definition branch_lremovexattr (name : string) (branch : Z) (ap : list string)
  : M Z :=
  branch_call branch ap (fun l =>
    xattr_call l O_WRONLY (fun d => Fremovexattr d name) (Removexattr l name)).

(** ** cow_utils.c *)

Definition lor3 (a b c : Z) : Z := Z.lor a (Z.lor b c).

(** [setfile]: set the stat() data of a file.  The mode in [*fs] is
    changed in place, so the new [*fs] is returned next to the status. *)
Definition setfile (branch : Z) (path : string) (fs : stat_t)
  : M (Z * stat_t) :=
  let rval := 0 in
  let fs := set_mode fs
              (Z.land (st_mode fs)
                 (Z.lor S_ISUID (Z.lor S_ISGID (lor3 S_IRWXU S_IRWXG S_IRWXO)))) in
  r <- branch_utimens (st_atime fs) (st_mtime fs) branch [path] ;;
  let rval := if negb (r =? 0) then 1 else rval in
  r <- branch_chown (st_uid fs) (st_gid fs) branch [path] ;;
  '(rval, fs) <-
    (if negb (r =? 0) then
       e <- get_errno ;;
       let rval := if negb (e =? EPERM) then 1 else rval in
       ret (rval,
            set_mode fs (Z.land (st_mode fs)
                                (Z.lnot (lor3 S_ISTXT S_ISUID S_ISGID))))
     else ret (rval, fs)) ;;
  r <- branch_chmod (st_mode fs) branch [path] ;;
  let rval := if negb (r =? 0) then 1 else rval in
  if HAVE_CHFLAGS then
    set_errno 0 ;;
    r <- branch_chflags (st_flags fs) branch [path] ;;
    if negb (r =? 0) then
      e <- get_errno ;;
      if negb (e =? EOPNOTSUPP) || negb (st_flags fs =? 0)
      then ret (1, fs) else ret (rval, fs)
    else ret (rval, fs)
  else ret (rval, fs).

(** [setlink]: set the stat() data of a link. *)
Definition setlink (branch : Z) (path : string) (fs : stat_t) : M Z :=
  r <- branch_lchown (st_uid fs) (st_gid fs) branch [path] ;;
  if negb (r =? 0) then
    e <- get_errno ;;
    if negb (e =? EPERM) then ret 1 else ret 0
  else ret 0.

Definition reply_data (r : reply) : string :=
  match r with OkStr d => d | _ => EmptyString end.

(** The read/write loop of [copy_file]: [rval] and the last [rcount]. *)
Fixpoint copy_loop (fuel : nat) (from_fd to_fd : Z) : M (Z * Z) :=
  match fuel with
  | O => raise OutOfFuel
  | S fuel' =>
      r <- sys (Read from_fd MAXBSIZE) ;;
      let rcount := rv r in
      if 0 <? rcount then
        wcount <- sys_rv (Write to_fd (reply_data r) rcount) ;;
        if negb (rcount =? wcount) || (wcount =? -1)
        then ret (1, rcount)
        else copy_loop fuel' from_fd to_fd
      else ret (0, rcount)
  end.

Definition RETAINBITS : Z :=
  Z.lor S_ISUID (Z.lor S_ISGID (Z.lor S_ISVTX (lor3 S_IRWXU S_IRWXG S_IRWXO))).

(** [copy_file]: copy an ordinary file with all of its stat() data. *)
Definition copy_file (fuel : nat) (cow : cow_t) : M Z :=
  from_fd <- branch_open O_RDONLY 0 (from_branch cow) [from_path cow] ;;
  if from_fd =? -1 then ret 1 else
  let fs := cow_stat cow in
  to_fd <- branch_open (lor3 O_WRONLY O_TRUNC O_CREAT)
             (Z.land (st_mode fs) (Z.lnot (lor3 S_ISTXT S_ISUID S_ISGID)))
             (to_branch cow) [to_path cow] ;;
  if to_fd =? -1 then sys (Close from_fd) ;; ret 1 else
  '(rval, bail) <-
    (if (0 <? st_size fs) && (st_size fs <=? 8 * 1048576) then
       r <- sys (Mmap from_fd (st_size fs)) ;;
       match r with
       | Fail _ => ret (1, false)
       | _ =>
           sys (Madvise (st_size fs)) ;;
           w <- sys_rv (Write to_fd (reply_data r) (st_size fs)) ;;
           let rval := if negb (w =? st_size fs) then 1 else 0 in
           m <- sys_rv (Munmap (st_size fs)) ;;
           ret (if m <? 0 then 1 else rval, false)
       end
     else
       '(rval, rcount) <- copy_loop fuel from_fd to_fd ;;
       ret (rval, rcount <? 0)) ;;
  (* a failed read returns at once, both descriptors still open *)
  if (bail : bool) then ret 1 else
  if rval =? 1 then sys (Close from_fd) ;; sys (Close to_fd) ;; ret 1 else
  '(r, fs) <- setfile (to_branch cow) (to_path cow) fs ;;
  rval <-
    (if negb (r =? 0) then ret 1
     else if negb (Z.land (st_mode fs) (Z.lor S_ISUID S_ISGID) =? 0)
             && (st_uid fs =? cow_uid cow) then
       '(r, to_stat) <- sys_stat (Fstat to_fd) indet ;;
       if negb (r =? 0) then ret 1
       else if st_gid fs =? st_gid to_stat then
         r <- sys_rc (Fchmod to_fd
                (Z.land (Z.land (st_mode fs) RETAINBITS)
                        (Z.lnot (cow_umask cow)))) ;;
         if negb (r =? 0) then ret 1 else ret rval
       else ret rval
     else ret rval) ;;
  sys (Close from_fd) ;;
  r <- sys_rc (Close to_fd) ;;
  if negb (r =? 0) then ret 1 else ret rval.

(** [copy_link]: recreate the link and copy its stat() data. *)
Definition copy_link (cow : cow_t) : M Z :=
  '(len, link) <- branch_readlink EmptyString (PATHLEN_MAX - 1)
                    (from_branch cow) [from_path cow] ;;
  if len =? -1 then ret 1 else
  (* link[len] = 0 in char link[PATHLEN_MAX] *)
  if (len <? 0) || (PATHLEN_MAX <=? len) then raise BufferOverflow else
  r <- branch_symlink link (to_branch cow) [to_path cow] ;;
  if negb (r =? 0) then ret 1 else
  setlink (to_branch cow) (to_path cow) (cow_stat cow).

(** [copy_fifo]: recreate the fifo and copy its stat() data. *)
Definition copy_fifo (cow : cow_t) : M Z :=
  r <- branch_mkfifo (st_mode (cow_stat cow)) (to_branch cow) [to_path cow] ;;
  if negb (r =? 0) then ret 1 else
  '(r, _) <- setfile (to_branch cow) (to_path cow) (cow_stat cow) ;;
  ret r.

(** [copy_special]: recreate the special file and copy its stat() data. *)
Definition copy_special (cow : cow_t) : M Z :=
  r <- branch_mknod (st_mode (cow_stat cow)) (st_rdev (cow_stat cow))
         (to_branch cow) [to_path cow] ;;
  if negb (r =? 0) then ret 1 else
  '(r, _) <- setfile (to_branch cow) (to_path cow) (cow_stat cow) ;;
  ret r.

(** ** cow.c *)

(** [do_create]: actually create the directory. *)
Definition do_create (path : string) (nbranch_ro nbranch_rw : Z) : M Z :=
  '(res, buf) <- branch_stat indet nbranch_rw [path] ;;
  if negb (res =? -1) then ret 0 (* already exists *) else
  '(gone, buf) <-
    (if nbranch_ro =? nbranch_rw then
       ret (false, set_mode buf (Z.lor S_IRWXU S_IRWXG))
     else
       '(res, buf) <- branch_stat buf nbranch_ro [path] ;;
       ret (res =? -1, buf)) ;;
  if (gone : bool) then ret 1 else
  res <- branch_mkdir (st_mode buf) nbranch_rw [path] ;;
  if res =? -1 then ret 1 else
  if nbranch_ro =? nbranch_rw then ret 0 else
  '(r, _) <- setfile nbranch_rw path buf ;;
  if negb (r =? 0) then ret 1 else ret 0.

(** The do-while loop over the directory names of the buffer [p], as
    [path_hidden] and [path_create] both have it.  [pre] is [p] up to
    [walk], [rest] is [walk]; [body] gets [p] cut off at [walk] and says
    whether the function returns there.  One round per directory name:
    [fuel] counts the rounds left. *)
Fixpoint walk_loop {A} (fuel : nat) (body : string -> M (option A))
  (dflt : A) (pre rest : string) : M A :=
  (* walk over the directory name *)
  let pre := (pre ++ take_name rest)%string in
  let rest := skip_name rest in
  r <- body pre ;;
  match r with
  | Some a => ret a
  | None =>
      (* walk over the next slashes *)
      let pre := (pre ++ take_slashes rest)%string in
      let rest := skip_slashes rest in
      match rest with
      | EmptyString => ret dflt
      | _ => match fuel with
             | O => raise OutOfFuel
             | S fuel' => walk_loop fuel' body dflt pre rest
             end
      end
  end.

(** The loop started at the first directory name of [p]. *)
Definition walk_path {A} (body : string -> M (option A)) (dflt : A)
  (p : string) : M A :=
  walk_loop (String.length p) body dflt (take_slashes p) (skip_slashes p).

(** [strncpy(p, path, n); p[n] = 0] *)
Definition strncpy (path : string) (n : Z) : string :=
  String.substring 0 (Z.to_nat n) path.

(** [path_create]: create the directory path on [nbranch_rw]. *)
Definition path_create (path : string) (nbranch_ro nbranch_rw : Z) : M Z :=
  if negb (cow_enabled uopt) then ret 0 else
  '(r, _) <- branch_stat indet nbranch_rw [path] ;;
  if r =? 0 then ret 0 (* path does already exist *) else
  let p := strncpy path (PATHLEN_MAX - 1) in
  walk_path
    (fun p =>
       res <- do_create p nbranch_ro nbranch_rw ;;
       if negb (res =? 0) then ret (Some res) else ret None)
    0 p.

(** [path_create_cutlast]: the same, ignoring the last segment. *)
Definition path_create_cutlast (path : string) (nbranch_ro nbranch_rw : Z)
  : M Z :=
  match u_dirname path with
  | None => ret (- ENOMEM)
  | Some dname => path_create dname nbranch_ro nbranch_rw
  end.

(** The readdir loop of [copy_directory]. *)
Fixpoint readdir_loop (fuel : nat) (cow_cp : string -> Z -> Z -> M Z)
  (dp : Z) (path : string) (len : Z) (branch_ro branch_rw : Z) : M Z :=
  match fuel with
  | O => raise OutOfFuel
  | S fuel' =>
      de <- sys (Readdir dp) ;;
      match de with
      | OkStr d_name =>
          if String.eqb d_name "." || String.eqb d_name ".." then
            readdir_loop fuel' cow_cp dp path len branch_ro branch_rw
          else if PATHLEN_MAX <=? len + strlen d_name then
            set_errno ENAMETOOLONG ;; ret 1
          else
            res <- cow_cp (path ++ "/" ++ d_name)%string branch_ro branch_rw ;;
            if negb (res =? 0) then ret res
            else readdir_loop fuel' cow_cp dp path len branch_ro branch_rw
      | _ => sys (Closedir dp) ;; ret 0
      end
  end.

(** [copy_directory], with the [cow_cp] it calls for every entry. *)
Definition copy_directory_with (fuel : nat) (cow_cp : string -> Z -> Z -> M Z)
  (path : string) (branch_ro branch_rw : Z) : M Z :=
  res <- path_create path branch_ro branch_rw ;;
  if negb (res =? 0) then ret res else
  (* snprintf(p, PATHLEN_MAX, "%s/", path) *)
  let len := strlen path + 1 in
  dp <- branch_opendir branch_ro [path] ;;
  if dp =? 0 then ret 1 else
  readdir_loop fuel cow_cp dp path len branch_ro branch_rw.

(** [cow_cp]: initiate the cow-copy action.  [fuel] bounds the depth of
    the directory tree, the entries of one directory and the blocks of
    one file. *)
Fixpoint cow_cp (fuel : nat) (path : string) (branch_ro branch_rw : Z)
  : M Z :=
  (* create the path to the file *)
  path_create_cutlast path branch_ro branch_rw ;;
  sys Setlocale ;;
  uid <- sys_rv Getuid ;;
  (* Copy the umask for explicit mode setting. *)
  umask <- sys_rv (Umask 0) ;;
  sys (Umask umask) ;;
  '(res, buf) <- branch_lstat indet branch_ro [path] ;;
  if negb (res =? 0) then ret res else
  let cow := mkcow umask uid branch_ro path buf branch_rw path in
  let fmt := Z.land (st_mode buf) S_IFMT in
  if fmt =? S_IFLNK then copy_link cow
  else if fmt =? S_IFDIR then
    match fuel with
    | O => raise OutOfFuel
    | S fuel' =>
        copy_directory_with fuel (cow_cp fuel') path branch_ro branch_rw
    end
  else if (fmt =? S_IFBLK) || (fmt =? S_IFCHR) then copy_special cow
  else if fmt =? S_IFIFO then copy_fifo cow
  else if fmt =? S_IFSOCK then ret 1
  else copy_file fuel cow.

(** [copy_directory]: copy a directory between branches. *)
Definition copy_directory (fuel : nat) (path : string)
  (branch_ro branch_rw : Z) : M Z :=
  copy_directory_with fuel (cow_cp fuel) path branch_ro branch_rw.

(** ** general.c *)

(** [filedir_hidden]: check if a file or directory with the hidden flag
    exists. *)
Definition filedir_hidden (path : string) (branch : Z) : M bool :=
  (* cow mode disabled, no need for hidden files *)
  if negb (cow_enabled uopt) then ret false else
  '(res, _) <- branch_lstat indet branch [METADIR; path; HIDETAG] ;;
  if res =? 0 then ret true else ret false.

(** [path_hidden]: check if any dir or file within path is hidden. *)
Definition path_hidden (path : string) (branch : Z) : M bool :=
  if negb (cow_enabled uopt) then ret false else
  (* char p[PATHLEN_MAX]; strcpy(p, path); *)
  if PATHLEN_MAX <=? strlen path then raise BufferOverflow else
  walk_path
    (fun p =>
       res <- filedir_hidden p branch ;;
       if (res : bool) then ret (Some res) else ret None)
    false path.

(** [path_is_dir]: check if path is a directory. *)
Definition path_is_dir (branch : Z) (ap : list string) : M filetype_t :=
  '(res, buf) <- branch_va_lstat indet branch ap ;;
  if res =? -1 then ret NOT_EXISTING
  else if S_ISDIR (st_mode buf) then ret IS_DIR
  else ret IS_FILE.

(** The for loop of [remove_hidden]: [n] rounds, starting at branch [i]. *)
Fixpoint remove_loop (n : nat) (path : string) (i : Z) : M unit :=
  match n with
  | O => ret tt
  | S n' =>
      t <- path_is_dir i [METADIR; path; HIDETAG] ;;
      match t with
      | IS_FILE => branch_unlink i [METADIR; path; HIDETAG] ;; ret tt
      | IS_DIR => branch_rmdir i [METADIR; path; HIDETAG] ;; ret tt
      | NOT_EXISTING => ret tt
      end ;;
      remove_loop n' path (i + 1)
  end.

(** [remove_hidden]: remove a hide-file in all branches up to
    [maxbranch]; -1 stands for all branches. *)
Definition remove_hidden (path : string) (maxbranch : Z) : M Z :=
  if negb (cow_enabled uopt) then ret 0 else
  let maxbranch := if maxbranch =? -1 then nbranches uopt else maxbranch in
  (* for (i = 0; i <= maxbranch; i++) *)
  remove_loop (Z.to_nat (maxbranch + 1)) path 0 ;;
  ret 0.

(** [do_create_whiteout]: create a file or directory that hides [path]
    below [branch_rw]. *)
Definition do_create_whiteout (path : string) (branch_rw : Z)
  (mode : whiteout) : M Z :=
  match build_path PATHLEN_MAX [METADIR; path] with
  | None => ret (-1)
  | Some metapath =>
      path_create_cutlast metapath branch_rw branch_rw ;;
      match mode with
      | WHITEOUT_FILE =>
          res <- branch_open (Z.lor O_WRONLY O_CREAT) (Z.lor S_IRUSR S_IWUSR)
                   branch_rw [metapath; HIDETAG] ;;
          if res =? -1 then ret (-1) else
          sys_rc (Close res)
      | WHITEOUT_DIR =>
          branch_mkdir S_IRWXU branch_rw [metapath; HIDETAG]
      end
  end.

Definition hide_file (path : string) (branch_rw : Z) : M Z :=
  do_create_whiteout path branch_rw WHITEOUT_FILE.

Definition hide_dir (path : string) (branch_rw : Z) : M Z :=
  do_create_whiteout path branch_rw WHITEOUT_DIR.

End Program.

(** ** general.c: the functions that need the caller's side *)

(** What fuse_get_context() hands out about the request being served. *)
Record fuse_context := mkctx {
  ctx_uid : Z;
  ctx_gid : Z
}.

Section Callers.
Context {P : Platform}.
Variable uopt : uopt_t.

(** findbranch.c: the branch [path] is found on, or -1. *)
Variable find_rorw_branch : string -> M Z.

(** The context of the request. *)
Variable ctx : fuse_context.

(** [maybe_whiteout]: called after unlink() or rmdir(), create a
    whiteout if the same file or directory exists in a lower branch. *)
Definition maybe_whiteout (path : string) (branch_rw : Z) (mode : whiteout)
  : M Z :=
  b <- find_rorw_branch path ;;
  if negb (b =? -1) then do_create_whiteout uopt path branch_rw mode
  else ret 0.

(** [set_owner]: set the owner of a file after the operation that
    created it. *)
Definition set_owner (path : string) (branch : Z) : M Z :=
  if negb (ctx_uid ctx =? 0) && negb (ctx_gid ctx =? 0) then
    res <- branch_lchown uopt (ctx_uid ctx) (ctx_gid ctx) branch [path] ;;
    if negb (res =? 0) then e <- get_errno ;; ret (- e) else ret 0
  else ret 0.

End Callers.


(** ** A small kernel to run the code on

    Objects are kept by the list of their path components; every object
    carries its [struct stat] and, for a symbolic link, its target.  The
    kernel knows the usual rules: a name is created only inside an
    existing directory, [chown] is refused with EPERM to an unprivileged
    caller and with EINVAL for an id the caller's user namespace does
    not map. *)

Module Kernel.

Definition EEXIST : Z := 17.
Definition ENOTDIR : Z := 20.
Definition EINVAL : Z := 22.
Definition EBADF : Z := 9.
Definition ENOSYS : Z := 38.
Definition ENOTEMPTY : Z := 39.

Record node := mknode { nstat : stat_t; ntarget : string }.

Record kworld := mkworld {
  nodes : list (list string * node);
  dirfds : list (Z * list string);   (* open directory handles *)
  fds : list Z;                      (* open file descriptors *)
  euid : Z;
  egid : Z;
  cur_umask : Z;
  id_limit : Z                       (* ids above it are not mapped *)
}.

(** Path resolution: the components of a path, empty names and "."
    dropped. *)
Fixpoint components_from (s : string) (cur : string) : list string :=
  let flush := if String.eqb cur EmptyString || String.eqb cur "." then [] else [cur] in
  match s with
  | EmptyString => flush
  | String c s' =>
      if is_slash c then flush ++ components_from s' EmptyString
      else components_from s' (cur ++ String c EmptyString)%string
  end.

Definition components (s : string) : list string :=
  components_from s EmptyString.

Fixpoint key_eqb (a b : list string) : bool :=
  match a, b with
  | [], [] => true
  | x :: a', y :: b' => String.eqb x y && key_eqb a' b'
  | _, _ => false
  end.

Fixpoint lookup {A} (k : list string) (m : list (list string * A)) : option A :=
  match m with
  | [] => None
  | (k', v) :: m' => if key_eqb k k' then Some v else lookup k m'
  end.

Fixpoint remove_key {A} (k : list string) (m : list (list string * A))
  : list (list string * A) :=
  match m with
  | [] => []
  | (k', v) :: m' =>
      if key_eqb k k' then remove_key k m' else (k', v) :: remove_key k m'
  end.

Definition update {A} (k : list string) (v : A) (m : list (list string * A))
  : list (list string * A) :=
  (k, v) :: remove_key k m.

Fixpoint lookup_fd (d : Z) (m : list (Z * list string)) : option (list string) :=
  match m with
  | [] => None
  | (d', k) :: m' => if d =? d' then Some k else lookup_fd d m'
  end.

(** The object a location names; [None] for a stale directory handle. *)
Definition resolve (w : kworld) (l : loc) : option (list string) :=
  match l with
  | Abs p => Some (components p)
  | AtFd d rel =>
      match lookup_fd d (dirfds w) with
      | Some root => Some (root ++ components rel)
      | None => None
      end
  end.

Definition is_dir (n : node) : bool := S_ISDIR (st_mode (nstat n)).

(** The directory a new name goes into exists; the root always does. *)
Definition parent_ok (w : kworld) (k : list string) : bool :=
  match removelast k with
  | [] => true
  | par => match lookup par (nodes w) with
           | Some n => is_dir n
           | None => false
           end
  end.

Definition with_nodes (w : kworld) (ns : list (list string * node)) : kworld :=
  mkworld ns (dirfds w) (fds w) (euid w) (egid w) (cur_umask w) (id_limit w).

Definition with_fds (w : kworld) (l : list Z) : kworld :=
  mkworld (nodes w) (dirfds w) l (euid w) (egid w) (cur_umask w) (id_limit w).

Definition with_umask (w : kworld) (m : Z) : kworld :=
  mkworld (nodes w) (dirfds w) (fds w) (euid w) (egid w) m (id_limit w).

Definition fresh_stat (w : kworld) (fmt mode dev : Z) : stat_t :=
  mkstat (Z.lor fmt (Z.land (Z.land mode 4095) (Z.lnot (cur_umask w))))
         (euid w) (egid w) 0 0 0 dev 0.

(** Create a new object of type [fmt]. *)
Definition create (w : kworld) (l : loc) (fmt mode dev : Z) (target : string)
  : reply * kworld :=
  match resolve w l with
  | None => (Fail EBADF, w)
  | Some k =>
      match lookup k (nodes w) with
      | Some _ => (Fail EEXIST, w)
      | None =>
          if parent_ok w k then
            (Ok 0, with_nodes w
               (update k (mknode (fresh_stat w fmt mode dev) target) (nodes w)))
          else (Fail ENOENT, w)
      end
  end.

(** Change the [struct stat] of an existing object. *)
Definition change (w : kworld) (l : loc) (f : stat_t -> stat_t)
  : reply * kworld :=
  match resolve w l with
  | None => (Fail EBADF, w)
  | Some k =>
      match lookup k (nodes w) with
      | None => (Fail ENOENT, w)
      | Some n =>
          (Ok 0, with_nodes w
             (update k (mknode (f (nstat n)) (ntarget n)) (nodes w)))
      end
  end.

Definition do_lstat (w : kworld) (l : loc) : reply :=
  match resolve w l with
  | None => Fail EBADF
  | Some [] => OkStat (mkstat (Z.lor S_IFDIR 493) 0 0 0 0 0 0 0)
  | Some k =>
      match lookup k (nodes w) with
      | Some n => OkStat (nstat n)
      | None => Fail ENOENT
      end
  end.

(** [stat] follows a symbolic link once, to an absolute target. *)
Definition do_stat (w : kworld) (l : loc) : reply :=
  match resolve w l with
  | None => Fail EBADF
  | Some [] => do_lstat w l
  | Some k =>
      match lookup k (nodes w) with
      | Some n =>
          if S_ISLNK (st_mode (nstat n))
          then do_lstat w (Abs (ntarget n))
          else OkStat (nstat n)
      | None => Fail ENOENT
      end
  end.

Definition do_chown (w : kworld) (l : loc) (owner group : Z) : reply * kworld :=
  match do_lstat w l with
  | OkStat st =>
      if (id_limit w <? owner) || (id_limit w <? group) then (Fail EINVAL, w)
      else if (euid w =? 0) || ((owner =? st_uid st) && (group =? st_gid st))
      then change w l (fun st =>
             mkstat (st_mode st) owner group (st_size st) (st_atime st)
                    (st_mtime st) (st_rdev st) (st_flags st))
      else (Fail EPERM, w)
  | r => (r, w)
  end.

Definition do_open (w : kworld) (l : loc) (flags mode : Z) : reply * kworld :=
  let d := 3 + Z.of_nat (List.length (fds w)) + Z.of_nat (List.length (dirfds w)) in
  match do_lstat w l with
  | OkStat _ => (Ok d, with_fds w (d :: fds w))
  | Fail e =>
      if (e =? ENOENT) && negb (Z.land flags O_CREAT =? 0) then
        match create w l S_IFREG mode 0 EmptyString with
        | (Ok _, w') => (Ok d, with_fds w' (d :: fds w'))
        | r => r
        end
      else (Fail e, w)
  | r => (r, w)
  end.

Definition do_remove (w : kworld) (l : loc) (dir : bool) : reply * kworld :=
  match resolve w l with
  | None => (Fail EBADF, w)
  | Some k =>
      match lookup k (nodes w) with
      | None => (Fail ENOENT, w)
      | Some n =>
          if Bool.eqb (is_dir n) dir
          then (Ok 0, with_nodes w (remove_key k (nodes w)))
          else (Fail (if dir then ENOTDIR else EPERM), w)
      end
  end.

Definition kernel (c : syscall) (w : kworld) : reply * kworld :=
  match c with
  | Stat l => (do_stat w l, w)
  | Lstat l => (do_lstat w l, w)
  | Open l flags mode => do_open w l flags mode
  | Creat l mode => do_open w l (Z.lor O_CREAT (Z.lor O_WRONLY O_TRUNC)) mode
  | Close d =>
      if (0 <=? d) && existsb (Z.eqb d) (fds w)
      then (Ok 0, with_fds w (filter (fun x => negb (x =? d)) (fds w)))
      else (Fail EBADF, w)
  | Mkdir l mode => create w l S_IFDIR mode 0 EmptyString
  | Mkfifo l mode => create w l S_IFIFO mode 0 EmptyString
  | Mknod l mode dev => create w l (Z.land mode S_IFMT) mode dev EmptyString
  | Symlink target l => create w l S_IFLNK 511 0 target
  | Readlink l _ =>
      match resolve w l with
      | None => (Fail EBADF, w)
      | Some k =>
          match lookup k (nodes w) with
          | Some n => if S_ISLNK (st_mode (nstat n))
                      then (OkStr (ntarget n), w) else (Fail EINVAL, w)
          | None => (Fail ENOENT, w)
          end
      end
  | Rmdir l => do_remove w l true
  | Unlink l => do_remove w l false
  | Chown l owner group => do_chown w l owner group
  | Lchown l owner group => do_chown w l owner group
  | Chmod l mode =>
      change w l (fun st =>
        mkstat (Z.lor (Z.land (st_mode st) S_IFMT) (Z.land mode 4095))
               (st_uid st) (st_gid st) (st_size st) (st_atime st)
               (st_mtime st) (st_rdev st) (st_flags st))
  | Utimens l atime mtime | Utimes l atime mtime =>
      change w l (fun st =>
        mkstat (st_mode st) (st_uid st) (st_gid st) (st_size st) atime mtime
               (st_rdev st) (st_flags st))
  | Getuid => (Ok (euid w), w)
  | Umask m => (Ok (cur_umask w), with_umask w (Z.land m 511))
  | Setlocale => (Ok 0, w)
  | _ => (Fail ENOSYS, w)
  end.

(** [n'] is a symbolic link when [n] is, to the same target. *)
Definition node_like (n n' : node) : Prop :=
  S_ISLNK (st_mode (nstat n')) = S_ISLNK (st_mode (nstat n)) /\
  ntarget n' = ntarget n.

(** Every object of [m] is still in [m'], as the same kind of link. *)
Definition grows (m m' : list (list string * node)) : Prop :=
  forall k n, lookup k m = Some n ->
              exists n', lookup k m' = Some n' /\ node_like n n'.

(** Modelled from the spec: [u_dirname] of string.c, which is not part
    of the sources at hand; the dirname of a path as dirname(3) has it:
    the path up to its last name, without the slashes in between, and
    "/" or "." when nothing is left. *)
Fixpoint rev_string (s acc : string) : string :=
  match s with
  | EmptyString => acc
  | String c s' => rev_string s' (String c acc)
  end.

Definition dirname (p : string) : string :=
  let r := skip_slashes (rev_string p EmptyString) in   (* trailing slashes *)
  match r, p with
  | EmptyString, String _ _ => "/"%string
  | _, _ =>
      match skip_name r with                            (* the last name *)
      | EmptyString => "."%string
      | r' => match skip_slashes r' with
              | EmptyString => "/"%string
              | r'' => rev_string r'' EmptyString
              end
      end
  end.

(** Modelled from the spec: [build_path] of string.c, of which only the
    declaration in string.h is at hand; the strings one after the
    other, refused when they exceed the maximum length. *)
Definition build_path (max_len : Z) (l : list string) : option string :=
  if max_len <=? strlen (concat_all l) then None else Some (concat_all l).

#[export] Instance platform (at_family : bool) : Platform := {
  World := kworld;
  os := kernel;
  PATHLEN_MAX := 64;
  METADIR := ".unionfs/";
  HIDETAG := "_HIDDEN~";
  HAVE_AT_FAMILY := at_family;
  HAVE_CHFLAGS := false;
  u_dirname := fun p => Some (dirname p);
  build_path := build_path;
  indet := mkstat 0 0 0 0 0 0 0 0
}.

End Kernel.

(** ** A kernel that answers from a script *)

Module Script.

(** The world is the list of the answers still to give, whatever the
    calls are; past its end every call fails. *)
Definition scripted (c : syscall) (w : list reply) : reply * list reply :=
  match w with
  | [] => (Fail Kernel.ENOSYS, [])
  | r :: w' => (r, w')
  end.

Definition platform (at_family : bool) : Platform := {|
  World := list reply;
  os := scripted;
  PATHLEN_MAX := 64;
  METADIR := ".unionfs/";
  HIDETAG := "_HIDDEN~";
  HAVE_AT_FAMILY := at_family;
  HAVE_CHFLAGS := false;
  u_dirname := fun p => Some (Kernel.dirname p);
  build_path := Kernel.build_path;
  indet := mkstat 0 0 0 0 0 0 0 0
|}.

Definition start (at_family : bool) (w : list reply)
  : @state (platform at_family) :=
  @mkstate (platform at_family) w 0 [].

End Script.

(** ** A file served block by block *)

Module Blocks.

(** The answers of the kernel to the loop of [copy_file] on a file of
    the given blocks: every read() hands out a block, every write()
    takes all of it, the last read() finds the end of the file. *)
Fixpoint answers (blocks : list string) : list reply :=
  match blocks with
  | [] => [Ok 0]
  | b :: bs => OkStr b :: Ok (strlen b) :: answers bs
  end.

(** The calls that carry these blocks from [from_fd] to [to_fd]. *)
Fixpoint transfers (from_fd to_fd : Z) (blocks : list string) : list syscall :=
  match blocks with
  | [] => [Read from_fd MAXBSIZE]
  | b :: bs =>
      Read from_fd MAXBSIZE :: Write to_fd b (strlen b)
      :: transfers from_fd to_fd bs
  end.

End Blocks.

(** ** What a call of the small kernel can change *)

Module KernelReach.
Import Kernel.

(** From [w] to [w'] the directory handles stay, and so does every
    object but the one that [l] names. *)
Definition only_at (l : loc) (w w' : kworld) : Prop :=
  dirfds w' = dirfds w /\
  forall k, (forall k', resolve w l = Some k' -> k <> k') ->
            lookup k (nodes w') = lookup k (nodes w).

End KernelReach.




(** * Vocabulary of the statements *)

Section Vocabulary.
Context {P : Platform}.
Variable uopt : uopt_t.

(** The status a computation returned, if it returned. *)
Definition status {A} (r : result A) : option A :=
  match r with Val a _ => Some a | Fault _ _ => None end.

(** The state a computation stopped in. *)
Definition final {A} (r : result A) : state :=
  match r with Val _ s => s | Fault _ s => s end.

(** The entry of a configured branch. *)
Definition branch_entry_at (branch : Z) : option branch_entry :=
  if branch <? 0 then None else nth_error (branches uopt) (Z.to_nat branch).

(** What goes in front of the components: nothing with the openat
    family, the root of the branch otherwise. *)
Definition root_prefix (branch : Z) : option string :=
  if HAVE_AT_FAMILY then Some EmptyString
  else option_map path (branch_entry_at branch).

(** The path a branch operation constructs, when it fits. *)
Definition built_path (branch : Z) (ap : list string) : option string :=
  match root_prefix branch with
  | Some root =>
      if strlen root + strlen (concat_all ap) <? PATHLEN_MAX
      then Some (root ++ concat_all ap)%string else None
  | None => None
  end.

(** The object a branch operation then addresses. *)
Definition built_loc (branch : Z) (ap : list string) : option loc :=
  match built_path branch ap with
  | Some p =>
      if HAVE_AT_FAMILY then
        option_map (fun b => AtFd (fd b) (relative p)) (branch_entry_at branch)
      else Some (Abs p)
  | None => None
  end.

(** A configured branch whose root leaves room in a path buffer. *)
Definition branch_ready (branch : Z) : Prop :=
  exists b root,
    branch_entry_at branch = Some b /\
    root_prefix branch = Some root /\
    strlen root < PATHLEN_MAX.

Definition succeeds (r : reply) : bool :=
  match r with Fail _ => false | _ => true end.

(** [lstat] and [stat] find an object at [l]. *)
Definition lstat_ok (w : World) (l : loc) : Prop :=
  succeeds (fst (os (Lstat l) w)) = true.

Definition stat_ok (w : World) (l : loc) : Prop :=
  succeeds (fst (os (Stat l) w)) = true.

(** The last character of [s] belongs to a name. *)
Fixpoint ends_in_name (s : string) : bool :=
  match s with
  | EmptyString => false
  | String c EmptyString => negb (is_slash c)
  | String _ s' => ends_in_name s'
  end.

(** [s] is at its end or goes on with a slash. *)
Definition at_boundary (s : string) : bool :=
  match s with
  | EmptyString => true
  | String c _ => is_slash c
  end.

(** [pre] is a prefix of [path] under path-component decomposition: it
    stops right behind a name of [path]; a path without any name has
    itself as its only prefix. *)
Definition component_prefix (pre path : string) : Prop :=
  exists rest,
    path = (pre ++ rest)%string /\
    ((ends_in_name pre = true /\ at_boundary rest = true) \/
     (skip_slashes path = EmptyString /\ rest = EmptyString)).

(** The strings the walk cuts [p] off at, one per round. *)
Fixpoint prefixes_from (fuel : nat) (pre rest : string) : list string :=
  let pre := (pre ++ take_name rest)%string in
  let rest := skip_name rest in
  pre ::
  let pre := (pre ++ take_slashes rest)%string in
  let rest := skip_slashes rest in
  match rest with
  | EmptyString => []
  | _ => match fuel with
         | O => []
         | S fuel' => prefixes_from fuel' pre rest
         end
  end.

Definition walk_prefixes (p : string) : list string :=
  prefixes_from (String.length p) (take_slashes p) (skip_slashes p).

(** [body] tried on the strings of a list until it returns. *)
Fixpoint try_each {A} (body : string -> M (option A)) (dflt : A)
  (l : list string) : M A :=
  match l with
  | [] => ret dflt
  | p :: l' =>
      r <- body p ;;
      match r with
      | Some a => ret a
      | None => try_each body dflt l'
      end
  end.

(** The branch operations that take their path through [va_build_path],
    with the arguments that are not part of the path. *)
Inductive branch_op :=
| OP_lstat (buf : stat_t)
| OP_stat (buf : stat_t)
| OP_open (flags mode : Z)
| OP_opendir
| OP_mkdir (mode : Z)
| OP_rmdir
| OP_unlink
| OP_lchown (owner group : Z)
| OP_chown (owner group : Z)
| OP_chmod (mode : Z)
| OP_creat (mode : Z)
| OP_mknod (mode dev : Z)
| OP_mkfifo (mode : Z)
| OP_readlink (buf : string) (bufsiz : Z)
| OP_symlink (oldpath : string)
| OP_truncate (length : Z)
| OP_utimens (atime mtime : Z)
| OP_chflags (flags : Z)
| OP_lsetxattr (name value : string) (flags : Z)
| OP_lgetxattr (name : string) (size : Z)
| OP_llistxattr (size : Z)
| OP_lremovexattr (name : string).

(** The C return value of an operation on a branch and a component list. *)
Definition run_op (op : branch_op) (branch : Z) (ap : list string) : M Z :=
  match op with
  | OP_lstat buf => r <- branch_lstat uopt buf branch ap ;; ret (fst r)
  | OP_stat buf => r <- branch_stat uopt buf branch ap ;; ret (fst r)
  | OP_open flags mode => branch_open uopt flags mode branch ap
  | OP_opendir => branch_opendir uopt branch ap
  | OP_mkdir mode => branch_mkdir uopt mode branch ap
  | OP_rmdir => branch_rmdir uopt branch ap
  | OP_unlink => branch_unlink uopt branch ap
  | OP_lchown o g => branch_lchown uopt o g branch ap
  | OP_chown o g => branch_chown uopt o g branch ap
  | OP_chmod mode => branch_chmod uopt mode branch ap
  | OP_creat mode => branch_creat uopt mode branch ap
  | OP_mknod mode dev => branch_mknod uopt mode dev branch ap
  | OP_mkfifo mode => branch_mkfifo uopt mode branch ap
  | OP_readlink buf bufsiz =>
      r <- branch_readlink uopt buf bufsiz branch ap ;; ret (fst r)
  | OP_symlink oldpath => branch_symlink uopt oldpath branch ap
  | OP_truncate length => branch_truncate uopt length branch ap
  | OP_utimens atime mtime => branch_utimens uopt atime mtime branch ap
  | OP_chflags flags => branch_chflags uopt flags branch ap
  | OP_lsetxattr name value flags =>
      branch_lsetxattr uopt name value flags branch ap
  | OP_lgetxattr name size => branch_lgetxattr uopt name size branch ap
  | OP_llistxattr size => branch_llistxattr uopt size branch ap
  | OP_lremovexattr name => branch_lremovexattr uopt name branch ap
  end.

(** What a failed operation returns: NULL from [branch_opendir], the
    negated [errno] from the others. *)
Definition failure_value (op : branch_op) (e : Z) : Z :=
  match op with OP_opendir => 0 | _ => - e end.


(** The locations a trace probes with [lstat]. *)
Definition lstat_locs (t : list syscall) : list loc :=
  flat_map (fun c => match c with Lstat l => [l] | _ => [] end) t.

(** What [cow_cp] does between the creation of the parents and the
    dispatch on the file type: it captures uid and umask and probes the
    source. *)
Definition cow_probe (path : string) (branch_ro : Z)
  : M (Z * Z * (Z * stat_t)) :=
  sys Setlocale ;;
  uid <- sys_rv Getuid ;;
  umask <- sys_rv (Umask 0) ;;
  sys (Umask umask) ;;
  r <- branch_lstat uopt indet branch_ro [path] ;;
  ret (uid, umask, r).


(** The object the whiteout of [path] would be on branch [i]. *)
Definition marker_loc (path : string) (i : Z) : option loc :=
  built_loc i [METADIR; path; HIDETAG].

(** The whiteout objects of [path] on the [n] branches from [i] on, when
    each of these branches is configured and the path fits on it. *)
Fixpoint all_markers (path : string) (i : Z) (n : nat) : option (list loc) :=
  match n with
  | O => Some []
  | S n' =>
      match marker_loc path i, all_markers path (i + 1) n' with
      | Some l, Some ls => Some (l :: ls)
      | _, _ => None
      end
  end.


(** [lstat] only looks. *)
Definition lstat_pure : Prop :=
  forall l w, snd (os (Lstat l) w) = w.

(** Whether [lstat] finds the whiteout of [p] on branch [b] in the
    world [w]. *)
Definition marker_seen (w : World) (b : Z) (p : string) : bool :=
  match marker_loc p b with
  | Some l => succeeds (fst (os (Lstat l) w))
  | None => false
  end.


(** What the whiteout protocol needs of the kernel: [lstat] only looks,
    an object that [open] has opened or created is there for [lstat],
    [close] removes no object and refuses a negative descriptor. *)
Record whiteout_laws : Prop := {
  wl_lstat : lstat_pure;
  wl_open : forall l flags mode w,
      succeeds (fst (os (Open l flags mode) w)) = true ->
      lstat_ok (snd (os (Open l flags mode) w)) l;
  wl_close : forall d w l,
      lstat_ok w l -> lstat_ok (snd (os (Close d) w)) l;
  wl_close_bad : forall d w,
      d < 0 -> succeeds (fst (os (Close d) w)) = false
}.


(** [stat] only looks. *)
Definition stat_pure : Prop :=
  forall l w, snd (os (Stat l) w) = w.

(** The calls [path_create] makes. *)
Definition lays_path (c : syscall) : bool :=
  match c with
  | Stat _ | Lstat _ | Mkdir _ _ | Utimens _ _ _ | Utimes _ _ _
  | Chown _ _ _ | Chmod _ _ | Chflags _ _ => true
  | _ => false
  end.

(** What the creation of directories needs of the kernel: [stat] only
    looks, a directory that [mkdir] has made is there for [stat], and
    none of the calls of [path_create] takes away what [stat] found. *)
Record directory_laws : Prop := {
  dl_stat : stat_pure;
  dl_mkdir : forall l mode w,
      succeeds (fst (os (Mkdir l mode) w)) = true ->
      stat_ok (snd (os (Mkdir l mode) w)) l;
  dl_keeps : forall c w l,
      lays_path c = true -> stat_ok w l -> stat_ok (snd (os c w)) l
}.

Definition is_stat (c : syscall) : bool :=
  match c with Stat _ => true | _ => false end.

(** [do_create] finds [p] on branch [rw], or finds its path too long. *)
Definition settled (rw : Z) (w : World) (p : string) : Prop :=
  match built_loc rw [p] with
  | Some l => stat_ok w l
  | None => forall s, branch_stat uopt indet rw [p] s
                      = Val (- ENAMETOOLONG, indet)
                            (mkstate (world s) ENAMETOOLONG (trace s))
  end.

(** A computation that takes nothing away from what [stat] finds. *)
Definition keeps {A} (m : M A) : Prop :=
  forall s r s', m s = Val r s' ->
                 forall l, stat_ok (world s) l -> stat_ok (world s') l.


(** [hide_file] and [filedir_hidden] mean the same object: where
    [build_path] has composed the metadata path of [path] and the
    marker path fits on branch [b], the path [filedir_hidden] probes
    fits as well, and lstat finds an object there whenever it finds one
    at the marker. *)
Definition marker_agrees (path : string) (b : Z) : Prop :=
  forall metapath l,
    build_path PATHLEN_MAX [METADIR; path] = Some metapath ->
    built_loc b [metapath; HIDETAG] = Some l ->
    exists l', marker_loc path b = Some l' /\
               forall w, lstat_ok w l -> lstat_ok w l'.

End Vocabulary.

(** ** More vocabulary: single calls and the calls of a run *)

Section Calls.
Context {P : Platform}.
Variable uopt : uopt_t.

(** The state after the call [c] that the kernel answered with [r],
    moving to the world [w]. *)
Definition after (c : syscall) (r : reply) (w : World) (s : state) : state :=
  mkstate w (match r with Fail e => e | _ => errno s end) (trace s ++ [c]).

(** The state a refused path leaves behind. *)
Definition refused (s : state) : state :=
  mkstate (world s) ENAMETOOLONG (trace s).

(** Every call a computation makes, wherever it is started and however
    it ends, satisfies [Q]. *)
Definition emits (Q : syscall -> Prop) {A} (m : M A) : Prop :=
  forall s, exists calls,
    trace (final (m s)) = (trace s ++ calls)%list /\ Forall Q calls.

End Calls.

Section Handles.
Context {P : Platform}.

(** The [DIR *] in an answer of opendir() or fdopendir(); 0 is NULL. *)
Definition dir_handle (r : reply) : Z :=
  match r with Ok dir => dir | _ => 0 end.

End Handles.

Section Metadata.
Context {P : Platform}.

(** chown() has failed with something else than EPERM. *)
Definition chown_fatal (r : reply) : bool :=
  match r with Fail e => negb (e =? EPERM) | _ => false end.

End Metadata.

Section CopyFile.
Context {P : Platform}.

(** The two opens of [copy_file]: the source for reading, the
    destination created with the mode of the source less its sticky,
    setuid and setgid bits. *)
Definition open_source (l : loc) : syscall := Open l O_RDONLY 0.

Definition open_copy (l : loc) (fs : stat_t) : syscall :=
  Open l (lor3 O_WRONLY O_TRUNC O_CREAT)
       (Z.land (st_mode fs) (Z.lnot (lor3 S_ISTXT S_ISUID S_ISGID))).

(** The state after both opens have answered with a descriptor. *)
Definition both_open (lf lt : loc) (fs : stat_t) (d1 : Z) (w1 : World)
  (d2 : Z) (w2 : World) (s : state) : state :=
  after (open_copy lt fs) (Ok d2) w2 (after (open_source lf) (Ok d1) w1 s).

End CopyFile.

Section Reach.
Context {P : Platform}.
Variable uopt : uopt_t.

(** The object a call of [lays_path] names. *)
Definition target (c : syscall) : option loc :=
  match c with
  | Stat l | Lstat l | Mkdir l _ | Utimens l _ _ | Utimes l _ _
  | Chown l _ _ | Chmod l _ | Chflags l _ => Some l
  | _ => None
  end.

(** lstat() of the whiteout of a component prefix of [path] on
    [branch]. *)
Definition probes_marker (path : string) (branch : Z) (c : syscall) : Prop :=
  exists p l,
    component_prefix p path /\
    marker_loc uopt p branch = Some l /\
    c = Lstat l.

(** lstat(), unlink() or rmdir() of the whiteout of [path] on one of
    the branches. *)
Definition clears_marker (path : string) (c : syscall) : Prop :=
  exists i l,
    marker_loc uopt path i = Some l /\
    (c = Lstat l \/ c = Unlink l \/ c = Rmdir l).

(** stat() of anything, or one of the calls of [lays_path] on a
    component prefix of [path] on branch [rw]. *)
Definition lays_ancestor (path : string) (rw : Z) (c : syscall) : Prop :=
  (exists l, c = Stat l) \/
  exists p l,
    component_prefix p path /\
    built_loc uopt rw [p] = Some l /\
    target c = Some l /\
    lays_path c = true.

(** stat() of anything, or mkdir() with the mode 0770 of a component
    prefix of [path] on branch [b]. *)
Definition lays_metadata (path : string) (b : Z) (c : syscall) : Prop :=
  (exists l, c = Stat l) \/
  exists p l,
    component_prefix p path /\
    built_loc uopt b [p] = Some l /\
    c = Mkdir l (Z.lor S_IRWXU S_IRWXG).

(** A directory that mkdir() has made is there for lstat(). *)
Definition mkdir_seen : Prop :=
  forall l mode w,
    succeeds (fst (os (Mkdir l mode) w)) = true ->
    lstat_ok (snd (os (Mkdir l mode) w)) l.

(** [hide_file] or [hide_dir], by the whiteout mode. *)
Definition hide_or_dir (mode : whiteout) (path : string) (branch_rw : Z)
  : M Z :=
  match mode with
  | WHITEOUT_FILE => hide_file uopt path branch_rw
  | WHITEOUT_DIR => hide_dir uopt path branch_rw
  end.

(** The calls of [remove_hidden]. *)
Definition clears (c : syscall) : bool :=
  match c with
  | Lstat _ | Unlink _ | Rmdir _ => true
  | _ => false
  end.

(** What the removal of the whiteout at [l] needs of the kernel:
    lstat() only looks and answers with a failure or a [struct stat];
    the kernel lets the whiteout go, so that after unlink() of what
    lstat() found as a file, and after rmdir() of what it found as a
    directory, lstat() finds nothing; and none of the calls of
    [remove_hidden] brings back what is gone. *)
Record removal_laws (l : loc) : Prop := {
  rl_lstat : lstat_pure;
  rl_shape : forall w,
      (exists e, fst (os (Lstat l) w) = Fail e) \/
      (exists st, fst (os (Lstat l) w) = OkStat st);
  rl_unlink : forall w st,
      fst (os (Lstat l) w) = OkStat st -> S_ISDIR (st_mode st) = false ->
      ~ lstat_ok (snd (os (Unlink l) w)) l;
  rl_rmdir : forall w st,
      fst (os (Lstat l) w) = OkStat st -> S_ISDIR (st_mode st) = true ->
      ~ lstat_ok (snd (os (Rmdir l) w)) l;
  rl_gone : forall c w,
      clears c = true -> ~ lstat_ok w l -> ~ lstat_ok (snd (os c w)) l
}.

(** The calls that name no path: they go by a descriptor or a handle,
    or concern the process. *)
Definition by_descriptor (c : syscall) : bool :=
  match c with
  | Close _ | Fdopendir _ | Readdir _ | Closedir _ | Read _ _ | Write _ _ _
  | Mmap _ _ | Madvise _ | Munmap _ | Fstat _ | Fchmod _ _
  | Getuid | Umask _ | Setlocale => true
  | _ => false
  end.

(** The calls that name a path and only read what is there. *)
Definition looks (c : syscall) : bool :=
  match c with
  | Stat _ | Lstat _ | Readlink _ _ | Opendir _ => true
  | Open _ flags _ =>
      (flags =? O_RDONLY) || (flags =? Z.lor O_RDONLY O_DIRECTORY)
  | _ => false
  end.

(** The object a call with one path names. *)
Definition place (c : syscall) : option loc :=
  match c with
  | Stat l | Lstat l | Open l _ _ | Creat l _ | Opendir l | Mkdir l _
  | Rmdir l | Unlink l | Lchown l _ _ | Chown l _ _ | Chmod l _
  | Mknod l _ _ | Mkfifo l _ | Readlink l _ | Symlink _ l | Truncate l _
  | Utimens l _ _ | Utimes l _ _ | Chflags l _ | Setxattr l _ _ _
  | Getxattr l _ _ | Listxattr l _ | Removexattr l _ => Some l
  | _ => None
  end.

(** A call that leaves every branch but [rw] as it is: it names no
    path, or only reads, or names an object of branch [rw]. *)
Definition spares_source (rw : Z) (c : syscall) : Prop :=
  by_descriptor c = true \/
  looks c = true \/
  exists p l, built_loc uopt rw [p] = Some l /\ place c = Some l.

(** The calls that create a whiteout on branch [b]: stat(), mkdir() of
    a metadata directory or of the whiteout directory, open() of the
    whiteout file without O_TRUNC, and close(). *)
Definition adds_whiteout (b : Z) (c : syscall) : Prop :=
  (exists l, c = Stat l) \/
  (exists ap l,
      built_loc uopt b ap = Some l /\
      (c = Mkdir l (Z.lor S_IRWXU S_IRWXG) \/
       c = Mkdir l S_IRWXU \/
       c = Open l (Z.lor O_WRONLY O_CREAT) (Z.lor S_IRUSR S_IWUSR))) \/
  (exists d, c = Close d).

(** What [cow_cp] does with the result of the probe: it returns a
    failure, or copies by file type. *)
Definition cow_dispatch (fuel : nat) (path : string) (branch_ro branch_rw : Z)
  (probe : Z * Z * (Z * stat_t)) : M Z :=
  let '(uid, umask, (res, buf)) := probe in
  if negb (res =? 0) then ret res else
  let cow := mkcow umask uid branch_ro path buf branch_rw path in
  let fmt := Z.land (st_mode buf) S_IFMT in
  if fmt =? S_IFLNK then copy_link uopt cow
  else if fmt =? S_IFDIR then
    match fuel with
    | O => raise OutOfFuel
    | S fuel' =>
        copy_directory_with uopt fuel (cow_cp uopt fuel') path branch_ro branch_rw
    end
  else if (fmt =? S_IFBLK) || (fmt =? S_IFCHR) then copy_special uopt cow
  else if fmt =? S_IFIFO then copy_fifo uopt cow
  else if fmt =? S_IFSOCK then ret 1
  else copy_file uopt fuel cow.

(** The calls of [copy_file] once the data are written: the metadata
    calls of [setfile] on the destination [lt], fstat() and fchmod() of
    its descriptor, and close() of the two descriptors. *)
Definition finishes_copy (lt : loc) (from_fd to_fd : Z) (c : syscall) : Prop :=
  c = Close from_fd \/ c = Close to_fd \/ c = Fstat to_fd \/
  (exists mode, c = Fchmod to_fd mode) \/
  (target c = Some lt /\ lays_path c = true).

(** The world after the calls of a list, one after the other. *)
Fixpoint replay (calls : list syscall) (w : World) : World :=
  match calls with
  | [] => w
  | c :: calls' => replay calls' (snd (os c w))
  end.

(** A computation that changes the world through its calls only. *)
Definition replays {A} (m : M A) : Prop :=
  forall s, exists calls,
    trace (final (m s)) = (trace s ++ calls)%list /\
    world (final (m s)) = replay calls (world s).

(** The call [c] brings no object to [l]: what lstat() does not find
    there before the call, it does not find after it. *)
Definition brings_nothing (l : loc) (c : syscall) : Prop :=
  forall w, ~ lstat_ok w l -> ~ lstat_ok (snd (os c w)) l.

(** What the absence of [dest] needs of the kernel while the directories
    of [dname] above it are made on branch [rw]: a call that only looks,
    goes by a descriptor or concerns the process brings nothing to
    [dest], and neither does a call that names one of these
    directories. *)
Record absence_laws (dest : loc) (dname : string) (rw : Z) : Prop := {
  al_looks : forall c,
      looks c = true \/ by_descriptor c = true -> brings_nothing dest c;
  al_above : forall p l c,
      component_prefix p dname ->
      built_loc uopt rw [p] = Some l ->
      place c = Some l ->
      brings_nothing dest c
}.

End Reach.






(** * Two branches to run the code on *)

Module Demo.
Import Kernel.

Local Open Scope string_scope.

Definition dir (mode uid gid : Z) : node :=
  mknode (mkstat (Z.lor S_IFDIR mode) uid gid 0 100 200 0 0) EmptyString.

Definition file (fmt mode uid gid : Z) : node :=
  mknode (mkstat (Z.lor fmt mode) uid gid 0 300 400 0 0) EmptyString.

(** Branch 0 is /ro, branch 1 is /rw. *)
Definition demo_branches : list branch_entry :=
  [mkbranch "/ro" 10; mkbranch "/rw" 11].

Definition cow_on : uopt_t := mkuopt true 2 demo_branches.
Definition cow_off : uopt_t := mkuopt false 2 demo_branches.

(** /ro holds a directory with a fifo and a socket; /rw is empty.  The
    caller is root in a user namespace that maps the ids up to
    [limit]. *)
Definition tree (docs_owner limit : Z) : kworld :=
  mkworld
    [ (["ro"], dir 493 0 0);
      (["rw"], dir 493 0 0);
      (["ro"; "docs"], dir 493 docs_owner docs_owner);
      (["ro"; "docs"; "pipe"], file S_IFIFO 420 0 0);
      (["ro"; "sock"], file S_IFSOCK 420 0 0) ]
    [(10, ["ro"]); (11, ["rw"])] [] 0 0 18 limit.

Definition start (at_family : bool) (w : kworld) : @state (platform at_family) :=
  @mkstate (platform at_family) w 0 [].


(** A path of [n] characters: a slash and [n - 1] times "x". *)
Fixpoint xs (n : nat) : string :=
  match n with
  | O => EmptyString
  | S n' => String "x" (xs n')
  end.

Definition name (n : nat) : string := String "/" (xs (n - 1)).

(** /rw/f belongs to the caller, who is not root. *)
Definition user_world : kworld :=
  mkworld
    [ (["ro"], dir 493 0 0);
      (["rw"], dir 493 1000 1000);
      (["rw"; "f"], file S_IFREG 420 1000 1000) ]
    [(10, ["ro"]); (11, ["rw"])] [] 1000 1000 18 65535.

(** The [struct stat] of a setuid file of root. *)
Definition setuid_stat : stat_t :=
  mkstat (Z.lor S_IFREG 2541) 0 0 0 300 400 0 0.

(** /rw has its metadata directory already. *)
Definition tree_with_metadir : kworld :=
  mkworld
    [ (["ro"], dir 493 0 0);
      (["rw"], dir 493 0 0);
      (["rw"; ".unionfs"], dir 504 0 0) ]
    [(10, ["ro"]); (11, ["rw"])] [] 0 0 18 65535.


(** The states the runs on the first tree end in. *)
Definition after_parents : @state (platform true) :=
  Eval vm_compute in
    final (path_create cow_on "/docs" 0 1 (start true (tree 0 65535))).

Definition sock_parents : @state (platform true) :=
  Eval vm_compute in
    final (path_create_cutlast cow_on "/sock" 0 1 (start true (tree 0 65535))).

Definition sock_probed : @state (platform true) :=
  Eval vm_compute in final (cow_probe cow_on "/sock" 0 sock_parents).

Definition after_hide : @state (platform true) :=
  Eval vm_compute in
    final (hide_file cow_on "/tmp" 1 (start true (tree 0 65535))).

End Demo.

(** * Further runs, against the scripted kernel and the small one *)

Module Runs.

Local Open Scope string_scope.

(** Branch 1 of the two branches is ready for any path that fits. *)
Definition rw_ready (at_family : bool)
  : @branch_ready (Script.platform at_family) Demo.cow_on 1 :=
  ex_intro _ (mkbranch "/rw" 11)
    (ex_intro _ (if at_family then EmptyString else "/rw")
       (conj eq_refl
          (conj (if at_family as b
                   return @root_prefix (Script.platform b) Demo.cow_on 1
                          = Some (if b then EmptyString else "/rw")
                 then eq_refl else eq_refl)
                (if at_family as b
                   return strlen (if b then EmptyString else "/rw") < 64
                 then eq_refl else eq_refl)))).

Definition ro_ready
  : @branch_ready (Script.platform true) Demo.cow_on 0 :=
  ex_intro _ (mkbranch "/ro" 10)
    (ex_intro _ EmptyString (conj eq_refl (conj eq_refl eq_refl))).

(** The [struct stat] of a directory, of a symbolic link and of an
    empty file, and a [struct cow] from /f on branch 0 to branch 1. *)
Definition dir_stat : stat_t := mkstat (Z.lor S_IFDIR 493) 0 0 0 100 200 0 0.
Definition link_stat : stat_t := mkstat (Z.lor S_IFLNK 511) 0 0 0 100 200 0 0.
Definition empty_stat : stat_t := mkstat (Z.lor S_IFREG 420) 0 0 0 300 400 0 0.
Definition small_stat : stat_t := mkstat (Z.lor S_IFREG 420) 0 0 10 300 400 0 0.

Definition cow_of (p : string) (st : stat_t) : cow_t := mkcow 18 0 0 p st 1 p.

(** The state after [hide_dir] of /tmp on branch 1 of the first tree. *)
Definition after_hide_dir : @state (Kernel.platform true) :=
  Eval vm_compute in
    final (hide_dir Demo.cow_on "/tmp" 1
             (Demo.start true (Demo.tree 0 65535))).

(** A path found on branch 0, whatever it is. *)
Definition found_on_0 (p : string) : @M (Kernel.platform true) Z := ret 0.

End Runs.

(** * Properties *)

(** ** Strings *)

Lemma append_nil_r (s : string) : (s ++ EmptyString)%string = s.
Proof. induction s; simpl; congruence. Qed.

Lemma append_assoc (a b c : string) :
  ((a ++ b) ++ c)%string = (a ++ (b ++ c))%string.
Proof. induction a; simpl; congruence. Qed.

Lemma strlen_append (a b : string) : strlen (a ++ b) = strlen a + strlen b.
Proof.
  unfold strlen. induction a; simpl String.length.
  - reflexivity.
  - rewrite !Nat2Z.inj_succ. lia.
Qed.

Lemma strlen_nonneg (a : string) : 0 <= strlen a.
Proof. unfold strlen. lia. Qed.

Lemma take_skip_slashes (s : string) :
  (take_slashes s ++ skip_slashes s)%string = s.
Proof. induction s; simpl; [reflexivity|]. destruct (is_slash a); simpl; congruence. Qed.

Lemma take_skip_name (s : string) :
  (take_name s ++ skip_name s)%string = s.
Proof. induction s; simpl; [reflexivity|]. destruct (is_slash a); simpl; congruence. Qed.

Lemma skip_slashes_length (s : string) :
  (String.length (skip_slashes s) <= String.length s)%nat.
Proof. induction s; simpl; [lia|]. destruct (is_slash a); simpl; lia. Qed.

Lemma skip_name_length (s : string) :
  (String.length (skip_name s) <= String.length s)%nat.
Proof. induction s; simpl; [lia|]. destruct (is_slash a); simpl; lia. Qed.

Lemma ends_in_name_cons d z :
  z <> EmptyString -> ends_in_name (String d z) = ends_in_name z.
Proof. destruct z; [congruence|reflexivity]. Qed.

Lemma ends_in_name_app x c y :
  ends_in_name (x ++ String c y) = ends_in_name (String c y).
Proof.
  induction x as [|d x IH]; [reflexivity|].
  change (ends_in_name (String d (x ++ String c y)) = ends_in_name (String c y)).
  rewrite ends_in_name_cons; [exact IH|]. destruct x; discriminate.
Qed.

Lemma ends_in_name_app_r x y :
  y <> EmptyString -> ends_in_name (x ++ y) = ends_in_name y.
Proof. destruct y; [congruence|]. intros _. apply ends_in_name_app. Qed.

Lemma ends_in_name_nonempty x : ends_in_name x = true -> x <> EmptyString.
Proof. destruct x; [discriminate|congruence]. Qed.

Lemma at_boundary_skip_name s : at_boundary (skip_name s) = true.
Proof.
  induction s as [|c s IH]; [reflexivity|]. cbn [skip_name].
  destruct (is_slash c) eqn:E; [cbn; exact E|exact IH].
Qed.

Lemma at_boundary_take_name s :
  at_boundary s = true -> take_name s = EmptyString /\ skip_name s = s.
Proof.
  destruct s as [|c s]; [split; reflexivity|]. cbn. intros ->. split; reflexivity.
Qed.

Lemma skip_slashes_head s : 
  skip_slashes s <> EmptyString -> at_boundary (skip_slashes s) = false.
Proof.
  induction s as [|c s IH]; [cbn; congruence|]. cbn [skip_slashes].
  destruct (is_slash c) eqn:E; [exact IH|]. intros _. cbn. exact E.
Qed.

Lemma ends_in_name_take_name s :
  at_boundary s = false -> ends_in_name (take_name s) = true.
Proof.
  induction s as [|c s IH]; [discriminate|]. cbn [at_boundary take_name].
  intros E. rewrite E. destruct s as [|d s].
  - cbn. rewrite E. reflexivity.
  - cbn [take_name] in *. destruct (is_slash d) eqn:Ed.
    + cbn. rewrite E. reflexivity.
    + change (ends_in_name (String d (take_name s)) = true).
      apply IH. cbn. exact Ed.
Qed.

Lemma ends_in_name_take_slashes s : ends_in_name (take_slashes s) = false.
Proof.
  induction s as [|c s IH]; [reflexivity|]. cbn [take_slashes].
  destruct (is_slash c) eqn:E; [|reflexivity].
  destruct s as [|d s]; [cbn; rewrite E; reflexivity|].
  cbn [take_slashes] in *. destruct (is_slash d).
  - exact IH.
  - cbn. rewrite E. reflexivity.
Qed.

Lemma take_name_app_noslash a b :
  skip_name a = EmptyString ->
  take_name (a ++ b) = (a ++ take_name b)%string /\
  skip_name (a ++ b) = skip_name b.
Proof.
  induction a as [|c a IH]; [split; reflexivity|]. cbn.
  destruct (is_slash c); [discriminate|]. intros H.
  destruct (IH H) as [-> ->]. split; reflexivity.
Qed.

Lemma take_name_app_slash a b :
  skip_name a <> EmptyString ->
  take_name (a ++ b) = take_name a /\
  skip_name (a ++ b) = (skip_name a ++ b)%string.
Proof.
  induction a as [|c a IH]; [cbn; congruence|]. cbn.
  destruct (is_slash c); [split; reflexivity|]. intros H.
  destruct (IH H) as [-> ->]. split; reflexivity.
Qed.

Lemma take_slashes_app a b :
  skip_slashes a <> EmptyString ->
  take_slashes (a ++ b) = take_slashes a /\
  skip_slashes (a ++ b) = (skip_slashes a ++ b)%string.
Proof.
  induction a as [|c a IH]; [cbn; congruence|]. cbn.
  destruct (is_slash c); [|split; reflexivity]. intros H.
  destruct (IH H) as [-> ->]. split; reflexivity.
Qed.

Lemma ends_in_name_skip_slashes s :
  ends_in_name s = true -> skip_slashes s <> EmptyString.
Proof.
  intros H E. rewrite <- (take_skip_slashes s), E, append_nil_r in H.
  rewrite ends_in_name_take_slashes in H. discriminate.
Qed.

Lemma skip_slashes_app_empty a b :
  skip_slashes (a ++ b) = EmptyString -> skip_slashes a = EmptyString.
Proof.
  induction a as [|c a IH]; [reflexivity|]. cbn.
  destruct (is_slash c); [exact IH|discriminate].
Qed.

Lemma append_length a b :
  String.length (a ++ b) = (String.length a + String.length b)%nat.
Proof. induction a; cbn; congruence. Qed.

Lemma take_slashes_nonempty s :
  s <> EmptyString -> at_boundary s = true -> take_slashes s <> EmptyString.
Proof. destruct s; [congruence|]. cbn. intros _ ->. discriminate. Qed.

(** ** The monad *)

Section Facts.
Context {P : Platform}.
Variable uopt : uopt_t.

Lemma bind_Val {A B} (m : M A) (k : A -> M B) s a s' :
  m s = Val a s' -> bind m k s = k a s'.
Proof. unfold bind. intros ->. reflexivity. Qed.

(** A run is known by its status and the three fields of its state. *)
Lemma run_eq {A} (r : result A) a w e t :
  status r = Some a -> world (final r) = w -> errno (final r) = e ->
  trace (final r) = t -> r = Val a (mkstate w e t).
Proof. destruct r as [a' [w' e' t']|]; cbn; [congruence|discriminate]. Qed.

Lemma bind_Fault {A B} (m : M A) (k : A -> M B) s f s' :
  m s = Fault f s' -> bind m k s = Fault f s'.
Proof. unfold bind. intros ->. reflexivity. Qed.

Lemma branch_at_ok branch b s :
  branch_entry_at uopt branch = Some b -> branch_at uopt branch s = Val b s.
Proof.
  unfold branch_entry_at, branch_at. destruct (branch <? 0); [discriminate|].
  intros ->. reflexivity.
Qed.

Lemma branch_at_bad branch s :
  branch_entry_at uopt branch = None ->
  branch_at uopt branch s = Fault (NoSuchBranch branch) s.
Proof.
  unfold branch_entry_at, branch_at. destruct (branch <? 0); [reflexivity|].
  intros ->. reflexivity.
Qed.

Lemma va_build_loop_fits ap : forall p space s,
  strlen (concat_all ap) < space ->
  va_build_loop ap p space s = Val (0, (p ++ concat_all ap)%string) s.
Proof.
  induction ap as [|str ap IH]; intros p space s H; simpl in *.
  - rewrite append_nil_r. reflexivity.
  - rewrite strlen_append in H. pose proof (strlen_nonneg (concat_all ap)).
    destruct (Z.leb_spec (space - strlen str) 0); [lia|].
    rewrite IH by lia. rewrite append_assoc. reflexivity.
Qed.

Lemma va_build_loop_long ap : forall p space s,
  0 < space -> space <= strlen (concat_all ap) ->
  exists q, va_build_loop ap p space s
            = Val (- ENAMETOOLONG, q)
                  (mkstate (world s) ENAMETOOLONG (trace s)).
Proof.
  induction ap as [|str ap IH]; intros p space s Hpos H; simpl in *.
  - change (strlen EmptyString) with 0 in H. lia.
  - rewrite strlen_append in H.
    destruct (Z.leb_spec (space - strlen str) 0).
    + eexists. reflexivity.
    + apply IH; lia.
Qed.

Lemma va_build_path_ok branch ap p s :
  built_path uopt branch ap = Some p ->
  va_build_path uopt PATHLEN_MAX branch ap s = Val (0, p) s.
Proof.
  unfold built_path, root_prefix, va_build_path.
  destruct HAVE_AT_FAMILY.
  - change (strlen EmptyString) with 0.
    destruct (Z.ltb_spec (0 + strlen (concat_all ap)) PATHLEN_MAX); [|discriminate].
    intros [= <-]. apply va_build_loop_fits. lia.
  - destruct (branch_entry_at uopt branch) as [b|] eqn:E; [|discriminate]. simpl.
    destruct (Z.ltb_spec (strlen (path b) + strlen (concat_all ap)) PATHLEN_MAX);
      [|discriminate].
    intros [= <-]. rewrite (bind_Val _ _ _ _ _ (branch_at_ok _ _ s E)).
    pose proof (strlen_nonneg (concat_all ap)).
    destruct (Z.leb_spec PATHLEN_MAX (strlen (path b))); [lia|].
    apply va_build_loop_fits. lia.
Qed.

Lemma va_build_path_long branch ap root s :
  root_prefix uopt branch = Some root ->
  strlen root < PATHLEN_MAX ->
  PATHLEN_MAX < strlen root + strlen (concat_all ap) + 1 ->
  exists q, va_build_path uopt PATHLEN_MAX branch ap s
            = Val (- ENAMETOOLONG, q)
                  (mkstate (world s) ENAMETOOLONG (trace s)).
Proof.
  unfold root_prefix, va_build_path. destruct HAVE_AT_FAMILY.
  - intros [= <-]. change (strlen EmptyString) with 0. intros.
    apply va_build_loop_long; lia.
  - destruct (branch_entry_at uopt branch) as [b|] eqn:E; [|discriminate]. simpl.
    intros [= <-] Hfit Hlong.
    rewrite (bind_Val _ _ _ _ _ (branch_at_ok _ _ s E)).
    destruct (Z.leb_spec PATHLEN_MAX (strlen (path b))); [lia|].
    apply va_build_loop_long; lia.
Qed.

Lemma built_loc_path branch ap l :
  built_loc uopt branch ap = Some l ->
  exists p, built_path uopt branch ap = Some p /\
            forall s, branch_loc uopt branch p s = Val l s.
Proof.
  unfold built_loc, branch_loc.
  destruct (built_path uopt branch ap) as [p|]; [|discriminate].
  intros H. exists p. split; [reflexivity|]. intros s.
  destruct HAVE_AT_FAMILY.
  - destruct (branch_entry_at uopt branch) as [b|] eqn:E; [|discriminate].
    injection H as <-. rewrite (bind_Val _ _ _ _ _ (branch_at_ok _ _ s E)).
    reflexivity.
  - injection H as <-. reflexivity.
Qed.

(** With a path that fits, a wrapper is the call it wraps. *)
Lemma branch_call_ok branch ap l call s :
  built_loc uopt branch ap = Some l ->
  branch_call uopt branch ap call s = call l s.
Proof.
  intros H. destruct (built_loc_path _ _ _ H) as (p & Hp & Hl).
  unfold branch_call.
  rewrite (bind_Val _ _ _ _ _ (va_build_path_ok _ _ _ s Hp)). simpl.
  rewrite (bind_Val _ _ _ _ _ (Hl s)). reflexivity.
Qed.

Lemma branch_stat_ok branch ap l buf s :
  built_loc uopt branch ap = Some l ->
  branch_stat uopt buf branch ap s = sys_stat (Stat l) buf s.
Proof.
  intros H. destruct (built_loc_path _ _ _ H) as (p & Hp & Hl).
  unfold branch_stat.
  rewrite (bind_Val _ _ _ _ _ (va_build_path_ok _ _ _ s Hp)). simpl.
  rewrite (bind_Val _ _ _ _ _ (Hl s)). reflexivity.
Qed.

Lemma branch_lstat_ok branch ap l buf s :
  built_loc uopt branch ap = Some l ->
  branch_lstat uopt buf branch ap s = sys_stat (Lstat l) buf s.
Proof.
  intros H. destruct (built_loc_path _ _ _ H) as (p & Hp & Hl).
  unfold branch_lstat, branch_va_lstat.
  rewrite (bind_Val _ _ _ _ _ (va_build_path_ok _ _ _ s Hp)). simpl.
  rewrite (bind_Val _ _ _ _ _ (Hl s)). reflexivity.
Qed.

(** ** The bound on constructed paths *)

(** C6.  Let [root] be what goes in front of the components on the
    branch (nothing with the openat family, the branch root in prefix
    mode) and let it fit the buffer.  When root, components and the
    terminator exceed PATHLEN_MAX, every branch operation fails: it
    returns its failure value, sets [errno] to ENAMETOOLONG and issues
    no system call.  A constructed path of length PATHLEN_MAX - 1 is
    built without error. *)
Theorem va_build_path_bound branch ap root s :
  root_prefix uopt branch = Some root ->
  strlen root < PATHLEN_MAX ->
  (PATHLEN_MAX < strlen root + strlen (concat_all ap) + 1 ->
   forall op,
     run_op uopt op branch ap s
     = Val (failure_value op ENAMETOOLONG)
           (mkstate (world s) ENAMETOOLONG (trace s)))
  /\ (strlen (root ++ concat_all ap) = PATHLEN_MAX - 1 ->
      va_build_path uopt PATHLEN_MAX branch ap s
      = Val (0, (root ++ concat_all ap)%string) s).
Proof.
  intros Hroot Hfit. split.
  - intros Hlong op.
    destruct (va_build_path_long branch ap root s Hroot Hfit Hlong) as [q Hq].
    destruct op; simpl;
      unfold branch_lstat, branch_va_lstat, branch_stat, branch_open,
        branch_opendir, branch_mkdir, branch_rmdir, branch_unlink,
        branch_lchown, branch_chown, branch_chmod, branch_creat, branch_mknod,
        branch_mkfifo, branch_readlink, branch_symlink, branch_truncate,
        branch_utimens, branch_chflags, branch_lsetxattr, branch_lgetxattr,
        branch_llistxattr, branch_lremovexattr, branch_call;
      unfold bind at 1; try (unfold bind at 1); rewrite Hq; reflexivity.
  - intros Hlen. apply va_build_path_ok. unfold built_path. rewrite Hroot.
    rewrite strlen_append in Hlen.
    destruct (Z.ltb_spec (strlen root + strlen (concat_all ap)) PATHLEN_MAX);
      [reflexivity | lia].
Qed.

(** The operations on two paths fail in the same way when the old path
    does not fit, or when it fits and the new one does not. *)
Lemma branch_link_rename_bound oldbranch oldpath newbranch newpath root s :
  (root_prefix uopt oldbranch = Some root /\
   strlen root < PATHLEN_MAX /\
   PATHLEN_MAX < strlen root + strlen oldpath + 1) \/
  (built_path uopt oldbranch [oldpath] <> None /\
   root_prefix uopt newbranch = Some root /\
   strlen root < PATHLEN_MAX /\
   PATHLEN_MAX < strlen root + strlen newpath + 1) ->
  branch_link uopt oldbranch oldpath newbranch newpath s
  = Val (- ENAMETOOLONG) (mkstate (world s) ENAMETOOLONG (trace s)) /\
  branch_rename uopt oldbranch oldpath newbranch newpath s
  = Val (- ENAMETOOLONG) (mkstate (world s) ENAMETOOLONG (trace s)).
Proof.
  assert (Hlen : forall x, strlen (concat_all [x]) = strlen x).
  { intros x. cbn. rewrite append_nil_r. reflexivity. }
  unfold branch_link, branch_rename, branch_build_path.
  intros [(Hroot & Hfit & Hlong)|(Hold & Hroot & Hfit & Hlong)].
  - rewrite <- (Hlen oldpath) in Hlong.
    destruct (va_build_path_long oldbranch [oldpath] root s Hroot Hfit Hlong) as [q Hq].
    rewrite !(bind_Val _ _ _ _ _ Hq). split; reflexivity.
  - destruct (built_path uopt oldbranch [oldpath]) as [p|] eqn:Hp; [|congruence].
    rewrite !(bind_Val _ _ _ _ _ (va_build_path_ok _ _ _ s Hp)).
    cbn [Z.ltb Z.compare]. rewrite <- (Hlen newpath) in Hlong.
    destruct (va_build_path_long newbranch [newpath] root s Hroot Hfit Hlong) as [q Hq].
    rewrite !(bind_Val _ _ _ _ _ Hq). split; reflexivity.
Qed.

(** ** System calls *)

Lemma sys_eq c s r w :
  os c (world s) = (r, w) ->
  sys c s = Val r (mkstate w (match r with Fail e => e | _ => errno s end)
                           (trace s ++ [c])).
Proof. unfold sys. intros ->. reflexivity. Qed.

Lemma sys_rc_eq c s r w :
  os c (world s) = (r, w) ->
  sys_rc c s = Val (rc r) (mkstate w (match r with Fail e => e | _ => errno s end)
                                   (trace s ++ [c])).
Proof. intros H. unfold sys_rc. rewrite (bind_Val _ _ _ _ _ (sys_eq _ _ _ _ H)). reflexivity. Qed.

Lemma rc_succeeds r : succeeds r = true -> rc r = 0.
Proof. destruct r; simpl; congruence. Qed.

Lemma rc_fails r : succeeds r = false -> rc r = -1.
Proof. destruct r; simpl; congruence. Qed.

(** ** setfile *)

Lemma mode_without_special_bits m :
  Z.land (Z.land m (Z.lor S_ISUID (Z.lor S_ISGID (lor3 S_IRWXU S_IRWXG S_IRWXO))))
         (Z.lnot (lor3 S_ISTXT S_ISUID S_ISGID))
  = Z.land m 511.
Proof. rewrite <- Z.land_assoc. f_equal. Qed.

Lemma no_special_bits m :
  Z.land (Z.land m 511) (lor3 S_ISUID S_ISGID S_ISVTX) = 0.
Proof.
  rewrite <- Z.land_assoc.
  change (Z.land 511 (lor3 S_ISUID S_ISGID S_ISVTX)) with 0.
  apply Z.land_0_r.
Qed.

(** C8.  Let the path of [setfile] fit and its utimens step succeed.
    When chown then fails with EPERM and the chmod (and, where the
    build has it, chflags) succeeds, [setfile] returns 0; the mode it
    hands to chmod is the permission bits of the source alone, with
    setuid, setgid and sticky cleared, and that chmod follows the
    chown at once. *)
Theorem setfile_chown_eperm branch path fs l s s1 w2 r3 w3 :
  built_loc uopt branch [path] = Some l ->
  branch_utimens uopt (st_atime fs) (st_mtime fs) branch [path] s = Val 0 s1 ->
  os (Chown l (st_uid fs) (st_gid fs)) (world s1) = (Fail EPERM, w2) ->
  os (Chmod l (Z.land (st_mode fs) 511)) w2 = (r3, w3) ->
  succeeds r3 = true ->
  (HAVE_CHFLAGS = true ->
   succeeds (fst (os (Chflags l (st_flags fs)) w3)) = true) ->
  exists s',
    setfile uopt branch path fs s
    = Val (0, set_mode fs (Z.land (st_mode fs) 511)) s' /\
    trace s' = (trace s1
                ++ [Chown l (st_uid fs) (st_gid fs);
                    Chmod l (Z.land (st_mode fs) 511)]
                ++ (if HAVE_CHFLAGS then [Chflags l (st_flags fs)] else []))%list /\
    Z.land (Z.land (st_mode fs) 511) (lor3 S_ISUID S_ISGID S_ISVTX) = 0.
Proof.
  intros Hl Hu Hc Hm Hr3 Hf.
  unfold setfile. cbn [st_atime st_mtime st_uid st_gid st_mode st_flags set_mode].
  rewrite (bind_Val _ _ _ _ _ Hu). cbn [Z.eqb negb].
  unfold branch_chown. unfold bind at 1. rewrite (branch_call_ok _ _ l _ _ Hl).
  rewrite (sys_rc_eq _ _ _ _ Hc). cbn [rc Z.eqb negb].
  unfold bind at 1. unfold bind at 1. unfold get_errno. cbn [errno].
  change (EPERM =? EPERM) with true. cbn [negb ret].
  rewrite mode_without_special_bits.
  unfold branch_chmod. unfold bind at 1. rewrite (branch_call_ok _ _ l _ _ Hl).
  match goal with |- context [sys_rc ?c ?st] =>
    assert (Hs : sys_rc c st
                 = Val 0 (mkstate w3 (match r3 with Fail e => e | _ => EPERM end)
                            ((trace s1 ++ [Chown l (st_uid fs) (st_gid fs)])
                               ++ [Chmod l (Z.land (st_mode fs) 511)])%list))
  end.
  { rewrite (sys_rc_eq _ _ r3 w3) by exact Hm. rewrite (rc_succeeds _ Hr3).
    reflexivity. }
  rewrite Hs. cbn [Z.eqb negb].
  destruct HAVE_CHFLAGS eqn:Hflags.
  - specialize (Hf eq_refl).
    unfold bind at 1. unfold set_errno at 1. cbn [world errno trace].
    unfold branch_chflags. unfold bind at 1.
    rewrite (branch_call_ok _ _ l _ _ Hl).
    destruct (os (Chflags l (st_flags fs)) w3) as [r4 w4] eqn:H4.
    rewrite (sys_rc_eq _ _ r4 w4) by exact H4.
    cbn [fst] in Hf. rewrite (rc_succeeds _ Hf). cbn [Z.eqb negb].
    eexists. split; [reflexivity|]. cbn [trace]. split.
    + rewrite <- !app_assoc. reflexivity.
    + apply no_special_bits.
  - eexists. split; [reflexivity|]. cbn [trace]. split.
    + rewrite app_nil_r, <- app_assoc. reflexivity.
    + apply no_special_bits.
Qed.


(** ** COW disabled *)

Lemma path_hidden_cow_disabled path branch s :
  cow_enabled uopt = false -> path_hidden uopt path branch s = Val false s.
Proof. intros H. unfold path_hidden. rewrite H. reflexivity. Qed.

Lemma filedir_hidden_cow_disabled path branch s :
  cow_enabled uopt = false -> filedir_hidden uopt path branch s = Val false s.
Proof. intros H. unfold filedir_hidden. rewrite H. reflexivity. Qed.

Lemma remove_hidden_cow_disabled path maxbranch s :
  cow_enabled uopt = false -> remove_hidden uopt path maxbranch s = Val 0 s.
Proof. intros H. unfold remove_hidden. rewrite H. reflexivity. Qed.

Lemma path_create_cow_disabled path ro rw s :
  cow_enabled uopt = false -> path_create uopt path ro rw s = Val 0 s.
Proof. intros H. unfold path_create. rewrite H. reflexivity. Qed.

Lemma path_create_cutlast_cow_disabled path ro rw s :
  cow_enabled uopt = false ->
  exists r, path_create_cutlast uopt path ro rw s = Val r s.
Proof.
  intros H. unfold path_create_cutlast. destruct (u_dirname path).
  - rewrite path_create_cow_disabled by exact H. eauto.
  - eauto.
Qed.

(** C1.  With COW disabled [path_hidden] answers false and leaves the
    state, the record of system calls included, as it was.  [hide_file]
    has no such guard: when the marker path fits, the first thing it
    does is the open(O_WRONLY | O_CREAT) of the marker, and when that
    call fails it returns -1. *)
Theorem hide_file_cow_disabled path branch metapath l s :
  cow_enabled uopt = false ->
  build_path PATHLEN_MAX [METADIR; path] = Some metapath ->
  built_loc uopt branch [metapath; HIDETAG] = Some l ->
  path_hidden uopt path branch s = Val false s /\
  (exists calls,
      trace (final (hide_file uopt path branch s))
      = (trace s
         ++ Open l (Z.lor O_WRONLY O_CREAT) (Z.lor S_IRUSR S_IWUSR) :: calls)%list) /\
  (succeeds (fst (os (Open l (Z.lor O_WRONLY O_CREAT) (Z.lor S_IRUSR S_IWUSR))
                     (world s))) = false ->
   status (hide_file uopt path branch s) = Some (-1)).
Proof.
  intros Hcow Hmeta Hl. split; [apply path_hidden_cow_disabled; exact Hcow|].
  assert (E : hide_file uopt path branch s
              = (res <- sys_rv (Open l (Z.lor O_WRONLY O_CREAT)
                                     (Z.lor S_IRUSR S_IWUSR)) ;;
                 if res =? -1 then ret (-1) else sys_rc (Close res)) s).
  { unfold hide_file, do_create_whiteout. rewrite Hmeta.
    destruct (path_create_cutlast_cow_disabled metapath branch branch s Hcow)
      as [r0 H0].
    rewrite (bind_Val _ _ _ _ _ H0).
    unfold branch_open. unfold bind at 1.
    rewrite (branch_call_ok _ _ l _ _ Hl). reflexivity. }
  rewrite E. clear E.
  destruct (os (Open l (Z.lor O_WRONLY O_CREAT) (Z.lor S_IRUSR S_IWUSR)) (world s))
    as [r w] eqn:Ho.
  unfold sys_rv.
  rewrite (bind_Val _ _ _ _ _
             (bind_Val _ (fun r => ret (rv r)) _ _ _ (sys_eq _ _ _ _ Ho))).
  cbn [ret fst]. split.
  - destruct (rv r =? -1).
    + exists []. reflexivity.
    + unfold sys_rc, bind, sys. cbn [world trace].
      destruct (os (Close (rv r)) w). cbn [final trace ret].
      eexists. rewrite <- app_assoc. reflexivity.
  - intros Hfail. destruct r; try discriminate. reflexivity.
Qed.


(** ** path_is_dir *)

Lemma sys_stat_trace c buf s :
  exists r s', sys_stat c buf s = Val r s' /\ trace s' = (trace s ++ [c])%list.
Proof.
  unfold sys_stat, bind, sys. destruct (os c (world s)) as [r w].
  destruct r; eexists; eexists; split; reflexivity.
Qed.

(** With a path that fits, the answer follows the answer of lstat. *)
Lemma path_is_dir_classifies branch ap l s r w :
  built_loc uopt branch ap = Some l ->
  os (Lstat l) (world s) = (r, w) ->
  status (path_is_dir uopt branch ap s)
  = Some (match r with
          | Fail _ => NOT_EXISTING
          | OkStat st => if S_ISDIR (st_mode st) then IS_DIR else IS_FILE
          | _ => if S_ISDIR (st_mode indet) then IS_DIR else IS_FILE
          end).
Proof.
  intros Hl Ho. unfold path_is_dir.
  change (branch_va_lstat uopt indet branch ap) with (branch_lstat uopt indet branch ap).
  unfold bind. rewrite (branch_lstat_ok _ _ l _ _ Hl).
  unfold sys_stat, bind, sys. rewrite Ho.
  destruct r; cbn; try reflexivity;
    match goal with |- context [if ?b then _ else _] => destruct b end;
    reflexivity.
Qed.

(** C10.  When the components do not fit PATHLEN_MAX the branch
    relative lstat fails, with -ENAMETOOLONG and without a system call,
    and [path_is_dir] does not answer NOT_EXISTING: it compares the
    result with -1 only and classifies what the stat buffer held before
    the call. *)
Theorem path_is_dir_long_path branch ap root s :
  root_prefix uopt branch = Some root ->
  strlen root < PATHLEN_MAX ->
  PATHLEN_MAX < strlen root + strlen (concat_all ap) + 1 ->
  branch_va_lstat uopt indet branch ap s
  = Val (- ENAMETOOLONG, indet) (mkstate (world s) ENAMETOOLONG (trace s)) /\
  path_is_dir uopt branch ap s
  = Val (if S_ISDIR (st_mode indet) then IS_DIR else IS_FILE)
        (mkstate (world s) ENAMETOOLONG (trace s)).
Proof.
  intros Hroot Hfit Hlong.
  destruct (va_build_path_long branch ap root s Hroot Hfit Hlong) as [q Hq].
  assert (E : branch_va_lstat uopt indet branch ap s
              = Val (- ENAMETOOLONG, indet)
                    (mkstate (world s) ENAMETOOLONG (trace s))).
  { unfold branch_va_lstat. rewrite (bind_Val _ _ _ _ _ Hq). reflexivity. }
  split; [exact E|].
  unfold path_is_dir. rewrite (bind_Val _ _ _ _ _ E).
  change (- ENAMETOOLONG =? -1) with false. cbv iota.
  destruct (S_ISDIR (st_mode indet)); reflexivity.
Qed.

(** ** remove_hidden *)

Lemma lstat_locs_app a b :
  lstat_locs (a ++ b) = (lstat_locs a ++ lstat_locs b)%list.
Proof. apply flat_map_app. Qed.

(** One round of the loop on a configured branch: one probe. *)
Lemma remove_round {A} path i l (k : M A) s :
  marker_loc uopt path i = Some l ->
  exists s',
    (t <- path_is_dir uopt i [METADIR; path; HIDETAG] ;;
     match t with
     | IS_FILE => branch_unlink uopt i [METADIR; path; HIDETAG] ;; ret tt
     | IS_DIR => branch_rmdir uopt i [METADIR; path; HIDETAG] ;; ret tt
     | NOT_EXISTING => ret tt
     end ;;
     k) s = k s' /\
    lstat_locs (trace s') = (lstat_locs (trace s) ++ [l])%list.
Proof.
  unfold marker_loc. intros Hl. unfold path_is_dir.
  change (branch_va_lstat uopt indet i) with (branch_lstat uopt indet i).
  unfold bind at 1. unfold bind at 1.
  rewrite (branch_lstat_ok _ _ l _ _ Hl).
  destruct (sys_stat_trace (Lstat l) indet s) as ([res buf] & s1 & E1 & T1).
  rewrite E1.
  assert (L1 : lstat_locs (trace s1) = (lstat_locs (trace s) ++ [l])%list).
  { rewrite T1, lstat_locs_app. reflexivity. }
  destruct (res =? -1).
  - exists s1. split; [reflexivity|exact L1].
  - destruct (S_ISDIR (st_mode buf)); cbn [ret]; unfold bind at 1;
      unfold bind at 1;
      unfold branch_rmdir, branch_unlink;
      rewrite (branch_call_ok _ _ l _ _ Hl);
      unfold sys_rc, bind, sys; destruct (os _ (world s1)) as [r w];
      (eexists; split; [reflexivity|]); cbn [trace];
      rewrite lstat_locs_app, L1; cbn; rewrite app_nil_r; reflexivity.
Qed.

Lemma remove_loop_S n path i s :
  remove_loop uopt (S n) path i s
  = (t <- path_is_dir uopt i [METADIR; path; HIDETAG] ;;
     match t with
     | IS_FILE => branch_unlink uopt i [METADIR; path; HIDETAG] ;; ret tt
     | IS_DIR => branch_rmdir uopt i [METADIR; path; HIDETAG] ;; ret tt
     | NOT_EXISTING => ret tt
     end ;;
     remove_loop uopt n path (i + 1)) s.
Proof. reflexivity. Qed.

Lemma remove_loop_good path n : forall i s ls,
  all_markers uopt path i n = Some ls ->
  exists s',
    remove_loop uopt n path i s = Val tt s' /\
    lstat_locs (trace s') = (lstat_locs (trace s) ++ ls)%list.
Proof.
  induction n as [|n IH]; intros i s ls H; cbn [all_markers] in H.
  - injection H as <-. exists s. rewrite app_nil_r. split; reflexivity.
  - destruct (marker_loc uopt path i) as [l|] eqn:Hl; [|discriminate].
    destruct (all_markers uopt path (i + 1) n) as [ls'|] eqn:Hls; [|discriminate].
    injection H as <-.
    destruct (remove_round path i l (remove_loop uopt n path (i + 1)) s Hl)
      as (s1 & E1 & L1).
    rewrite remove_loop_S, E1.
    destruct (IH (i + 1) s1 ls' Hls) as (s2 & E2 & L2).
    exists s2. split; [exact E2|]. rewrite L2, L1, <- app_assoc. reflexivity.
Qed.

(** A probe of an ordinal that is not configured reads past
    [uopt.branches]. *)
Lemma path_is_dir_no_branch path i s :
  branch_entry_at uopt i = None ->
  strlen (concat_all [METADIR; path; HIDETAG]) < PATHLEN_MAX ->
  path_is_dir uopt i [METADIR; path; HIDETAG] s = Fault (NoSuchBranch i) s.
Proof.
  intros Hi Hfit. unfold path_is_dir, branch_va_lstat, va_build_path, branch_loc.
  destruct HAVE_AT_FAMILY.
  - unfold bind at 1. unfold bind at 1.
    rewrite va_build_loop_fits by exact Hfit. cbn [Z.ltb Z.compare].
    unfold bind at 1. unfold bind at 1.
    rewrite (branch_at_bad _ _ Hi). reflexivity.
  - unfold bind at 1. unfold bind at 1. unfold bind at 1.
    rewrite (branch_at_bad _ _ Hi). reflexivity.
Qed.

Lemma remove_loop_past_end path n : forall i s ls,
  all_markers uopt path i n = Some ls ->
  branch_entry_at uopt (i + Z.of_nat n) = None ->
  strlen (concat_all [METADIR; path; HIDETAG]) < PATHLEN_MAX ->
  exists s',
    remove_loop uopt (S n) path i s
    = Fault (NoSuchBranch (i + Z.of_nat n)) s' /\
    lstat_locs (trace s') = (lstat_locs (trace s) ++ ls)%list.
Proof.
  induction n as [|n IH]; intros i s ls H Hbad Hfit; cbn [all_markers] in H.
  - injection H as <-. exists s. rewrite app_nil_r.
    change (Z.of_nat 0) with 0 in *. rewrite Z.add_0_r in *.
    split; [|reflexivity]. rewrite remove_loop_S.
    apply bind_Fault. exact (path_is_dir_no_branch path i s Hbad Hfit).
  - destruct (marker_loc uopt path i) as [l|] eqn:Hl; [|discriminate].
    destruct (all_markers uopt path (i + 1) n) as [ls'|] eqn:Hls; [|discriminate].
    injection H as <-.
    destruct (remove_round path i l (remove_loop uopt (S n) path (i + 1)) s Hl)
      as (s1 & E1 & L1).
    replace (i + Z.of_nat (S n)) with (i + 1 + Z.of_nat n) in * by lia.
    destruct (IH (i + 1) s1 ls' Hls Hbad Hfit) as (s2 & E2 & L2).
    exists s2. split.
    + rewrite remove_loop_S, E1. exact E2.
    + rewrite L2, L1, <- app_assoc. reflexivity.
Qed.

(** For a given last ordinal the loop probes the branches 0 to
    [maxbranch], each once and in this order. *)
Lemma remove_hidden_upto path maxbranch ls s :
  cow_enabled uopt = true ->
  0 <= maxbranch ->
  all_markers uopt path 0 (Z.to_nat (maxbranch + 1)) = Some ls ->
  exists s',
    remove_hidden uopt path maxbranch s = Val 0 s' /\
    lstat_locs (trace s') = (lstat_locs (trace s) ++ ls)%list.
Proof.
  intros Hcow Hmax Hls. unfold remove_hidden. rewrite Hcow. cbn [negb].
  destruct (Z.eqb_spec maxbranch (-1)); [lia|].
  destruct (remove_loop_good path _ 0 s ls Hls) as (s' & E & L).
  rewrite (bind_Val _ _ _ _ _ E). exists s'. split; [reflexivity|exact L].
Qed.

(** C3.  Let COW be enabled, [nbranches] count the configured branches
    and the whiteout path of [path] fit on each of them.  Asked for all
    branches (-1), [remove_hidden] probes the branches 0 to
    nbranches - 1 and then goes on to the ordinal [nbranches], which is
    not a configured branch: the loop runs one round too many. *)
Theorem remove_hidden_all_branches path ls s :
  cow_enabled uopt = true ->
  nbranches uopt = Z.of_nat (List.length (branches uopt)) ->
  all_markers uopt path 0 (List.length (branches uopt)) = Some ls ->
  strlen (concat_all [METADIR; path; HIDETAG]) < PATHLEN_MAX ->
  exists s',
    remove_hidden uopt path (-1) s = Fault (NoSuchBranch (nbranches uopt)) s' /\
    lstat_locs (trace s') = (lstat_locs (trace s) ++ ls)%list.
Proof.
  intros Hcow Hn Hls Hfit. unfold remove_hidden. rewrite Hcow. cbn [negb].
  change (-1 =? -1) with true. cbv iota.
  replace (Z.to_nat (nbranches uopt + 1)) with (S (List.length (branches uopt)))
    by (rewrite Hn; lia).
  assert (Hbad : branch_entry_at uopt (0 + Z.of_nat (List.length (branches uopt))) = None).
  { unfold branch_entry_at. rewrite Z.add_0_l.
    destruct (Z.ltb_spec (Z.of_nat (List.length (branches uopt))) 0); [reflexivity|].
    rewrite Nat2Z.id. apply nth_error_None. lia. }
  destruct (remove_loop_past_end path _ 0 s ls Hls Hbad Hfit) as (s' & E & L).
  rewrite (bind_Fault _ _ _ _ _ E). exists s'. rewrite Hn. split; [reflexivity|exact L].
Qed.


(** ** cow_cp *)

Lemma sys_trace c s r s' :
  sys c s = Val r s' -> trace s' = (trace s ++ [c])%list.
Proof.
  unfold sys. destruct (os c (world s)). intros [= _ <-]. reflexivity.
Qed.

Lemma sys_rv_trace c s v s' :
  sys_rv c s = Val v s' -> trace s' = (trace s ++ [c])%list.
Proof.
  unfold sys_rv, bind, sys. destruct (os c (world s)). intros [= _ <-]. reflexivity.
Qed.

Lemma va_build_loop_res ap : forall p space s res q s',
  va_build_loop ap p space s = Val (res, q) s' ->
  (res = 0 /\ s' = s) \/ res = - ENAMETOOLONG.
Proof.
  induction ap as [|str ap IH]; intros p space s res q s'; cbn [va_build_loop].
  - intros [= <- _ <-]. left. split; reflexivity.
  - destruct (space - strlen str <=? 0).
    + intros [= <- _ _]. right. reflexivity.
    + apply IH.
Qed.

Lemma va_build_path_res space branch ap s res q s' :
  va_build_path uopt space branch ap s = Val (res, q) s' ->
  (res = 0 /\ s' = s) \/ res = - ENAMETOOLONG.
Proof.
  unfold va_build_path. destruct HAVE_AT_FAMILY.
  - apply va_build_loop_res.
  - unfold bind, branch_at. destruct (branch <? 0); [discriminate|].
    destruct (nth_error (branches uopt) (Z.to_nat branch)); [|discriminate].
    cbn [ret]. destruct (space <=? strlen (path b)); [discriminate|].
    apply va_build_loop_res.
Qed.

Lemma branch_loc_state branch p s l s' :
  branch_loc uopt branch p s = Val l s' -> s' = s.
Proof.
  unfold branch_loc. destruct HAVE_AT_FAMILY.
  - unfold bind, branch_at. destruct (branch <? 0); [discriminate|].
    destruct (nth_error (branches uopt) (Z.to_nat branch)); [|discriminate].
    cbn [ret]. intros [= _ <-]. reflexivity.
  - intros [= _ <-]. reflexivity.
Qed.

(** A branch relative lstat that returns 0 made exactly the lstat call. *)
Lemma branch_lstat_zero buf branch ap s st s' :
  branch_lstat uopt buf branch ap s = Val (0, st) s' ->
  exists l, trace s' = (trace s ++ [Lstat l])%list.
Proof.
  unfold branch_lstat, branch_va_lstat. unfold bind at 1.
  destruct (va_build_path uopt PATHLEN_MAX branch ap s) as [[res q] s1|] eqn:E;
    [|discriminate].
  destruct (va_build_path_res _ _ _ _ _ _ _ E) as [[-> ->]| ->].
  - cbn [Z.ltb Z.compare]. unfold bind at 1.
    destruct (branch_loc uopt branch q s) as [l s2|] eqn:El; [|discriminate].
    apply branch_loc_state in El. subst s2. intros H. exists l.
    destruct (sys_stat_trace (Lstat l) buf s) as (r & s3 & E3 & T3).
    rewrite E3 in H. injection H as _ <-. exact T3.
  - change (- ENAMETOOLONG <? 0) with true. cbv iota. discriminate.
Qed.

(** C2.  On the two demo branches, as root in a user namespace that
    does not map the owner of /ro/docs: the creation of the parent
    /rw/docs fails in [setfile] (chown answers EINVAL) and
    [path_create_cutlast] returns 1; [cow_cp] drops that status, goes
    on, copies the fifo and returns 0. *)
Theorem cow_cp_ignores_parent_failure :
  let s := Demo.start true (Demo.tree 65534 65533) in
  status (path_create_cutlast Demo.cow_on "/docs/pipe" 0 1 s) = Some 1 /\
  status (cow_cp Demo.cow_on 1 "/docs/pipe" 0 1 s) = Some 0.
Proof. split; vm_compute; reflexivity. Qed.


(** ** The walk over the directory names *)

(** The loop runs [body] on the strings of [prefixes_from], and with one
    unit of fuel per character left it gets to the end of the buffer. *)
Lemma walk_loop_try_each {A} (body : string -> M (option A)) dflt fuel :
  forall pre rest s,
    (String.length (skip_name rest) <= fuel)%nat ->
    walk_loop fuel body dflt pre rest s
    = try_each body dflt (prefixes_from fuel pre rest) s.
Proof.
  induction fuel as [|fuel IH]; intros pre rest s Hlen;
    cbn [walk_loop prefixes_from try_each]; unfold bind;
    destruct (body (pre ++ take_name rest)%string s) as [[a|] s1|];
    try reflexivity;
    destruct (skip_slashes (skip_name rest)) as [|c r] eqn:E; try reflexivity.
  - destruct (skip_name rest); [discriminate|cbn in Hlen; lia].
  - apply IH.
    assert (Hc : at_boundary (String c r) = false).
    { rewrite <- E. apply skip_slashes_head. rewrite E. discriminate. }
    cbn in Hc. cbn [skip_name]. rewrite Hc.
    pose proof (skip_name_length r).
    pose proof (skip_slashes_length (skip_name rest)) as H1.
    rewrite E in H1. cbn [String.length] in H1. lia.
Qed.

Lemma walk_path_try_each {A} (body : string -> M (option A)) dflt p s :
  walk_path body dflt p s = try_each body dflt (walk_prefixes p) s.
Proof.
  unfold walk_path, walk_prefixes. apply walk_loop_try_each.
  pose proof (skip_name_length (skip_slashes p)).
  pose proof (skip_slashes_length p). lia.
Qed.

(** From a directory name on, the loop cuts the buffer off behind every
    name. *)
Lemma prefixes_from_spec fuel : forall pre rest p,
  at_boundary rest = false ->
  (String.length rest <= S fuel)%nat ->
  In p (prefixes_from fuel pre rest) <->
  exists a b, rest = (a ++ b)%string /\ p = (pre ++ a)%string /\
              ends_in_name a = true /\ at_boundary b = true.
Proof.
  induction fuel as [|fuel IH]; intros pre rest p Hrest Hlen.
  - (* a single character is left *)
    destruct rest as [|c [|d r]]; [discriminate| |cbn in Hlen; lia].
    cbn in Hrest. cbn. rewrite Hrest. cbn. split.
    + intros [<-|[]]. exists (String c EmptyString), EmptyString.
      cbn. rewrite Hrest. auto.
    + intros (a & b & Hab & -> & Ha & Hb). left.
      destruct a as [|c' [|d' a]]; [discriminate| |discriminate].
      cbn in Hab. congruence.
  - cbn [prefixes_from]. split.
    + intros [<-|Hin].
      * exists (take_name rest), (skip_name rest).
        rewrite take_skip_name. repeat split.
        -- apply ends_in_name_take_name. exact Hrest.
        -- apply at_boundary_skip_name.
      * destruct (skip_slashes (skip_name rest)) as [|c r] eqn:E; [destruct Hin|].
        assert (Hc : at_boundary (String c r) = false).
        { rewrite <- E. apply skip_slashes_head. rewrite E. discriminate. }
        apply IH in Hin; [|exact Hc|].
        -- destruct Hin as (a & b & Hab & -> & Ha & Hb).
           exists (take_name rest ++ take_slashes (skip_name rest) ++ a)%string, b.
           repeat split.
           ++ rewrite !append_assoc, <- Hab, <- E, take_skip_slashes, take_skip_name.
              reflexivity.
           ++ rewrite !append_assoc. reflexivity.
           ++ rewrite !ends_in_name_app_r; auto using ends_in_name_nonempty.
              destruct a; [discriminate|]. destruct (take_slashes (skip_name rest)); discriminate.
           ++ exact Hb.
        -- pose proof (skip_slashes_length (skip_name rest)) as H1.
           pose proof (skip_name_length rest) as H2.
           rewrite E in H1.
           destruct rest as [|c0 r0]; [discriminate|]. cbn in Hrest.
           cbn [skip_name] in H1, H2. rewrite Hrest in H1, H2.
           pose proof (skip_name_length r0). cbn [String.length] in *. lia.
    + intros (a & b & -> & -> & Ha & Hb).
      destruct (skip_name a) as [|c x] eqn:Ea.
      * (* no slash in [a]: it is the first name *)
        left. destruct (take_name_app_noslash a b Ea) as [-> _].
        destruct (at_boundary_take_name b Hb) as [-> _].
        rewrite append_nil_r. reflexivity.
      * right.
        assert (Hx : skip_name a <> EmptyString) by (rewrite Ea; discriminate).
        destruct (take_name_app_slash a b Hx) as [Hn Hs].
        rewrite Hn, Hs.
        assert (Ha2 : skip_slashes (skip_name a) <> EmptyString).
        { intros E2.
          rewrite <- (take_skip_name a), ends_in_name_app_r in Ha by exact Hx.
          rewrite <- (take_skip_slashes (skip_name a)), E2, append_nil_r in Ha.
          rewrite ends_in_name_take_slashes in Ha. discriminate. }
        destruct (take_slashes_app (skip_name a) b Ha2) as [Ht Hk].
        rewrite Ht, Hk.
        destruct (skip_slashes (skip_name a) ++ b)%string as [|c1 r1] eqn:E1.
        { destruct (skip_slashes (skip_name a)); [congruence|discriminate]. }
        rewrite <- E1. apply IH.
        -- pose proof (skip_slashes_head (skip_name a) Ha2) as Hh.
           destruct (skip_slashes (skip_name a)) as [|c2 r2]; [congruence|].
           cbn in Hh |- *. exact Hh.
        -- assert (L : String.length (a ++ b)
                       = (String.length (take_name a)
                          + (String.length (take_slashes (skip_name a))
                             + String.length (skip_slashes (skip_name a) ++ b)))%nat).
           { rewrite <- (take_skip_name a) at 1.
             rewrite <- (take_skip_slashes (skip_name a)) at 1.
             rewrite !append_assoc, !append_length. reflexivity. }
           assert (Hts : take_slashes (skip_name a) <> EmptyString).
           { apply take_slashes_nonempty; [exact Hx|apply at_boundary_skip_name]. }
           assert (Htn : take_name a <> EmptyString).
           { destruct a as [|c0 a0]; [discriminate|].
             cbn in Hrest. cbn. rewrite Hrest. discriminate. }
           destruct (take_slashes (skip_name a)); [congruence|].
           destruct (take_name a); [congruence|]. cbn [String.length] in L. lia.
        -- exists (skip_slashes (skip_name a)), b. repeat split.
           ++ rewrite !append_assoc, take_skip_slashes, take_skip_name.
              reflexivity.
           ++ rewrite <- (take_skip_name a), ends_in_name_app_r in Ha by exact Hx.
              rewrite <- (take_skip_slashes (skip_name a)), ends_in_name_app_r in Ha
                by exact Ha2.
              exact Ha.
           ++ exact Hb.
Qed.

(** The strings the walk tests are the component prefixes of the path. *)
Lemma walk_prefixes_spec path p :
  In p (walk_prefixes path) <-> component_prefix p path.
Proof.
  unfold walk_prefixes, component_prefix.
  destruct (skip_slashes path) as [|c r] eqn:E.
  - (* nothing but slashes *)
    assert (Hp : take_slashes path = path).
    { rewrite <- (take_skip_slashes path) at 2. rewrite E, append_nil_r. reflexivity. }
    rewrite Hp. destruct (String.length path); cbn; rewrite append_nil_r; split.
    + intros [<-|[]]. exists EmptyString. rewrite append_nil_r. auto.
    + intros (rest & Hr & [[Ha _]|[_ ->]]).
      * exfalso. rewrite Hr in E. apply skip_slashes_app_empty in E.
        apply ends_in_name_skip_slashes in Ha. contradiction.
      * rewrite append_nil_r in Hr. auto.
    + intros [<-|[]]. exists EmptyString. rewrite append_nil_r. auto.
    + intros (rest & Hr & [[Ha _]|[_ ->]]).
      * exfalso. rewrite Hr in E. apply skip_slashes_app_empty in E.
        apply ends_in_name_skip_slashes in Ha. contradiction.
      * rewrite append_nil_r in Hr. auto.
  - assert (Hne : skip_slashes path <> EmptyString) by (rewrite E; discriminate).
    rewrite <- E. rewrite prefixes_from_spec.
    + split.
      * intros (a & b & Hab & -> & Ha & Hb). exists b. split.
        -- rewrite append_assoc, <- Hab, take_skip_slashes. reflexivity.
        -- left. split; [|exact Hb].
           rewrite ends_in_name_app_r; auto using ends_in_name_nonempty.
      * intros (rest & Hr & [[Ha Hb]|[He _]]); [|congruence].
        pose proof (ends_in_name_skip_slashes p Ha) as Hs.
        destruct (take_slashes_app p rest Hs) as [Ht Hk].
        exists (skip_slashes p), rest. repeat split.
        -- rewrite Hr. exact Hk.
        -- rewrite Hr, Ht, take_skip_slashes. reflexivity.
        -- rewrite <- (take_skip_slashes p), ends_in_name_app_r in Ha by exact Hs.
           exact Ha.
        -- exact Hb.
    + apply skip_slashes_head. exact Hne.
    + pose proof (skip_slashes_length path). lia.
Qed.


(** A path that ends in a name is one of its own component prefixes. *)
Lemma component_prefix_self path :
  ends_in_name path = true -> component_prefix path path.
Proof.
  intros H. exists EmptyString. rewrite append_nil_r. split; [reflexivity|].
  left. split; [exact H|reflexivity].
Qed.

(** The component prefixes of /a/b/c are /a, /a/b and /a/b/c; slashes
    at the end or doubled in between add nothing. *)
Example component_prefixes_abc p :
  (component_prefix p "/a/b/c" <-> In p ["/a"; "/a/b"; "/a/b/c"]%string) /\
  (component_prefix p "/a//b/" <-> In p ["/a"; "/a//b"]%string) /\
  (component_prefix p "/" <-> In p ["/"]%string).
Proof. rewrite <- !walk_prefixes_spec. repeat split; intros H; exact H. Qed.

(** ** path_hidden *)

Lemma built_loc_none branch ap :
  branch_ready uopt branch ->
  built_loc uopt branch ap = None ->
  exists root,
    root_prefix uopt branch = Some root /\
    strlen root < PATHLEN_MAX /\
    PATHLEN_MAX < strlen root + strlen (concat_all ap) + 1.
Proof.
  intros (b & root & Hb & Hroot & Hfit). unfold built_loc, built_path.
  rewrite Hroot, Hb.
  destruct (Z.ltb_spec (strlen root + strlen (concat_all ap)) PATHLEN_MAX).
  - destruct HAVE_AT_FAMILY; discriminate.
  - intros _. exists root. repeat split; [exact Hfit|lia].
Qed.

Lemma built_loc_ready branch ap l :
  built_loc uopt branch ap = Some l -> branch_ready uopt branch.
Proof.
  unfold built_loc, built_path, branch_ready, root_prefix.
  destruct HAVE_AT_FAMILY.
  - change (strlen EmptyString) with 0.
    destruct (Z.ltb_spec (0 + strlen (concat_all ap)) PATHLEN_MAX); [|discriminate].
    destruct (branch_entry_at uopt branch) as [b|]; [|discriminate].
    intros _. exists b, EmptyString. pose proof (strlen_nonneg (concat_all ap)).
    repeat split. change (strlen EmptyString) with 0. lia.
  - destruct (branch_entry_at uopt branch) as [b|]; [|discriminate]. cbn.
    destruct (Z.ltb_spec (strlen (path b) + strlen (concat_all ap)) PATHLEN_MAX);
      [|discriminate].
    intros _. exists b, (path b). pose proof (strlen_nonneg (concat_all ap)).
    repeat split. lia.
Qed.

(** On a ready branch a branch relative lstat is the lstat call, or the
    failure of the path builder. *)
Lemma branch_lstat_run branch ap buf s :
  branch_ready uopt branch ->
  match built_loc uopt branch ap with
  | Some l => branch_lstat uopt buf branch ap s = sys_stat (Lstat l) buf s
  | None => branch_lstat uopt buf branch ap s
            = Val (- ENAMETOOLONG, buf)
                  (mkstate (world s) ENAMETOOLONG (trace s))
  end.
Proof.
  intros Hready. destruct (built_loc uopt branch ap) as [l|] eqn:E.
  - apply branch_lstat_ok. exact E.
  - destruct (built_loc_none _ _ Hready E) as (root & Hroot & Hfit & Hlong).
    destruct (va_build_path_long branch ap root s Hroot Hfit Hlong) as [q Hq].
    unfold branch_lstat, branch_va_lstat. rewrite (bind_Val _ _ _ _ _ Hq).
    reflexivity.
Qed.

(** With COW enabled [filedir_hidden] says whether lstat finds the
    marker, and leaves the world alone. *)
Lemma filedir_hidden_run p branch s :
  cow_enabled uopt = true ->
  branch_ready uopt branch ->
  lstat_pure ->
  exists s',
    filedir_hidden uopt p branch s = Val (marker_seen uopt (world s) branch p) s' /\
    world s' = world s.
Proof.
  intros Hcow Hready Hpure. unfold filedir_hidden, marker_seen, marker_loc.
  rewrite Hcow. cbn [negb].
  pose proof (branch_lstat_run branch [METADIR; p; HIDETAG] indet s Hready) as H.
  destruct (built_loc uopt branch [METADIR; p; HIDETAG]) as [l|].
  - unfold bind. rewrite H. unfold sys_stat, bind, sys.
    pose proof (Hpure l (world s)) as Hw.
    destruct (os (Lstat l) (world s)) as [r w]. cbn in Hw. subst w.
    destruct r; eexists; split; reflexivity.
  - unfold bind. rewrite H. eexists. split; reflexivity.
Qed.

Lemma try_each_hidden branch l : forall s,
  cow_enabled uopt = true ->
  branch_ready uopt branch ->
  lstat_pure ->
  exists s',
    try_each (fun p => res <- filedir_hidden uopt p branch ;;
                       if (res : bool) then ret (Some res) else ret None)
             false l s
    = Val (existsb (marker_seen uopt (world s) branch) l) s' /\
    world s' = world s.
Proof.
  induction l as [|p l IH]; intros s Hcow Hready Hpure.
  - exists s. split; reflexivity.
  - cbn [try_each existsb].
    destruct (filedir_hidden_run p branch s Hcow Hready Hpure) as (s1 & E1 & W1).
    unfold bind at 1. unfold bind at 1. rewrite E1.
    destruct (marker_seen uopt (world s) branch p).
    + exists s1. split; [reflexivity|exact W1].
    + cbn [ret orb]. destruct (IH s1 Hcow Hready Hpure) as (s2 & E2 & W2).
      exists s2. rewrite E2, W1. split; [reflexivity|congruence].
Qed.

(** What [path_hidden] returns, with COW enabled. *)
Lemma path_hidden_run path branch s :
  cow_enabled uopt = true ->
  branch_ready uopt branch ->
  lstat_pure ->
  strlen path < PATHLEN_MAX ->
  exists s',
    path_hidden uopt path branch s
    = Val (existsb (marker_seen uopt (world s) branch) (walk_prefixes path)) s' /\
    world s' = world s.
Proof.
  intros Hcow Hready Hpure Hlen. unfold path_hidden. rewrite Hcow. cbn [negb].
  destruct (Z.leb_spec PATHLEN_MAX (strlen path)); [lia|].
  rewrite walk_path_try_each. apply try_each_hidden; assumption.
Qed.

(** A path that does not fit is copied past the end of the buffer. *)
Lemma path_hidden_overflow path branch s :
  cow_enabled uopt = true ->
  PATHLEN_MAX <= strlen path ->
  path_hidden uopt path branch s = Fault BufferOverflow s.
Proof.
  intros Hcow Hlen. unfold path_hidden. rewrite Hcow. cbn [negb].
  destruct (Z.leb_spec PATHLEN_MAX (strlen path)); [reflexivity|lia].
Qed.

(** C4.  On a ready branch, with a path that fits its buffer and an
    lstat that only looks: [path_hidden] returns, leaves the world as
    it was, and returns true if and only if [filedir_hidden] holds for
    one of the component prefixes of the path. *)
Theorem path_hidden_iff path branch s :
  branch_ready uopt branch ->
  lstat_pure ->
  strlen path < PATHLEN_MAX ->
  exists r s',
    path_hidden uopt path branch s = Val r s' /\
    world s' = world s /\
    (r = true <->
     exists p, component_prefix p path /\
               status (filedir_hidden uopt p branch s) = Some true).
Proof.
  intros Hready Hpure Hlen. destruct (cow_enabled uopt) eqn:Hcow.
  - destruct (path_hidden_run path branch s Hcow Hready Hpure Hlen) as (s' & E & W).
    eexists. exists s'. split; [exact E|]. split; [exact W|].
    rewrite existsb_exists. split.
    + intros (p & Hin & Hseen). exists p. split; [apply walk_prefixes_spec; exact Hin|].
      destruct (filedir_hidden_run p branch s Hcow Hready Hpure) as (s1 & E1 & _).
      rewrite E1, Hseen. reflexivity.
    + intros (p & Hpre & Hst). exists p. split; [apply walk_prefixes_spec; exact Hpre|].
      destruct (filedir_hidden_run p branch s Hcow Hready Hpure) as (s1 & E1 & _).
      rewrite E1 in Hst. cbn in Hst. congruence.
  - exists false, s. split; [apply path_hidden_cow_disabled; exact Hcow|].
    split; [reflexivity|]. split; [discriminate|].
    intros (p & _ & Hst). rewrite filedir_hidden_cow_disabled in Hst by exact Hcow.
    discriminate.
Qed.


(** ** The ways a branch operation can go *)

Lemma va_build_loop_long' ap : forall p space s,
  0 < space \/ ap <> [] -> space <= strlen (concat_all ap) ->
  exists q, va_build_loop ap p space s
            = Val (- ENAMETOOLONG, q)
                  (mkstate (world s) ENAMETOOLONG (trace s)).
Proof.
  destruct ap as [|str ap]; intros p space s Hor H.
  - change (strlen (concat_all [])) with 0 in H. destruct Hor; [lia|congruence].
  - cbn [va_build_loop]. cbn [concat_all fold_right] in H.
    rewrite strlen_append in H.
    destruct (Z.leb_spec (space - strlen str) 0).
    + eexists. reflexivity.
    + apply va_build_loop_long; [lia|]. unfold concat_all. lia.
Qed.

(** The builder succeeds with the path that fits, fails with
    -ENAMETOOLONG and no other effect, or runs into undefined
    behaviour; which of the three does not depend on the state. *)
Lemma va_build_path_cases branch ap :
  ap <> [] ->
  (exists p, built_path uopt branch ap = Some p /\
             forall s, va_build_path uopt PATHLEN_MAX branch ap s = Val (0, p) s) \/
  (built_path uopt branch ap = None /\
   forall s, exists q,
       va_build_path uopt PATHLEN_MAX branch ap s
       = Val (- ENAMETOOLONG, q) (mkstate (world s) ENAMETOOLONG (trace s))) \/
  (built_loc uopt branch ap = None /\
   forall s, exists f, va_build_path uopt PATHLEN_MAX branch ap s = Fault f s).
Proof.
  intros Hap.
  destruct (built_path uopt branch ap) as [p|] eqn:E.
  - left. exists p. split; [reflexivity|]. intros s. apply va_build_path_ok. exact E.
  - right. unfold built_loc. rewrite E. revert E.
    unfold built_path, root_prefix, va_build_path.
    destruct HAVE_AT_FAMILY.
    + change (strlen EmptyString) with 0.
      destruct (Z.ltb_spec (0 + strlen (concat_all ap)) PATHLEN_MAX); [discriminate|].
      intros _. left. split; [reflexivity|]. intros s.
      apply va_build_loop_long'; [right; exact Hap|lia].
    + destruct (branch_entry_at uopt branch) as [b|] eqn:Eb; cbn [option_map].
      * destruct (Z.ltb_spec (strlen (path b) + strlen (concat_all ap)) PATHLEN_MAX);
          [discriminate|].
        intros _. destruct (Z.leb_spec PATHLEN_MAX (strlen (path b))) as [Hle|Hlt].
        -- right. split; [reflexivity|]. intros s.
           rewrite (bind_Val _ _ _ _ _ (branch_at_ok _ _ s Eb)).
           destruct (Z.leb_spec PATHLEN_MAX (strlen (path b))); [|lia].
           eexists. reflexivity.
        -- left. split; [reflexivity|]. intros s.
           rewrite (bind_Val _ _ _ _ _ (branch_at_ok _ _ s Eb)).
           destruct (Z.leb_spec PATHLEN_MAX (strlen (path b))); [lia|].
           apply va_build_loop_long; lia.
      * intros _. right. split; [reflexivity|]. intros s.
        rewrite (bind_Fault _ _ _ _ _ (branch_at_bad _ s Eb)). eexists. reflexivity.
Qed.

Lemma branch_loc_cases branch ap p :
  built_path uopt branch ap = Some p ->
  (exists l, built_loc uopt branch ap = Some l /\
             forall s, branch_loc uopt branch p s = Val l s) \/
  (built_loc uopt branch ap = None /\
   forall s, exists f, branch_loc uopt branch p s = Fault f s).
Proof.
  intros Hp. unfold built_loc, branch_loc. rewrite Hp. destruct HAVE_AT_FAMILY.
  - destruct (branch_entry_at uopt branch) as [b|] eqn:Eb; cbn [option_map].
    + left. eexists. split; [reflexivity|]. intros s.
      rewrite (bind_Val _ _ _ _ _ (branch_at_ok _ _ s Eb)). reflexivity.
    + right. split; [reflexivity|]. intros s.
      rewrite (bind_Fault _ _ _ _ _ (branch_at_bad _ s Eb)). eexists. reflexivity.
  - left. eexists. split; reflexivity.
Qed.

Lemma branch_call_cases branch ap call :
  ap <> [] ->
  (exists l, built_loc uopt branch ap = Some l /\
             forall s, branch_call uopt branch ap call s = call l s) \/
  (built_loc uopt branch ap = None /\
   forall s, branch_call uopt branch ap call s
             = Val (- ENAMETOOLONG) (mkstate (world s) ENAMETOOLONG (trace s))) \/
  (forall s, exists f, branch_call uopt branch ap call s = Fault f s).
Proof.
  intros Hap. destruct (va_build_path_cases branch ap Hap)
    as [(p & Hp & E)|[(Hn & E)|(Hn & E)]].
  - destruct (branch_loc_cases branch ap p Hp) as [(l & Hl & El)|(Hn & El)].
    + left. exists l. split; [exact Hl|]. intros s. apply branch_call_ok. exact Hl.
    + right. right. intros s. destruct (El s) as [f Ef]. exists f. unfold branch_call.
      rewrite (bind_Val _ _ _ _ _ (E s)). cbn [Z.ltb Z.compare].
      rewrite (bind_Fault _ _ _ _ _ Ef). reflexivity.
  - right. left. split; [unfold built_loc; rewrite Hn; reflexivity|]. intros s.
    destruct (E s) as [q Eq].
    unfold branch_call. rewrite (bind_Val _ _ _ _ _ Eq). reflexivity.
  - right. right. intros s. destruct (E s) as [f Ef]. exists f. unfold branch_call.
    rewrite (bind_Fault _ _ _ _ _ Ef). reflexivity.
Qed.

Lemma branch_stat_cases branch ap buf :
  ap <> [] ->
  (exists l, built_loc uopt branch ap = Some l /\
             forall s, branch_stat uopt buf branch ap s = sys_stat (Stat l) buf s) \/
  (built_loc uopt branch ap = None /\
   forall s, branch_stat uopt buf branch ap s
             = Val (- ENAMETOOLONG, buf) (mkstate (world s) ENAMETOOLONG (trace s))) \/
  (forall s, exists f, branch_stat uopt buf branch ap s = Fault f s).
Proof.
  intros Hap. destruct (va_build_path_cases branch ap Hap)
    as [(p & Hp & E)|[(Hn & E)|(Hn & E)]].
  - destruct (branch_loc_cases branch ap p Hp) as [(l & Hl & El)|(Hn & El)].
    + left. exists l. split; [exact Hl|]. intros s. apply branch_stat_ok. exact Hl.
    + right. right. intros s. destruct (El s) as [f Ef]. exists f. unfold branch_stat.
      rewrite (bind_Val _ _ _ _ _ (E s)). cbn [Z.ltb Z.compare].
      rewrite (bind_Fault _ _ _ _ _ Ef). reflexivity.
  - right. left. split; [unfold built_loc; rewrite Hn; reflexivity|]. intros s.
    destruct (E s) as [q Eq].
    unfold branch_stat. rewrite (bind_Val _ _ _ _ _ Eq). reflexivity.
  - right. right. intros s. destruct (E s) as [f Ef]. exists f. unfold branch_stat.
    rewrite (bind_Fault _ _ _ _ _ Ef). reflexivity.
Qed.

Lemma built_loc_concat branch ap ap' :
  concat_all ap = concat_all ap' ->
  built_loc uopt branch ap = built_loc uopt branch ap'.
Proof. intros H. unfold built_loc, built_path. rewrite H. reflexivity. Qed.

(** ** Whiteouts *)

Lemma rv_not_fail r : rv r <> -1 -> succeeds r = true.
Proof. destruct r; cbn; congruence. Qed.

(** A [hide_file] that returned 0 has built its marker path and left
    the marker where lstat finds it. *)
Lemma hide_file_marker path branch s s' :
  whiteout_laws ->
  hide_file uopt path branch s = Val 0 s' ->
  exists metapath l,
    build_path PATHLEN_MAX [METADIR; path] = Some metapath /\
    built_loc uopt branch [metapath; HIDETAG] = Some l /\
    lstat_ok (world s') l.
Proof.
  intros [_ Hopen Hclose Hbad]. unfold hide_file, do_create_whiteout.
  destruct (build_path PATHLEN_MAX [METADIR; path]) as [mp|]; [|discriminate].
  unfold bind at 1.
  destruct (path_create_cutlast uopt mp branch branch s) as [r0 s0|]; [|discriminate].
  unfold branch_open. unfold bind at 1.
  destruct (branch_call_cases branch [mp; HIDETAG]
              (fun l => sys_rv (Open l (Z.lor O_WRONLY O_CREAT) (Z.lor S_IRUSR S_IWUSR)))
              ltac:(discriminate))
    as [(l & Hl & E)|[(_ & E)|E]];
    [rewrite (E s0); clear E|rewrite (E s0); clear E
     |destruct (E s0) as [f ->]; discriminate].
  - unfold sys_rv at 1, bind at 1, sys at 1.
    pose proof (Hopen l (Z.lor O_WRONLY O_CREAT) (Z.lor S_IRUSR S_IWUSR) (world s0)) as Ho.
    destruct (os (Open l (Z.lor O_WRONLY O_CREAT) (Z.lor S_IRUSR S_IWUSR)) (world s0))
      as [r w1]. cbn [fst snd ret] in *.
    destruct (Z.eqb_spec (rv r) (-1)); [discriminate|].
    specialize (Ho (rv_not_fail r n)).
    unfold sys_rc, bind, sys. cbn [world].
    pose proof (Hclose (rv r) w1 l Ho) as Hc.
    destruct (os (Close (rv r)) w1) as [r2 w2]. cbn [snd ret] in *.
    intros [= _ <-]. exists mp, l. repeat split; assumption.
  - change (- ENAMETOOLONG =? -1) with false. cbv iota.
    unfold sys_rc, bind, sys. cbn [world].
    pose proof (Hbad (- ENAMETOOLONG) (world s0) ltac:(reflexivity)) as Hb.
    destruct (os (Close (- ENAMETOOLONG)) (world s0)) as [r2 w2]. cbn [fst ret] in *.
    rewrite (rc_fails _ Hb). discriminate.
Qed.

(** A [build_path] that hands back the concatenation of its arguments
    makes marker and probe the same path. *)
Lemma marker_agrees_concat path branch :
  (forall metapath, build_path PATHLEN_MAX [METADIR; path] = Some metapath ->
                    metapath = (METADIR ++ path)%string) ->
  marker_agrees uopt path branch.
Proof.
  intros Hbuild mp l Hmp Hl. rewrite (Hbuild mp Hmp) in Hl.
  exists l. split; [|auto]. unfold marker_loc. rewrite <- Hl.
  apply built_loc_concat. cbn. rewrite !append_nil_r, append_assoc. reflexivity.
Qed.

(** C5.  Let COW be enabled, the kernel keep the laws of the whiteout
    protocol, and the marker [hide_file] creates be the object
    [filedir_hidden] probes.  After [hide_file path branch] has
    returned 0, in every state of the world it left:
    [filedir_hidden path branch] is true, and [path_hidden child branch]
    is true for every child (fitting the path buffer) of which [path]
    is a component prefix. *)
Theorem hide_file_hides path child branch s s' s2 :
  cow_enabled uopt = true ->
  whiteout_laws ->
  marker_agrees uopt path branch ->
  hide_file uopt path branch s = Val 0 s' ->
  world s2 = world s' ->
  component_prefix path child ->
  strlen child < PATHLEN_MAX ->
  status (filedir_hidden uopt path branch s2) = Some true /\
  status (path_hidden uopt child branch s2) = Some true.
Proof.
  intros Hcow Hlaws Hagree Hhide Hw Hpre Hlen.
  destruct (hide_file_marker path branch s s' Hlaws Hhide) as (mp & l & Hmp & Hl & Hok).
  destruct (Hagree mp l Hmp Hl) as (l' & Hm & Hsame).
  assert (Hseen : marker_seen uopt (world s2) branch path = true).
  { unfold marker_seen. rewrite Hm, Hw. apply Hsame. exact Hok. }
  pose proof (built_loc_ready _ _ _ Hl) as Hready.
  pose proof (wl_lstat Hlaws) as Hpure.
  split.
  - destruct (filedir_hidden_run path branch s2 Hcow Hready Hpure) as (s3 & E & _).
    rewrite E, Hseen. reflexivity.
  - destruct (path_hidden_run child branch s2 Hcow Hready Hpure Hlen) as (s3 & E & _).
    rewrite E. cbn [status]. f_equal. apply existsb_exists.
    exists path. split; [apply walk_prefixes_spec; exact Hpre|exact Hseen].
Qed.


(** ** Inversion of runs *)

Lemma bind_inv {A B} (m : M A) (k : A -> M B) s b s' :
  bind m k s = Val b s' ->
  exists a s1, m s = Val a s1 /\ k a s1 = Val b s'.
Proof. unfold bind. destruct (m s) as [a s1|]; [eauto|discriminate]. Qed.

Lemma sys_inv c s r s1 :
  sys c s = Val r s1 ->
  os c (world s) = (r, world s1) /\ trace s1 = (trace s ++ [c])%list.
Proof.
  unfold sys. destruct (os c (world s)) as [r0 w]. intros [= <- <-].
  split; reflexivity.
Qed.

Lemma sys_rc_inv c s v s1 :
  sys_rc c s = Val v s1 ->
  exists r, os c (world s) = (r, world s1) /\ v = rc r /\
            trace s1 = (trace s ++ [c])%list.
Proof.
  unfold sys_rc. intros H. apply bind_inv in H as (r & s2 & H1 & [= <- <-]).
  apply sys_inv in H1 as [H1 H2]. eauto.
Qed.

Lemma sys_stat_inv c buf s res st s1 :
  sys_stat c buf s = Val (res, st) s1 ->
  exists r, os c (world s) = (r, world s1) /\ res = rc r /\
            trace s1 = (trace s ++ [c])%list.
Proof.
  unfold sys_stat. intros H. apply bind_inv in H as (r & s2 & H1 & H2).
  apply sys_inv in H1 as [H1 H3]. exists r.
  destruct r; injection H2 as <- _ <-; auto.
Qed.

(** ** What [path_create] keeps *)

Lemma keeps_ret {A} (a : A) : keeps (ret a).
Proof. intros s r s' [= _ <-] l H. exact H. Qed.

Lemma keeps_bind {A B} (m : M A) (k : A -> M B) :
  keeps m -> (forall a, keeps (k a)) -> keeps (bind m k).
Proof.
  intros Hm Hk s r s' H l Hl. apply bind_inv in H as (a & s1 & H1 & H2).
  eapply Hk; [exact H2|]. eapply Hm; [exact H1|exact Hl].
Qed.

Lemma keeps_sys c : directory_laws -> lays_path c = true -> keeps (sys c).
Proof.
  intros Hlaws Hc s r s' H l Hl. apply sys_inv in H as [H _].
  pose proof (dl_keeps Hlaws c (world s) l Hc Hl) as Hk. rewrite H in Hk. exact Hk.
Qed.

Lemma keeps_sys_rc c : directory_laws -> lays_path c = true -> keeps (sys_rc c).
Proof.
  intros Hlaws Hc. unfold sys_rc. apply keeps_bind; [apply keeps_sys; assumption|].
  intros a. apply keeps_ret.
Qed.

Lemma keeps_sys_stat c buf :
  directory_laws -> lays_path c = true -> keeps (sys_stat c buf).
Proof.
  intros Hlaws Hc. unfold sys_stat. apply keeps_bind; [apply keeps_sys; assumption|].
  intros [e|v|st|t]; apply keeps_ret.
Qed.

Lemma keeps_set_errno e : keeps (set_errno e).
Proof. intros s r s' [= _ <-] l H. exact H. Qed.

Lemma keeps_get_errno : keeps get_errno.
Proof. intros s r s' [= _ <-] l H. exact H. Qed.

Lemma keeps_va_build_loop ap : forall p space, keeps (va_build_loop ap p space).
Proof.
  induction ap as [|str ap IH]; intros p space; cbn [va_build_loop].
  - apply keeps_ret.
  - destruct (space - strlen str <=? 0); [|apply IH].
    repeat (apply keeps_bind; [|intros]);
      auto using keeps_ret, keeps_set_errno, keeps_get_errno.
Qed.

Lemma keeps_branch_at branch : keeps (branch_at uopt branch).
Proof.
  unfold branch_at. destruct (branch <? 0); [intros s r s'; discriminate|].
  destruct (nth_error (branches uopt) (Z.to_nat branch));
    [apply keeps_ret|intros s r s'; discriminate].
Qed.

Lemma keeps_va_build_path space branch ap :
  keeps (va_build_path uopt space branch ap).
Proof.
  unfold va_build_path. destruct HAVE_AT_FAMILY; [apply keeps_va_build_loop|].
  apply keeps_bind; [apply keeps_branch_at|]. intros b.
  destruct (space <=? strlen (path b)); [intros s r s'; discriminate|].
  apply keeps_va_build_loop.
Qed.

Lemma keeps_branch_loc branch p : keeps (branch_loc uopt branch p).
Proof.
  unfold branch_loc. destruct HAVE_AT_FAMILY; [|apply keeps_ret].
  apply keeps_bind; [apply keeps_branch_at|]. intros b. apply keeps_ret.
Qed.

Lemma keeps_branch_call branch ap call :
  (forall l, keeps (call l)) -> keeps (branch_call uopt branch ap call).
Proof.
  intros Hcall. unfold branch_call.
  apply keeps_bind; [apply keeps_va_build_path|]. intros [res p].
  destruct (res <? 0); [apply keeps_ret|].
  apply keeps_bind; [apply keeps_branch_loc|]. exact Hcall.
Qed.

Lemma keeps_branch_stat buf branch ap :
  directory_laws -> keeps (branch_stat uopt buf branch ap).
Proof.
  intros Hlaws. unfold branch_stat.
  apply keeps_bind; [apply keeps_va_build_path|]. intros [res p].
  destruct (res <? 0); [apply keeps_ret|].
  apply keeps_bind; [apply keeps_branch_loc|]. intros l.
  apply keeps_sys_stat; [exact Hlaws|reflexivity].
Qed.

Ltac keeps_step Hlaws :=
  match goal with
  | |- keeps (ret _) => apply keeps_ret
  | |- keeps get_errno => apply keeps_get_errno
  | |- keeps (set_errno _) => apply keeps_set_errno
  | |- keeps (sys_rc _) => apply keeps_sys_rc; [exact Hlaws|reflexivity]
  | |- keeps (sys_stat _ _) => apply keeps_sys_stat; [exact Hlaws|reflexivity]
  | |- keeps (branch_stat _ _ _ _) => apply keeps_branch_stat; exact Hlaws
  | |- keeps (branch_call _ _ _ _) => apply keeps_branch_call; intros
  | |- keeps (bind _ _) => apply keeps_bind; [|intros]
  | |- keeps (if ?b then _ else _) => destruct b
  | |- keeps (match ?x with (_, _) => _ end) => destruct x
  | |- keeps (let _ := _ in _) => cbv zeta
  end.

Lemma keeps_setfile branch p fs :
  directory_laws -> keeps (setfile uopt branch p fs).
Proof.
  intros Hlaws.
  unfold setfile, branch_utimens, branch_chown, branch_chmod, branch_chflags.
  repeat keeps_step Hlaws.
Qed.

Lemma keeps_do_create p ro rw :
  directory_laws -> keeps (do_create uopt p ro rw).
Proof.
  intros Hlaws. unfold do_create, branch_mkdir.
  repeat first [apply keeps_setfile; exact Hlaws | keeps_step Hlaws].
Qed.


(** ** path_create, twice *)

Lemma stat_ok_reply l s r w :
  os (Stat l) (world s) = (r, w) -> succeeds r = true -> stat_ok (world s) l.
Proof. intros H Hr. unfold stat_ok. rewrite H. exact Hr. Qed.

(** A [do_create] that returned 0 leaves its directory settled. *)
Lemma do_create_settles p ro rw s s' :
  directory_laws ->
  do_create uopt p ro rw s = Val 0 s' ->
  settled uopt rw (world s') p.
Proof.
  intros Hlaws H. unfold settled.
  destruct (branch_stat_cases rw [p] indet ltac:(discriminate))
    as [(l & Hl & E)|[(Hn & E)|E]].
  - rewrite Hl. unfold do_create in H.
    apply bind_inv in H as ([res buf] & sa & H1 & H2).
    rewrite E in H1. apply sys_stat_inv in H1 as (r & Ho & -> & _).
    pose proof (dl_stat Hlaws l (world s)) as Hw. rewrite Ho in Hw. cbn in Hw.
    destruct (succeeds r) eqn:Er.
    + rewrite (rc_succeeds _ Er) in H2. cbn in H2. injection H2 as <-.
      rewrite Hw. eapply stat_ok_reply; eassumption.
    + rewrite (rc_fails _ Er) in H2. cbn [Z.eqb negb] in H2.
      apply bind_inv in H2 as ([gone buf2] & sb & H3 & H4).
      destruct gone; [discriminate|].
      apply bind_inv in H4 as (res2 & sc & H5 & H6).
      unfold branch_mkdir in H5. rewrite (branch_call_ok _ _ l _ _ Hl) in H5.
      apply sys_rc_inv in H5 as (r2 & Ho2 & -> & _).
      pose proof (dl_mkdir Hlaws l (st_mode buf2) (world sb)) as Hm.
      rewrite Ho2 in Hm. cbn [fst snd] in Hm.
      destruct (succeeds r2) eqn:Er2;
        [rewrite (rc_succeeds _ Er2) in H6|rewrite (rc_fails _ Er2) in H6; discriminate].
      specialize (Hm eq_refl). cbn [Z.eqb] in H6.
      destruct (ro =? rw).
      * injection H6 as <-. exact Hm.
      * apply bind_inv in H6 as ([r3 fs3] & sd & H7 & H8).
        destruct (negb (r3 =? 0)); [discriminate|]. injection H8 as <-.
        eapply keeps_setfile; eassumption.
  - rewrite Hn. exact E.
  - unfold do_create in H. apply bind_inv in H as (a & sa & H1 & _).
    destruct (E s) as [f Ef]. rewrite Ef in H1. discriminate.
Qed.

(** On a settled directory [do_create] returns 0 after at most a stat. *)
Lemma settled_run p ro rw s :
  stat_pure ->
  settled uopt rw (world s) p ->
  exists s' calls,
    do_create uopt p ro rw s = Val 0 s' /\
    world s' = world s /\
    trace s' = (trace s ++ calls)%list /\
    forallb is_stat calls = true.
Proof.
  intros Hpure. unfold settled, do_create.
  destruct (built_loc uopt rw [p]) as [l|] eqn:Hl.
  - intros Hok. unfold bind at 1. rewrite (branch_stat_ok _ _ l _ _ Hl).
    unfold sys_stat, bind, sys. unfold stat_ok in Hok.
    pose proof (Hpure l (world s)) as Hw.
    destruct (os (Stat l) (world s)) as [r w]. cbn in Hw, Hok. subst w.
    destruct r; [discriminate| | |];
      (eexists; exists [Stat l]; repeat split; reflexivity).
  - intros E. unfold bind at 1. rewrite E.
    eexists. exists []. cbn. rewrite app_nil_r. repeat split; reflexivity.
Qed.

Lemma settled_keeps rw w w' p :
  (forall l, stat_ok w l -> stat_ok w' l) ->
  settled uopt rw w p -> settled uopt rw w' p.
Proof.
  unfold settled. intros H. destruct (built_loc uopt rw [p]); [apply H|auto].
Qed.

(** A walk of [path_create] that returned 0 has settled every string of
    its list. *)
Lemma create_walk_settles ro rw l : forall s s',
  directory_laws ->
  try_each (fun p => res <- do_create uopt p ro rw ;;
                     if negb (res =? 0) then ret (Some res) else ret None)
           0 l s = Val 0 s' ->
  (forall x, stat_ok (world s) x -> stat_ok (world s') x) /\
  forall p, In p l -> settled uopt rw (world s') p.
Proof.
  induction l as [|p l IH]; intros s s' Hlaws H.
  - injection H as <-. split; [auto|intros p []].
  - cbn [try_each] in H. apply bind_inv in H as (o & s1 & H1 & H2).
    apply bind_inv in H1 as (res & s1' & H3 & H4).
    destruct (Z.eqb_spec res 0) as [->|Hne]; cbn [negb] in H4.
    + injection H4 as <- <-.
      destruct (IH s1' s' Hlaws H2) as [Hk Hs]. split.
      * intros x Hx. apply Hk. eapply keeps_do_create; eassumption.
      * intros q [<-|Hq]; [|apply Hs; exact Hq].
        eapply settled_keeps; [exact Hk|].
        eapply do_create_settles; eassumption.
    + injection H4 as <- <-. injection H2 as -> _. contradiction.
Qed.

(** On settled directories the walk only looks. *)
Lemma create_walk_again ro rw l : forall s,
  stat_pure ->
  (forall p, In p l -> settled uopt rw (world s) p) ->
  exists s' calls,
    try_each (fun p => res <- do_create uopt p ro rw ;;
                       if negb (res =? 0) then ret (Some res) else ret None)
             0 l s = Val 0 s' /\
    world s' = world s /\
    trace s' = (trace s ++ calls)%list /\
    forallb is_stat calls = true.
Proof.
  induction l as [|p l IH]; intros s Hpure Hall.
  - exists s, []. rewrite app_nil_r. repeat split; reflexivity.
  - destruct (settled_run p ro rw s Hpure (Hall p (or_introl eq_refl)))
      as (s1 & c1 & E1 & W1 & T1 & F1).
    destruct (IH s1 Hpure) as (s2 & c2 & E2 & W2 & T2 & F2).
    { intros q Hq. rewrite W1. apply Hall. right. exact Hq. }
    exists s2, (c1 ++ c2)%list. cbn [try_each].
    unfold bind at 1. unfold bind at 1. rewrite E1. cbn [Z.eqb negb ret].
    split; [exact E2|]. split; [congruence|]. split.
    + rewrite T2, T1, app_assoc. reflexivity.
    + rewrite forallb_app, F1, F2. reflexivity.
Qed.

(** C7.  Let the kernel keep the laws of directory creation.  After
    [path_create path ro rw] has returned 0, the same call returns 0
    again; this time it only calls stat: it makes no directory and
    leaves the world as it found it. *)
Theorem path_create_idempotent path ro rw s s' :
  directory_laws ->
  path_create uopt path ro rw s = Val 0 s' ->
  exists s'' calls,
    path_create uopt path ro rw s' = Val 0 s'' /\
    world s'' = world s' /\
    trace s'' = (trace s' ++ calls)%list /\
    forallb is_stat calls = true.
Proof.
  intros Hlaws H. pose proof (dl_stat Hlaws) as Hpure.
  unfold path_create in *. destruct (cow_enabled uopt).
  2:{ exists s', []. rewrite app_nil_r. repeat split; reflexivity. }
  cbn [negb] in *.
  apply bind_inv in H as ([r st] & sa & H1 & H2).
  destruct (branch_stat_cases rw [path] indet ltac:(discriminate))
    as [(l & Hl & E)|[(Hn & E)|E]].
  - rewrite E in H1. apply sys_stat_inv in H1 as (r1 & Ho & -> & _).
    pose proof (Hpure l (world s)) as Hw. rewrite Ho in Hw. cbn in Hw.
    assert (Hsame : rc r1 = 0 -> world s' = world s /\ succeeds r1 = true).
    { intros Hz. rewrite Hz in H2. injection H2 as <-. split; [exact Hw|].
      destruct r1; [discriminate|reflexivity..]. }
    assert (Hwalk : rc r1 <> 0 ->
                    forall p, In p (walk_prefixes (strncpy path (PATHLEN_MAX - 1))) ->
                              settled uopt rw (world s') p).
    { intros Hz. destruct (Z.eqb_spec (rc r1) 0); [contradiction|].
      rewrite walk_path_try_each in H2.
      apply (create_walk_settles ro rw _ sa s' Hlaws H2). }
    (* the second call *)
    unfold bind at 1. rewrite E. unfold sys_stat at 1, bind at 1, sys at 1.
    pose proof (Hpure l (world s')) as Hw'.
    destruct (os (Stat l) (world s')) as [r2 w2] eqn:Ho2. cbn in Hw'. subst w2.
    destruct (succeeds r2) eqn:Er2.
    + exists (mkstate (world s') (errno s') (trace s' ++ [Stat l])), [Stat l].
      destruct r2; [discriminate| | |]; repeat split; reflexivity.
    + destruct r2 as [e| | |]; try discriminate. cbn [ret Z.eqb].
      change (-1 =? 0) with false. cbv iota.
      rewrite walk_path_try_each.
      destruct (Z.eqb_spec (rc r1) 0) as [Hz|Hz].
      * (* the first call had found the path: so does the second *)
        destruct (Hsame Hz) as [Hws Hs1]. exfalso.
        rewrite Hws, Ho in Ho2. injection Ho2 as ->. discriminate.
      * destruct (create_walk_again ro rw _
                    (mkstate (world s') e (trace s' ++ [Stat l])) Hpure
                    (Hwalk Hz))
          as (s2 & calls & E2 & W2 & T2 & F2).
        exists s2, (Stat l :: calls). split; [exact E2|]. split; [exact W2|].
        split; [|exact F2]. rewrite T2. cbn [trace]. rewrite <- app_assoc. reflexivity.
  - rewrite E in H1. injection H1 as <- _ <-.
    change (-36 =? 0) with false in H2. cbv iota in H2.
    rewrite walk_path_try_each in H2.
    destruct (create_walk_settles ro rw _ _ s' Hlaws H2) as [_ Hs].
    unfold bind at 1. rewrite E.
    change (- ENAMETOOLONG =? 0) with false. cbv iota.
    rewrite walk_path_try_each.
    destruct (create_walk_again ro rw _
                (mkstate (world s') ENAMETOOLONG (trace s')) Hpure Hs)
      as (s2 & calls & E2 & W2 & T2 & F2).
    exists s2, calls. repeat split; assumption.
  - destruct (E s) as [f Ef]. rewrite Ef in H1. discriminate.
Qed.

End Facts.


(** * The small kernel keeps the laws *)

Module KernelFacts.
Import Kernel.

Lemma key_eqb_true k : forall k', key_eqb k k' = true -> k = k'.
Proof.
  induction k as [|x k IH]; intros [|y k']; cbn; try discriminate; [reflexivity|].
  intros H. apply andb_prop in H as [Hx Hk].
  apply String.eqb_eq in Hx. apply IH in Hk. congruence.
Qed.

Lemma key_eqb_refl k : key_eqb k k = true.
Proof. induction k as [|x k IH]; cbn; [reflexivity|]. rewrite String.eqb_refl. exact IH. Qed.

Lemma key_eqb_neq k k' : k <> k' -> key_eqb k k' = false.
Proof.
  intros Hne. destruct (key_eqb k k') eqn:E; [|reflexivity].
  apply key_eqb_true in E. contradiction.
Qed.

Lemma lookup_remove_other {A} k k' (m : list (list string * A)) :
  k' <> k -> lookup k' (remove_key k m) = lookup k' m.
Proof.
  intros Hne. induction m as [|[k0 v] m IH]; [reflexivity|]. cbn.
  destruct (key_eqb k k0) eqn:E.
  - apply key_eqb_true in E. subst k0. rewrite (key_eqb_neq _ _ Hne). exact IH.
  - cbn. destruct (key_eqb k' k0); [reflexivity|exact IH].
Qed.

Lemma lookup_update_same {A} k (v : A) m : lookup k (update k v m) = Some v.
Proof. cbn. rewrite key_eqb_refl. reflexivity. Qed.

Lemma lookup_update_other {A} k k' (v : A) m :
  k' <> k -> lookup k' (update k v m) = lookup k' m.
Proof.
  intros Hne. cbn. rewrite (key_eqb_neq _ _ Hne). apply lookup_remove_other. exact Hne.
Qed.

(** [lstat] answers with a [struct stat] or fails. *)
Lemma do_lstat_shape w l :
  (exists e, do_lstat w l = Fail e) \/ (exists st, do_lstat w l = OkStat st).
Proof.
  unfold do_lstat. destruct (resolve w l) as [[|c k]|]; eauto.
  destruct (lookup (c :: k) (nodes w)); eauto.
Qed.

(** Objects are found by the directory handles and the nodes alone. *)
Lemma do_lstat_same w w' l :
  dirfds w' = dirfds w -> nodes w' = nodes w -> do_lstat w' l = do_lstat w l.
Proof.
  intros Hd Hn. unfold do_lstat, resolve. rewrite Hd, Hn. reflexivity.
Qed.

Lemma do_lstat_created w l k n :
  resolve w l = Some k ->
  succeeds (do_lstat (with_nodes w (update k n (nodes w))) l) = true.
Proof.
  intros Hk. unfold do_lstat.
  change (resolve (with_nodes w (update k n (nodes w))) l) with (resolve w l).
  rewrite Hk. destruct k; [reflexivity|].
  cbn [nodes with_nodes]. rewrite lookup_update_same. reflexivity.
Qed.

Lemma create_lstat w l fmt mode dev target :
  succeeds (fst (create w l fmt mode dev target)) = true ->
  succeeds (do_lstat (snd (create w l fmt mode dev target)) l) = true.
Proof.
  unfold create. destruct (resolve w l) as [k|] eqn:Hk; [|discriminate].
  destruct (lookup k (nodes w)); [discriminate|].
  destruct (parent_ok w k); [|discriminate]. intros _. cbn [snd].
  apply do_lstat_created. exact Hk.
Qed.

Lemma kernel_whiteout_laws at_family : @whiteout_laws (platform at_family).
Proof.
  constructor.
  - intros l w. reflexivity.
  - intros l flags mode w. unfold lstat_ok. cbn [os platform kernel fst snd].
    unfold do_open.
    destruct (do_lstat_shape w l) as [[e He]|[st Hst]].
    + rewrite He.
      destruct ((e =? ENOENT) && negb (Z.land flags O_CREAT =? 0)); [|discriminate].
      pose proof (create_lstat w l S_IFREG mode 0 EmptyString) as Hc.
      destruct (create w l S_IFREG mode 0 EmptyString) as [r w'].
      cbn [fst snd] in Hc.
      destruct r; cbn [fst snd]; intros H; try discriminate;
        try (apply Hc; reflexivity).
    + rewrite Hst. intros _. cbn [snd].
      rewrite (do_lstat_same w _ l), Hst; auto.
  - intros d w l. unfold lstat_ok. cbn [os platform kernel fst snd].
    destruct ((0 <=? d) && existsb (Z.eqb d) (fds w)); auto.
  - intros d w Hd. cbn [os platform kernel fst].
    destruct (Z.leb_spec 0 d); [lia|]. reflexivity.
Qed.

Lemma grows_refl m : grows m m.
Proof. intros k n H. exists n. repeat split; assumption. Qed.

Lemma grows_fresh k v m : lookup k m = None -> grows m (update k v m).
Proof.
  intros Hk k' n H. exists n. split; [|split; reflexivity].
  rewrite lookup_update_other; [exact H|]. intros ->. congruence.
Qed.

Lemma grows_change k n v m :
  lookup k m = Some n -> node_like n v -> grows m (update k v m).
Proof.
  intros Hk Hv k' n' H. destruct (list_eq_dec string_dec k' k) as [->|Hne].
  - exists v. rewrite lookup_update_same. split; [reflexivity|]. congruence.
  - exists n'. rewrite lookup_update_other by exact Hne.
    split; [exact H|split; reflexivity].
Qed.

Lemma do_lstat_grows w w' l :
  dirfds w' = dirfds w -> grows (nodes w) (nodes w') ->
  succeeds (do_lstat w l) = true -> succeeds (do_lstat w' l) = true.
Proof.
  intros Hd Hg. unfold do_lstat, resolve. rewrite Hd.
  destruct (match l with
            | AtFd d rel => match lookup_fd d (dirfds w) with
                            | Some root => Some (root ++ components rel)%list
                            | None => None
                            end
            | Abs p => Some (components p)
            end) as [[|c k]|]; auto.
  destruct (lookup (c :: k) (nodes w)) as [n|] eqn:E; [|discriminate].
  destruct (Hg _ _ E) as (n' & -> & _). auto.
Qed.

Lemma do_stat_grows w w' l :
  dirfds w' = dirfds w -> grows (nodes w) (nodes w') ->
  succeeds (do_stat w l) = true -> succeeds (do_stat w' l) = true.
Proof.
  intros Hd Hg. unfold do_stat.
  assert (Hr : resolve w' l = resolve w l) by (unfold resolve; rewrite Hd; reflexivity).
  rewrite Hr. destruct (resolve w l) as [[|c k]|] eqn:Ek; auto.
  - apply do_lstat_grows; assumption.
  - destruct (lookup (c :: k) (nodes w)) as [n|] eqn:E; [|discriminate].
    destruct (Hg _ _ E) as (n' & -> & Hlink & Htarget). rewrite Hlink, Htarget.
    destruct (S_ISLNK (st_mode (nstat n))); [|auto].
    apply do_lstat_grows; assumption.
Qed.

Lemma create_grows w l fmt mode dev target :
  dirfds (snd (create w l fmt mode dev target)) = dirfds w /\
  grows (nodes w) (nodes (snd (create w l fmt mode dev target))).
Proof.
  unfold create. destruct (resolve w l) as [k|]; [|split; [reflexivity|apply grows_refl]].
  destruct (lookup k (nodes w)) eqn:E; [split; [reflexivity|apply grows_refl]|].
  destruct (parent_ok w k); [|split; [reflexivity|apply grows_refl]].
  split; [reflexivity|]. apply grows_fresh. exact E.
Qed.

Lemma change_grows w l f :
  (forall st, S_ISLNK (st_mode (f st)) = S_ISLNK (st_mode st)) ->
  dirfds (snd (change w l f)) = dirfds w /\
  grows (nodes w) (nodes (snd (change w l f))).
Proof.
  intros Hf. unfold change.
  destruct (resolve w l) as [k|]; [|split; [reflexivity|apply grows_refl]].
  destruct (lookup k (nodes w)) as [n|] eqn:E; [|split; [reflexivity|apply grows_refl]].
  split; [reflexivity|]. eapply grows_change; [exact E|].
  split; [apply Hf|reflexivity].
Qed.

Lemma chmod_keeps_type m mode :
  S_ISLNK (Z.lor (Z.land m S_IFMT) (Z.land mode 4095)) = S_ISLNK m.
Proof.
  unfold S_ISLNK. f_equal.
  rewrite Z.land_lor_distr_l, <- !Z.land_assoc.
  change (Z.land S_IFMT S_IFMT) with S_IFMT.
  change (Z.land 4095 S_IFMT) with 0.
  rewrite Z.land_0_r. apply Z.lor_0_r.
Qed.

Lemma mkdir_is_dir mode umask :
  S_ISLNK (Z.lor S_IFDIR (Z.land (Z.land mode 4095) (Z.lnot umask))) = false.
Proof.
  unfold S_ISLNK.
  rewrite Z.land_lor_distr_l.
  rewrite <- (Z.land_assoc mode), (Z.land_comm 4095), (Z.land_assoc mode).
  rewrite <- (Z.land_assoc _ 4095 S_IFMT).
  change (Z.land 4095 S_IFMT) with 0. rewrite Z.land_0_r. reflexivity.
Qed.

Lemma kernel_grows c w :
  lays_path c = true ->
  dirfds (snd (kernel c w)) = dirfds w /\
  grows (nodes w) (nodes (snd (kernel c w))).
Proof.
  destruct c; try discriminate; intros _; cbn [kernel snd];
    try (split; [reflexivity|apply grows_refl]).
  - apply create_grows.
  - unfold do_chown. destruct (do_lstat w l);
      try (split; [reflexivity|apply grows_refl]).
    destruct ((id_limit w <? owner) || (id_limit w <? group));
      [split; [reflexivity|apply grows_refl]|].
    destruct ((euid w =? 0) || ((owner =? st_uid st) && (group =? st_gid st)));
      [|split; [reflexivity|apply grows_refl]].
    apply change_grows. reflexivity.
  - apply change_grows. intros st. apply chmod_keeps_type.
  - apply change_grows. reflexivity.
  - apply change_grows. reflexivity.
Qed.

Lemma kernel_directory_laws at_family : @directory_laws (platform at_family).
Proof.
  constructor.
  - intros l w. reflexivity.
  - intros l mode w. unfold stat_ok. cbn [os platform kernel fst snd].
    unfold create, do_stat.
    destruct (resolve w l) as [k|] eqn:Hk; [|discriminate].
    destruct (lookup k (nodes w)); [discriminate|].
    destruct (parent_ok w k); [|discriminate]. intros _. cbn [snd].
    change (resolve (with_nodes w
              (update k (mknode (fresh_stat w S_IFDIR mode 0) EmptyString) (nodes w))) l)
      with (resolve w l).
    rewrite Hk. destruct k as [|c k].
    + unfold do_lstat.
      change (resolve (with_nodes w
                (update [] (mknode (fresh_stat w S_IFDIR mode 0) EmptyString) (nodes w))) l)
        with (resolve w l).
      rewrite Hk. reflexivity.
    + cbn [nodes with_nodes]. rewrite lookup_update_same.
      cbn [nstat st_mode fresh_stat]. rewrite mkdir_is_dir. reflexivity.
  - intros c w l Hc. unfold stat_ok. cbn [os platform fst].
    destruct (kernel_grows c w Hc) as [Hd Hg].
    exact (do_stat_grows w (snd (kernel c w)) l Hd Hg).
Qed.

End KernelFacts.


(** * The statements at work on the two branches *)

Local Open Scope string_scope.

Lemma va_build_path_bound_witness :
  let s := Demo.start true (Demo.tree 0 65535) in
  (forall op,
      run_op Demo.cow_on op 1 [Demo.name 64] s
      = Val (failure_value op ENAMETOOLONG)
            (mkstate (world s) ENAMETOOLONG (trace s))) /\
  va_build_path Demo.cow_on 64 1 [Demo.name 63] s
  = Val (0, Demo.name 63) s.
Proof.
  split.
  - apply (proj1 (@va_build_path_bound (Kernel.platform true) Demo.cow_on 1
                    [Demo.name 64] EmptyString _ eq_refl eq_refl)).
    reflexivity.
  - apply (proj2 (@va_build_path_bound (Kernel.platform true) Demo.cow_on 1
                    [Demo.name 63] EmptyString _ eq_refl eq_refl)).
    reflexivity.
Defined.

Lemma setfile_chown_eperm_witness :
  exists s',
    setfile Demo.cow_on 1 "/f" Demo.setuid_stat (Demo.start true Demo.user_world)
    = Val (0, set_mode Demo.setuid_stat 493) s' /\
    trace s' = [Utimens (AtFd 11 "f") 300 400; Chown (AtFd 11 "f") 0 0;
                Chmod (AtFd 11 "f") 493].
Proof.
  destruct (@setfile_chown_eperm (Kernel.platform true) Demo.cow_on 1 "/f"
              Demo.setuid_stat (AtFd 11 "f") (Demo.start true Demo.user_world)
              _ _ _ _ eq_refl eq_refl eq_refl eq_refl eq_refl
              (fun H : false = true => match Bool.diff_false_true H with end))
    as (s' & E & T & _).
  exists s'. split; [exact E|exact T].
Defined.


Lemma hide_file_cow_disabled_witness :
  let s := Demo.start true Demo.tree_with_metadir in
  let s0 := Demo.start true (Demo.tree 0 65535) in
  path_hidden Demo.cow_off "/tmp" 1 s = Val false s /\
  (exists calls,
      trace (final (hide_file Demo.cow_off "/tmp" 1 s))
      = Open (AtFd 11 ".unionfs//tmp_HIDDEN~") 65 384 :: calls) /\
  status (hide_file Demo.cow_off "/tmp" 1 s0) = Some (-1).
Proof.
  intros s s0.
  pose proof (@hide_file_cow_disabled (Kernel.platform true) Demo.cow_off "/tmp" 1
                ".unionfs//tmp" (AtFd 11 ".unionfs//tmp_HIDDEN~") s
                eq_refl eq_refl eq_refl) as H.
  pose proof (@hide_file_cow_disabled (Kernel.platform true) Demo.cow_off "/tmp" 1
                ".unionfs//tmp" (AtFd 11 ".unionfs//tmp_HIDDEN~") s0
                eq_refl eq_refl eq_refl) as H0.
  split; [exact (proj1 H)|]. split; [exact (proj1 (proj2 H))|].
  exact (proj2 (proj2 H0) eq_refl).
Defined.

(** With COW disabled and the metadata directory in place, [hide_file]
    returns 0 and has created the marker. *)
Example marker_created_without_cow :
  let r := hide_file Demo.cow_off "/tmp" 1 (Demo.start true Demo.tree_with_metadir) in
  status r = Some 0 /\
  Kernel.lookup ["rw"; ".unionfs"; "tmp_HIDDEN~"] (Kernel.nodes (world (final r)))
  = Some (Kernel.mknode (mkstat (Z.lor S_IFREG 384) 0 0 0 0 0 0 0) EmptyString).
Proof. split; vm_compute; reflexivity. Qed.

Lemma path_is_dir_long_path_witness :
  let s := Demo.start true (Demo.tree 0 65535) in
  branch_va_lstat Demo.cow_on (mkstat 0 0 0 0 0 0 0 0) 1
    [".unionfs/"; Demo.name 60; "_HIDDEN~"] s
  = Val (-36, mkstat 0 0 0 0 0 0 0 0) (mkstate (world s) 36 (trace s)) /\
  path_is_dir Demo.cow_on 1 [".unionfs/"; Demo.name 60; "_HIDDEN~"] s
  = Val IS_FILE (mkstate (world s) 36 (trace s)).
Proof.
  apply (@path_is_dir_long_path (Kernel.platform true) Demo.cow_on 1
           [".unionfs/"; Demo.name 60; "_HIDDEN~"] EmptyString _
           eq_refl eq_refl eq_refl).
Defined.

Lemma remove_hidden_all_branches_witness :
  exists s',
    remove_hidden Demo.cow_on "/tmp" (-1) (Demo.start true (Demo.tree 0 65535))
    = Fault (NoSuchBranch 2) s' /\
    lstat_locs (trace s')
    = [AtFd 10 ".unionfs//tmp_HIDDEN~"; AtFd 11 ".unionfs//tmp_HIDDEN~"].
Proof.
  apply (@remove_hidden_all_branches (Kernel.platform true) Demo.cow_on "/tmp"
           [AtFd 10 ".unionfs//tmp_HIDDEN~"; AtFd 11 ".unionfs//tmp_HIDDEN~"]
           (Demo.start true (Demo.tree 0 65535))
           eq_refl eq_refl eq_refl eq_refl).
Defined.

Lemma path_hidden_iff_witness :
  exists r s',
    path_hidden Demo.cow_on "/tmp/x" 1 (Demo.start true Demo.tree_with_metadir)
    = Val r s' /\
    (r = true <->
     exists p, component_prefix p "/tmp/x" /\
               status (filedir_hidden Demo.cow_on p 1
                         (Demo.start true Demo.tree_with_metadir)) = Some true).
Proof.
  destruct (@path_hidden_iff (Kernel.platform true) Demo.cow_on "/tmp/x" 1
              (Demo.start true Demo.tree_with_metadir)
              (ex_intro _ (mkbranch "/rw" 11)
                 (ex_intro _ EmptyString (conj eq_refl (conj eq_refl eq_refl))))
              (fun l w => eq_refl) eq_refl)
    as (r & s' & E & _ & H).
  exists r, s'. split; [exact E|exact H].
Defined.

Lemma hide_file_hides_witness :
  hide_file Demo.cow_on "/tmp" 1 (Demo.start true (Demo.tree 0 65535))
  = Val 0 Demo.after_hide /\
  status (filedir_hidden Demo.cow_on "/tmp" 1 Demo.after_hide) = Some true /\
  status (path_hidden Demo.cow_on "/tmp/x/y" 1 Demo.after_hide) = Some true.
Proof.
  assert (H : hide_file Demo.cow_on "/tmp" 1 (Demo.start true (Demo.tree 0 65535))
              = Val 0 Demo.after_hide)
    by (apply run_eq; vm_compute; reflexivity).
  assert (Hag : @marker_agrees (Kernel.platform true) Demo.cow_on "/tmp" 1).
  { apply marker_agrees_concat. intros mp Hmp. vm_compute in Hmp.
    injection Hmp as <-. reflexivity. }
  split; [exact H|].
  apply (@hide_file_hides (Kernel.platform true) Demo.cow_on "/tmp" "/tmp/x/y" 1
           (Demo.start true (Demo.tree 0 65535)) _ _
           eq_refl (KernelFacts.kernel_whiteout_laws true) Hag
           H eq_refl
           (ex_intro _ "/x/y"%string (conj eq_refl (or_introl (conj eq_refl eq_refl))))
           eq_refl).
Defined.

(** C5, as it is worded, without the condition on COW: with COW
    disabled and the metadata directory in place, [hide_file] returns 0
    for /tmp on branch 1, and afterwards [filedir_hidden] answers false
    for /tmp and [path_hidden] answers false for /tmp/x on this
    branch. *)
Lemma hidden_false_without_cow :
  let s := Demo.start true Demo.tree_with_metadir in
  let r := hide_file Demo.cow_off "/tmp" 1 s in
  status r = Some 0 /\
  status (filedir_hidden Demo.cow_off "/tmp" 1 (final r)) = Some false /\
  status (path_hidden Demo.cow_off "/tmp/x" 1 (final r)) = Some false.
Proof. repeat split; vm_compute; reflexivity. Qed.

Lemma path_create_idempotent_witness :
  exists s'' calls,
    path_create Demo.cow_on "/docs" 0 1 (Demo.start true (Demo.tree 0 65535))
    = Val 0 Demo.after_parents /\
    path_create Demo.cow_on "/docs" 0 1 Demo.after_parents = Val 0 s'' /\
    world s'' = world Demo.after_parents /\
    trace s'' = (trace Demo.after_parents ++ calls)%list /\
    forallb is_stat calls = true.
Proof.
  assert (H : path_create Demo.cow_on "/docs" 0 1
                (Demo.start true (Demo.tree 0 65535))
              = Val 0 Demo.after_parents)
    by (apply run_eq; vm_compute; reflexivity).
  destruct (@path_create_idempotent (Kernel.platform true) Demo.cow_on "/docs" 0 1
              _ _ (KernelFacts.kernel_directory_laws true) H)
    as (s'' & calls & H2).
  exists s'', calls. split; [exact H|exact H2].
Defined.

(** * More of the code *)

Local Close Scope string_scope.

(** ** branch_ops.c: the relative form of a path *)

(** X1.  [relative] never hands out an empty string nor one that starts
    with a slash, so that the openat family never gets an absolute path:
    the result is the path behind its leading slashes, or "." when
    nothing is left behind them, and [relative] changes nothing in such
    a result. *)
Theorem relative_is_relative (p : string) :
  relative p <> EmptyString /\
  at_boundary (relative p) = false /\
  (p = (take_slashes p ++ relative p)%string \/
   (skip_slashes p = EmptyString /\ relative p = "."%string)) /\
  relative (relative p) = relative p.
Proof.
  assert (A : relative p <> EmptyString /\ at_boundary (relative p) = false /\
              (p = (take_slashes p ++ relative p)%string \/
               (skip_slashes p = EmptyString /\ relative p = "."%string))).
  { unfold relative. pose proof (take_skip_slashes p) as T.
    pose proof (skip_slashes_head p) as H.
    destruct (skip_slashes p) as [|c r] eqn:E.
    - split; [discriminate|]. split; [reflexivity|]. right. split; reflexivity.
    - split; [discriminate|]. split; [apply H; discriminate|].
      left. symmetry. exact T. }
  destruct A as (A1 & A2 & A3). repeat split; try assumption.
  unfold relative at 1.
  destruct (relative p) as [|c r] eqn:E; [congruence|].
  simpl in A2. simpl. rewrite A2. reflexivity.
Qed.

Section Further.
Context {P : Platform}.
Variable uopt : uopt_t.

Lemma sys_after c s r w :
  os c (world s) = (r, w) -> sys c s = Val r (after c r w s).
Proof. exact (sys_eq c s r w). Qed.

Lemma sys_rc_after c s r w :
  os c (world s) = (r, w) -> sys_rc c s = Val (rc r) (after c r w s).
Proof. exact (sys_rc_eq c s r w). Qed.

Lemma sys_rv_after c s r w :
  os c (world s) = (r, w) -> sys_rv c s = Val (rv r) (after c r w s).
Proof. intros H. unfold sys_rv, bind. rewrite (sys_after _ _ _ _ H). reflexivity. Qed.

Lemma sys_stat_after c buf s r w :
  os c (world s) = (r, w) ->
  sys_stat c buf s
  = Val (match r with
         | Fail _ => (-1, buf)
         | OkStat st => (0, st)
         | _ => (0, buf)
         end) (after c r w s).
Proof.
  intros H. unfold sys_stat, bind. rewrite (sys_after _ _ _ _ H).
  destruct r; reflexivity.
Qed.

Lemma get_errno_after c r w s :
  get_errno (after c r w s)
  = Val (match r with Fail e => e | _ => errno s end) (after c r w s).
Proof. reflexivity. Qed.

(** A path that does not fit is refused before any call. *)
Lemma branch_call_long branch ap call s :
  branch_ready uopt branch ->
  built_loc uopt branch ap = None ->
  branch_call uopt branch ap call s = Val (- ENAMETOOLONG) (refused s).
Proof.
  intros Hr Hn.
  destruct (built_loc_none uopt branch ap Hr Hn) as (root & R & L & B).
  destruct (va_build_path_long uopt branch ap root s R L B) as (q & E).
  unfold branch_call, bind. rewrite E. reflexivity.
Qed.

(** ** cow_utils.c: [setlink] *)

(** X7.  With a path that fits, [setlink] makes the one call lchown(uid,
    gid) and returns 0 when it succeeds or fails with EPERM, 1 when it
    fails with anything else; a path that does not fit gives 1 without a
    call. *)
Theorem setlink_status branch path fs s :
  branch_ready uopt branch ->
  setlink uopt branch path fs s
  = match built_loc uopt branch [path] with
    | Some l =>
        let c := Lchown l (st_uid fs) (st_gid fs) in
        let r := fst (os c (world s)) in
        Val (match r with Fail e => if e =? EPERM then 0 else 1 | _ => 0 end)
            (after c r (snd (os c (world s))) s)
    | None => Val 1 (refused s)
    end.
Proof.
  intros Hr. unfold setlink, branch_lchown.
  destruct (built_loc uopt branch [path]) as [l|] eqn:B.
  - unfold bind. rewrite (branch_call_ok uopt _ _ _ _ s B).
    cbv zeta.
    rewrite (sys_rc_after _ s _ _ (surjective_pairing _)).
    destruct (fst (os (Lchown l (st_uid fs) (st_gid fs)) (world s))) as [e| | |];
      try reflexivity.
    simpl. destruct (e =? EPERM); reflexivity.
  - unfold bind. rewrite (branch_call_long _ _ _ s Hr B). reflexivity.
Qed.

(** ** general.c: [set_owner] *)

(** X30.  [set_owner] leaves the owner alone as soon as the uid or the
    gid of the request is 0; otherwise it makes the one call lchown(uid,
    gid) and returns 0 on success and the negated errno of the kernel on
    failure. *)
Theorem set_owner_status ctx path branch l s :
  built_loc uopt branch [path] = Some l ->
  set_owner uopt ctx path branch s
  = if (ctx_uid ctx =? 0) || (ctx_gid ctx =? 0) then Val 0 s
    else
      let c := Lchown l (ctx_uid ctx) (ctx_gid ctx) in
      let r := fst (os c (world s)) in
      Val (match r with Fail e => - e | _ => 0 end)
          (after c r (snd (os c (world s))) s).
Proof.
  intros B. unfold set_owner, branch_lchown.
  destruct (ctx_uid ctx =? 0); [reflexivity|].
  destruct (ctx_gid ctx =? 0); [reflexivity|].
  cbn [negb andb orb].
  unfold bind. rewrite (branch_call_ok uopt _ _ _ _ s B). cbv zeta.
  rewrite (sys_rc_after _ s _ _ (surjective_pairing _)).
  destruct (fst (os (Lchown l (ctx_uid ctx) (ctx_gid ctx)) (world s)));
    reflexivity.
Qed.

(** ** branch_ops.c: [branch_utimens] without the openat family *)

(** X2.  Built without the openat family, [branch_utimens] looks again
    when utimes() fails with ENOENT: it returns 0 when lstat() finds a
    symbolic link at the path and -ENOENT otherwise; any other failure
    of utimes() is returned as -1 without a second call. *)
Theorem branch_utimens_enoent atime mtime branch ap l s e w1 :
  HAVE_AT_FAMILY = false ->
  built_loc uopt branch ap = Some l ->
  os (Utimes l atime mtime) (world s) = (Fail e, w1) ->
  branch_utimens uopt atime mtime branch ap s
  = let s1 := after (Utimes l atime mtime) (Fail e) w1 s in
    if e =? ENOENT then
      let r2 := fst (os (Lstat l) w1) in
      Val (match r2 with
           | Fail _ => - ENOENT
           | OkStat st => if S_ISLNK (st_mode st) then 0 else - ENOENT
           | _ => if S_ISLNK (st_mode indet) then 0 else - ENOENT
           end)
          (after (Lstat l) r2 (snd (os (Lstat l) w1)) s1)
    else Val (-1) s1.
Proof.
  intros At B U. unfold branch_utimens.
  rewrite (branch_call_ok uopt _ _ _ _ s B). rewrite At.
  unfold bind. rewrite (sys_rc_after _ s _ _ U).
  rewrite get_errno_after. cbv zeta.
  change (rc (Fail e) =? -1) with true. cbn [andb].
  destruct (e =? ENOENT); [|reflexivity].
  rewrite (sys_stat_after (Lstat l) indet
             (after (Utimes l atime mtime) (Fail e) w1 s) _ _
             (surjective_pairing _)).
  change (world (after (Utimes l atime mtime) (Fail e) w1 s)) with w1.
  destruct (fst (os (Lstat l) w1)) as [e2|v|st|x]; cbv beta iota;
    try reflexivity.
  - destruct (S_ISLNK (st_mode indet)); reflexivity.
  - destruct (S_ISLNK (st_mode st)); reflexivity.
  - destruct (S_ISLNK (st_mode indet)); reflexivity.
Qed.

(** ** branch_ops.c: the extended attributes through a descriptor *)

Lemma xattr_call_refused l oflags at_fd plain s e w1 :
  HAVE_AT_FAMILY = true ->
  os (Open l (Z.lor oflags O_NOFOLLOW) 0) (world s) = (Fail e, w1) ->
  xattr_call l oflags at_fd plain s
  = Val (-1) (mkstate w1 (if e =? ELOOP then ENOTSUP else e)
                      (trace s ++ [Open l (Z.lor oflags O_NOFOLLOW) 0])).
Proof.
  intros At O. unfold xattr_call. rewrite At. unfold bind.
  rewrite (sys_rv_after _ _ _ _ O). change (rv (Fail e) =? -1) with true.
  cbv beta iota. rewrite get_errno_after. cbv iota.
  destruct (e =? ELOOP); reflexivity.
Qed.

(** X3.  With the openat family the four extended attribute operations
    first open the object without following links. When that open fails
    they return -1 without another call, and the errno ELOOP of a
    symbolic link is reported as ENOTSUP; every other errno is left as
    the kernel set it. *)
Theorem xattr_symlink_enotsup name value flags size branch ap l s e ww wr :
  HAVE_AT_FAMILY = true ->
  built_loc uopt branch ap = Some l ->
  os (Open l (Z.lor O_WRONLY O_NOFOLLOW) 0) (world s) = (Fail e, ww) ->
  os (Open l (Z.lor O_RDONLY O_NOFOLLOW) 0) (world s) = (Fail e, wr) ->
  let errno' := if e =? ELOOP then ENOTSUP else e in
  let refusal (o : Z) (w : World) :=
    Val (-1) (mkstate w errno' (trace s ++ [Open l (Z.lor o O_NOFOLLOW) 0])) in
  branch_lsetxattr uopt name value flags branch ap s = refusal O_WRONLY ww /\
  branch_lremovexattr uopt name branch ap s = refusal O_WRONLY ww /\
  branch_lgetxattr uopt name size branch ap s = refusal O_RDONLY wr /\
  branch_llistxattr uopt size branch ap s = refusal O_RDONLY wr.
Proof.
  intros At B Ow Or. cbv zeta.
  unfold branch_lsetxattr, branch_lremovexattr, branch_lgetxattr,
    branch_llistxattr.
  rewrite !(branch_call_ok uopt _ _ _ _ s B).
  rewrite !(xattr_call_refused _ O_WRONLY _ _ _ _ _ At Ow).
  rewrite !(xattr_call_refused _ O_RDONLY _ _ _ _ _ At Or).
  repeat split.
Qed.

(** ** branch_ops.c: [branch_opendir] with the openat family *)

(** X4.  With the openat family [branch_opendir] opens the directory and
    hands the descriptor to fdopendir(): it returns NULL without a
    second call when the open fails, closes the descriptor again and
    returns NULL when fdopendir() gives no handle, and returns the
    handle with the descriptor left to it otherwise. *)
Theorem branch_opendir_descriptor branch ap l s :
  HAVE_AT_FAMILY = true ->
  built_loc uopt branch ap = Some l ->
  let o := Open l (Z.lor O_RDONLY O_DIRECTORY) 0 in
  let r1 := fst (os o (world s)) in
  let w1 := snd (os o (world s)) in
  let s1 := after o r1 w1 s in
  let d := rv r1 in
  let r2 := fst (os (Fdopendir d) w1) in
  let w2 := snd (os (Fdopendir d) w1) in
  let s2 := after (Fdopendir d) r2 w2 s1 in
  branch_opendir uopt branch ap s
  = if d =? -1 then Val 0 s1
    else if dir_handle r2 =? 0
         then Val 0 (after (Close d) (fst (os (Close d) w2))
                           (snd (os (Close d) w2)) s2)
         else Val (dir_handle r2) s2.
Proof.
  intros At B. cbv zeta. unfold branch_opendir.
  destruct (built_loc_path uopt branch ap l B) as (p & Bp & Bl).
  unfold bind at 1. rewrite (va_build_path_ok uopt branch ap p s Bp). change (0 <? 0) with false. cbv iota.
  unfold bind at 1. rewrite Bl. rewrite At.
  unfold bind at 1.
  rewrite (sys_rv_after _ s _ _ (surjective_pairing _)).
  destruct (rv (fst (os (Open l (Z.lor O_RDONLY O_DIRECTORY) 0) (world s))) =? -1);
    [reflexivity|].
  unfold bind at 1.
  rewrite (sys_after (Fdopendir _)
             (after (Open l (Z.lor O_RDONLY O_DIRECTORY) 0) _ _ s) _ _
             (surjective_pairing _)).
  cbn [world after].
  destruct (fst (os (Fdopendir _) _)) as [e|dir|st|x] eqn:F; cbn [dir_handle];
    try (change (0 =? 0) with true; cbv iota; unfold bind;
         rewrite (sys_after (Close _) _ _ _ (surjective_pairing _));
         reflexivity).
  destruct (dir =? 0); [|reflexivity].
  unfold bind. rewrite (sys_after (Close _) _ _ _ (surjective_pairing _)).
  reflexivity.
Qed.

(** ** cow_utils.c: [setfile] *)

Lemma land_type_sticky m :
  Z.land (Z.land m 3583) (Z.lor S_IFMT S_ISVTX) = 0 /\
  Z.land (Z.land m 511) (Z.lor S_IFMT S_ISVTX) = 0.
Proof.
  rewrite <- !Z.land_assoc.
  change (Z.land 3583 (Z.lor S_IFMT S_ISVTX)) with 0.
  change (Z.land 511 (Z.lor S_IFMT S_ISVTX)) with 0.
  rewrite Z.land_0_r. split; reflexivity.
Qed.

(** What [setfile] does when the time update has returned. *)
Lemma setfile_run branch path fs l s ru s1 :
  HAVE_CHFLAGS = false ->
  built_loc uopt branch [path] = Some l ->
  branch_utimens uopt (st_atime fs) (st_mtime fs) branch [path] s = Val ru s1 ->
  let c2 := Chown l (st_uid fs) (st_gid fs) in
  let r2 := fst (os c2 (world s1)) in
  let w2 := snd (os c2 (world s1)) in
  let m := if succeeds r2 then Z.land (st_mode fs) 3583
           else Z.land (st_mode fs) 511 in
  let r3 := fst (os (Chmod l m) w2) in
  let w3 := snd (os (Chmod l m) w2) in
  setfile uopt branch path fs s
  = Val (if negb (ru =? 0) || chown_fatal r2 || negb (succeeds r3)
         then 1 else 0,
         set_mode fs m)
        (after (Chmod l m) r3 w3 (after c2 r2 w2 s1)) /\
  Z.land m (Z.lor S_IFMT S_ISVTX) = 0.
Proof.
  intros Hcf B U. cbv zeta. split.
  2:{ destruct (succeeds _); apply land_type_sticky. }
  unfold setfile. cbv zeta.
  change (Z.lor S_ISUID (Z.lor S_ISGID (lor3 S_IRWXU S_IRWXG S_IRWXO))) with 3583.
  cbn [st_atime st_mtime st_uid st_gid st_mode st_flags set_mode].
  unfold bind at 1. rewrite U.
  unfold branch_chown. unfold bind at 1.
  rewrite (branch_call_ok uopt _ _ _ _ s1 B).
  rewrite (sys_rc_after _ s1 _ _ (surjective_pairing _)).
  rewrite Hcf.
  pose proof (mode_without_special_bits (st_mode fs)) as Hm.
  change (Z.lor S_ISUID (Z.lor S_ISGID (lor3 S_IRWXU S_IRWXG S_IRWXO)))
    with 3583 in Hm.
  destruct (fst (os (Chown l (st_uid fs) (st_gid fs)) (world s1)))
    as [e|v|st|x] eqn:R2; cbn [rc succeeds chown_fatal].
  - change (negb (-1 =? 0)) with true. cbv iota.
    unfold bind at 1. unfold bind at 1. rewrite get_errno_after. cbv iota.
    unfold ret at 1. cbv beta iota. cbn [st_mode set_mode].
    rewrite Hm. unfold branch_chmod. unfold bind at 1.
    rewrite (branch_call_ok uopt _ _ _ _ _ B).
    rewrite (sys_rc_after (Chmod l (Z.land (st_mode fs) 511))
               (after (Chown l (st_uid fs) (st_gid fs)) (Fail e) _ s1) _ _
               (surjective_pairing _)).
    cbn [world after].
    destruct (fst (os (Chmod l (Z.land (st_mode fs) 511)) _)) as [e3| | |];
      cbn [rc succeeds negb];
      destruct (ru =? 0); destruct (e =? EPERM); reflexivity.
  - change (negb (0 =? 0)) with false. cbv iota.
    unfold bind at 1. unfold ret at 1. cbv beta iota. cbn [st_mode set_mode].
    unfold branch_chmod. unfold bind at 1.
    rewrite (branch_call_ok uopt _ _ _ _ _ B).
    rewrite (sys_rc_after (Chmod l (Z.land (st_mode fs) 3583))
               (after (Chown l (st_uid fs) (st_gid fs)) (Ok v) _ s1) _ _
               (surjective_pairing _)).
    cbn [world after].
    destruct (fst (os (Chmod l (Z.land (st_mode fs) 3583)) _)) as [e3| | |];
      cbn [rc succeeds negb]; destruct (ru =? 0); reflexivity.
  - change (negb (0 =? 0)) with false. cbv iota.
    unfold bind at 1. unfold ret at 1. cbv beta iota. cbn [st_mode set_mode].
    unfold branch_chmod. unfold bind at 1.
    rewrite (branch_call_ok uopt _ _ _ _ _ B).
    rewrite (sys_rc_after (Chmod l (Z.land (st_mode fs) 3583))
               (after (Chown l (st_uid fs) (st_gid fs)) (OkStat st) _ s1) _ _
               (surjective_pairing _)).
    cbn [world after].
    destruct (fst (os (Chmod l (Z.land (st_mode fs) 3583)) _)) as [e3| | |];
      cbn [rc succeeds negb]; destruct (ru =? 0); reflexivity.
  - change (negb (0 =? 0)) with false. cbv iota.
    unfold bind at 1. unfold ret at 1. cbv beta iota. cbn [st_mode set_mode].
    unfold branch_chmod. unfold bind at 1.
    rewrite (branch_call_ok uopt _ _ _ _ _ B).
    rewrite (sys_rc_after (Chmod l (Z.land (st_mode fs) 3583))
               (after (Chown l (st_uid fs) (st_gid fs)) (OkStr x) _ s1) _ _
               (surjective_pairing _)).
    cbn [world after].
    destruct (fst (os (Chmod l (Z.land (st_mode fs) 3583)) _)) as [e3| | |];
      cbn [rc succeeds negb]; destruct (ru =? 0); reflexivity.
Qed.

(** X6.  On a build without chflags() and with a path that fits,
    [setfile] goes on after every failure: whatever the time update
    returned, it calls chown(uid, gid) and then chmod(). The mode it
    sets is the source mode cut down to the bits 06777, and to 0777 when
    chown() failed; it never holds the sticky bit or a file type. The
    status is 1 exactly when the time update failed, chown() failed with
    something else than EPERM, or chmod() failed. *)
Theorem setfile_status branch path fs l s ru s1 :
  HAVE_CHFLAGS = false ->
  built_loc uopt branch [path] = Some l ->
  branch_utimens uopt (st_atime fs) (st_mtime fs) branch [path] s = Val ru s1 ->
  let c2 := Chown l (st_uid fs) (st_gid fs) in
  let r2 := fst (os c2 (world s1)) in
  let w2 := snd (os c2 (world s1)) in
  let m := if succeeds r2 then Z.land (st_mode fs) 3583
           else Z.land (st_mode fs) 511 in
  let r3 := fst (os (Chmod l m) w2) in
  let w3 := snd (os (Chmod l m) w2) in
  setfile uopt branch path fs s
  = Val (if negb (ru =? 0) || chown_fatal r2 || negb (succeeds r3)
         then 1 else 0,
         set_mode fs m)
        (after (Chmod l m) r3 w3 (after c2 r2 w2 s1)) /\
  Z.land m (Z.lor S_IFMT S_ISVTX) = 0.
Proof. exact (setfile_run branch path fs l s ru s1). Qed.

(** ** cow_utils.c: [copy_fifo], [copy_special] and [copy_link] *)

(** X14.  When mkfifo() or mknod() refuses to make the node, [copy_fifo]
    and [copy_special] return 1 after this one call: none of the
    metadata calls of [setfile] is made on the missing node. *)
Theorem copy_node_refused cow l s :
  built_loc uopt (to_branch cow) [to_path cow] = Some l ->
  let fifo := Mkfifo l (st_mode (cow_stat cow)) in
  let node := Mknod l (st_mode (cow_stat cow)) (st_rdev (cow_stat cow)) in
  (succeeds (fst (os fifo (world s))) = false ->
   copy_fifo uopt cow s
   = Val 1 (after fifo (fst (os fifo (world s))) (snd (os fifo (world s))) s)) /\
  (succeeds (fst (os node (world s))) = false ->
   copy_special uopt cow s
   = Val 1 (after node (fst (os node (world s))) (snd (os node (world s))) s)).
Proof.
  intros B. cbv zeta. split; intros F.
  - unfold copy_fifo, branch_mkfifo. unfold bind at 1.
    rewrite (branch_call_ok uopt _ _ _ _ s B).
    rewrite (sys_rc_after _ s _ _ (surjective_pairing _)).
    rewrite (rc_fails _ F). reflexivity.
  - unfold copy_special, branch_mknod. unfold bind at 1.
    rewrite (branch_call_ok uopt _ _ _ _ s B).
    rewrite (sys_rc_after _ s _ _ (surjective_pairing _)).
    rewrite (rc_fails _ F). reflexivity.
Qed.

Lemma branch_readlink_ok buf bufsiz branch ap l s :
  built_loc uopt branch ap = Some l ->
  branch_readlink uopt buf bufsiz branch ap s
  = (r <- sys (Readlink l bufsiz) ;;
     match r with
     | OkStr t => ret (strlen t, t)
     | r => ret (rv r, buf)
     end) s.
Proof.
  intros B. destruct (built_loc_path uopt branch ap l B) as (p & Bp & Bl).
  unfold branch_readlink. unfold bind at 1.
  rewrite (va_build_path_ok uopt branch ap p s Bp).
  change (0 <? 0) with false. cbv iota. unfold bind at 1. rewrite Bl.
  reflexivity.
Qed.

Lemma branch_readlink_long buf bufsiz branch ap s :
  branch_ready uopt branch ->
  built_loc uopt branch ap = None ->
  branch_readlink uopt buf bufsiz branch ap s
  = Val (- ENAMETOOLONG, buf) (refused s).
Proof.
  intros Hr Hn.
  destruct (built_loc_none uopt branch ap Hr Hn) as (root & R & L & B).
  destruct (va_build_path_long uopt branch ap root s R L B) as (q & E).
  unfold branch_readlink, bind. rewrite E. reflexivity.
Qed.

(** X12.  [copy_link] gives the new link the target that readlink() read
    from the old one: when readlink() fails it returns 1 after this one
    call; otherwise it calls symlink() with the target as read, returns
    1 when that fails and goes on to [setlink] when it succeeds. *)
Theorem copy_link_target cow lf lt s :
  built_loc uopt (from_branch cow) [from_path cow] = Some lf ->
  built_loc uopt (to_branch cow) [to_path cow] = Some lt ->
  let c1 := Readlink lf (PATHLEN_MAX - 1) in
  let r1 := fst (os c1 (world s)) in
  let w1 := snd (os c1 (world s)) in
  let s1 := after c1 r1 w1 s in
  (forall e, r1 = Fail e -> copy_link uopt cow s = Val 1 s1) /\
  (forall t, r1 = OkStr t -> strlen t < PATHLEN_MAX ->
     let c2 := Symlink t lt in
     let r2 := fst (os c2 w1) in
     let s2 := after c2 r2 (snd (os c2 w1)) s1 in
     copy_link uopt cow s
     = if succeeds r2
       then setlink uopt (to_branch cow) (to_path cow) (cow_stat cow) s2
       else Val 1 s2).
Proof.
  intros Bf Bt. cbv zeta. split.
  - intros e R. unfold copy_link. unfold bind at 1.
    rewrite (branch_readlink_ok _ _ _ _ _ s Bf). unfold bind at 1.
    rewrite (sys_after _ s _ _ (surjective_pairing _)). rewrite R.
    reflexivity.
  - intros t R L. unfold copy_link. unfold bind at 1.
    rewrite (branch_readlink_ok _ _ _ _ _ s Bf). unfold bind at 1.
    rewrite (sys_after _ s _ _ (surjective_pairing _)). rewrite R.
    unfold ret at 1. cbv beta iota.
    pose proof (strlen_nonneg t) as N.
    destruct (Z.eqb_spec (strlen t) (-1)); [lia|].
    destruct (Z.ltb_spec (strlen t) 0); [lia|].
    destruct (Z.leb_spec PATHLEN_MAX (strlen t)); [lia|]. cbn [orb].
    unfold branch_symlink. unfold bind at 1.
    rewrite (branch_call_ok uopt _ _ _ _ _ Bt).
    rewrite (sys_rc_after (Symlink t lt)
               (after (Readlink lf (PATHLEN_MAX - 1)) (OkStr t) _ s) _ _
               (surjective_pairing _)).
    cbn [world after].
    destruct (fst (os (Symlink t lt) _)); reflexivity.
Qed.

(** X13.  [copy_link] tests the result of readlink against -1 only. With
    a source path that does not fit, the operation returns -ENAMETOOLONG
    instead, and the terminator is stored at link[-ENAMETOOLONG], in
    front of the buffer. *)
Theorem copy_link_long_source cow s :
  branch_ready uopt (from_branch cow) ->
  built_loc uopt (from_branch cow) [from_path cow] = None ->
  copy_link uopt cow s = Fault BufferOverflow (refused s).
Proof.
  intros Hr Hn. unfold copy_link. unfold bind at 1.
  rewrite (branch_readlink_long _ _ _ _ s Hr Hn). reflexivity.
Qed.

(** ** cow_utils.c: [copy_file] *)

Lemma copy_file_opened fuel cow lf lt s d1 w1 d2 w2 :
  built_loc uopt (from_branch cow) [from_path cow] = Some lf ->
  built_loc uopt (to_branch cow) [to_path cow] = Some lt ->
  os (open_source lf) (world s) = (Ok d1, w1) -> d1 <> -1 ->
  os (open_copy lt (cow_stat cow)) w1 = (Ok d2, w2) -> d2 <> -1 ->
  copy_file uopt fuel cow s
  = (let fs := cow_stat cow in
     '(rval, bail) <-
       (if (0 <? st_size fs) && (st_size fs <=? 8 * 1048576) then
          r <- sys (Mmap d1 (st_size fs)) ;;
          match r with
          | Fail _ => ret (1, false)
          | _ =>
              sys (Madvise (st_size fs)) ;;
              w <- sys_rv (Write d2 (reply_data r) (st_size fs)) ;;
              let rval := if negb (w =? st_size fs) then 1 else 0 in
              m <- sys_rv (Munmap (st_size fs)) ;;
              ret (if m <? 0 then 1 else rval, false)
          end
        else
          '(rval, rcount) <- copy_loop fuel d1 d2 ;;
          ret (rval, rcount <? 0)) ;;
     if (bail : bool) then ret 1 else
     if rval =? 1 then sys (Close d1) ;; sys (Close d2) ;; ret 1 else
     '(r, fs) <- setfile uopt (to_branch cow) (to_path cow) fs ;;
     rval <-
       (if negb (r =? 0) then ret 1
        else if negb (Z.land (st_mode fs) (Z.lor S_ISUID S_ISGID) =? 0)
                && (st_uid fs =? cow_uid cow) then
          '(r, to_stat) <- sys_stat (Fstat d2) indet ;;
          if negb (r =? 0) then ret 1
          else if st_gid fs =? st_gid to_stat then
            r <- sys_rc (Fchmod d2
                   (Z.land (Z.land (st_mode fs) RETAINBITS)
                           (Z.lnot (cow_umask cow)))) ;;
            if negb (r =? 0) then ret 1 else ret rval
          else ret rval
        else ret rval) ;;
     sys (Close d1) ;;
     r <- sys_rc (Close d2) ;;
     if negb (r =? 0) then ret 1 else ret rval)
    (both_open lf lt (cow_stat cow) d1 w1 d2 w2 s).
Proof.
  intros Bf Bt O1 N1 O2 N2. unfold copy_file, branch_open.
  unfold both_open, open_source, open_copy in *.
  unfold bind at 1. rewrite (branch_call_ok uopt _ _ _ _ s Bf).
  rewrite (sys_rv_after _ s _ _ O1). cbn [rv].
  destruct (Z.eqb_spec d1 (-1)); [contradiction|].
  cbv zeta. unfold bind at 1. rewrite (branch_call_ok uopt _ _ _ _ _ Bt).
  rewrite (sys_rv_after _ (after (Open lf O_RDONLY 0) (Ok d1) w1 s) _ _ O2).
  cbn [rv].
  destruct (Z.eqb_spec d2 (-1)); [contradiction|].
  reflexivity.
Qed.

(** X9.  When both files are open, the size of the source is outside the
    range copied through mmap(), and the first read() fails, [copy_file]
    returns 1 at once: the read is its last call, and neither descriptor
    is closed. *)
Theorem copy_file_read_error fuel cow lf lt s d1 w1 d2 w2 e w3 :
  built_loc uopt (from_branch cow) [from_path cow] = Some lf ->
  built_loc uopt (to_branch cow) [to_path cow] = Some lt ->
  os (open_source lf) (world s) = (Ok d1, w1) -> d1 <> -1 ->
  os (open_copy lt (cow_stat cow)) w1 = (Ok d2, w2) -> d2 <> -1 ->
  st_size (cow_stat cow) <= 0 \/ 8 * 1048576 < st_size (cow_stat cow) ->
  os (Read d1 MAXBSIZE) w2 = (Fail e, w3) ->
  copy_file uopt (S fuel) cow s
  = Val 1 (after (Read d1 MAXBSIZE) (Fail e) w3
             (both_open lf lt (cow_stat cow) d1 w1 d2 w2 s)) /\
  trace (both_open lf lt (cow_stat cow) d1 w1 d2 w2 s)
  = (trace s ++ [open_source lf; open_copy lt (cow_stat cow)])%list.
Proof.
  intros Bf Bt O1 N1 O2 N2 Sz R. split.
  2:{ unfold both_open, after. cbn [trace]. rewrite <- app_assoc. reflexivity. }
  rewrite (copy_file_opened _ _ _ _ _ _ _ _ _ Bf Bt O1 N1 O2 N2). cbv zeta.
  assert (Hs : (0 <? st_size (cow_stat cow))
               && (st_size (cow_stat cow) <=? 8 * 1048576) = false).
  { destruct Sz.
    - destruct (Z.ltb_spec 0 (st_size (cow_stat cow))); [lia|reflexivity].
    - destruct (Z.leb_spec (st_size (cow_stat cow)) (8 * 1048576)); [lia|].
      apply andb_false_r. }
  rewrite Hs. unfold bind at 1. unfold bind at 1.
  cbn [copy_loop]. unfold bind at 1.
  rewrite (sys_after (Read d1 MAXBSIZE)
             (both_open lf lt (cow_stat cow) d1 w1 d2 w2 s) _ _ R).
  reflexivity.
Qed.


(** ** cow.c: [copy_directory] *)

Lemma copy_directory_opened fuel path ro rw s s0 dp s1 :
  path_create uopt path ro rw s = Val 0 s0 ->
  branch_opendir uopt ro [path] s0 = Val dp s1 -> dp <> 0 ->
  copy_directory uopt fuel path ro rw s
  = readdir_loop fuel (cow_cp uopt fuel) dp path (strlen path + 1) ro rw s1.
Proof.
  intros C O N. unfold copy_directory, copy_directory_with.
  unfold bind at 1. rewrite C. change (negb (0 =? 0)) with false. cbv iota zeta.
  unfold bind at 1. rewrite O.
  destruct (Z.eqb_spec dp 0); [contradiction|]. reflexivity.
Qed.

(** X21.  When the directory is open and readdir() hands out an entry,
    other than "." and "..", whose name does not fit behind the path and
    a slash in PATHLEN_MAX characters, [copy_directory] returns 1 with
    errno ENAMETOOLONG; readdir() is its last call, the directory handle
    is not closed. *)
Theorem copy_directory_long_name fuel path ro rw s s0 dp s1 name w2 :
  path_create uopt path ro rw s = Val 0 s0 ->
  branch_opendir uopt ro [path] s0 = Val dp s1 -> dp <> 0 ->
  os (Readdir dp) (world s1) = (OkStr name, w2) ->
  name <> "."%string -> name <> ".."%string ->
  PATHLEN_MAX <= strlen path + 1 + strlen name ->
  copy_directory uopt (S fuel) path ro rw s
  = Val 1 (mkstate w2 ENAMETOOLONG (trace s1 ++ [Readdir dp])).
Proof.
  intros C O N R D1 D2 L.
  rewrite (copy_directory_opened _ _ _ _ _ _ _ _ C O N).
  cbn [readdir_loop]. unfold bind at 1. rewrite (sys_after _ _ _ _ R).
  cbv iota.
  destruct (String.eqb_spec name "."); [contradiction|].
  destruct (String.eqb_spec name ".."); [contradiction|]. cbn [orb].
  destruct (Z.leb_spec PATHLEN_MAX (strlen path + 1 + strlen name)); [|lia].
  reflexivity.
Qed.

(** X22.  [copy_directory] copies neither "." nor "..": on a directory
    that holds nothing else it makes three readdir() calls and closes
    the handle, and returns 0 whatever closedir() answers. *)
Theorem copy_directory_skips_dots fuel path ro rw s s0 dp s1 w2 w3 r4 w4 :
  path_create uopt path ro rw s = Val 0 s0 ->
  branch_opendir uopt ro [path] s0 = Val dp s1 -> dp <> 0 ->
  os (Readdir dp) (world s1) = (OkStr ".", w2) ->
  os (Readdir dp) w2 = (OkStr "..", w3) ->
  os (Readdir dp) w3 = (r4, w4) ->
  (forall name, r4 <> OkStr name) ->
  exists s',
    copy_directory uopt (S (S (S fuel))) path ro rw s = Val 0 s' /\
    trace s' = (trace s1 ++ [Readdir dp; Readdir dp; Readdir dp; Closedir dp])%list.
Proof.
  intros C O N R1 R2 R3 End.
  rewrite (copy_directory_opened _ _ _ _ _ _ _ _ C O N).
  cbn [readdir_loop]. unfold bind at 1. rewrite (sys_after _ _ _ _ R1).
  cbv iota. change (String.eqb "." "." || String.eqb "." "..") with true.
  cbv iota. unfold bind at 1.
  rewrite (sys_after (Readdir dp) (after (Readdir dp) (OkStr ".") w2 s1) _ _ R2).
  cbv iota. change (String.eqb ".." "." || String.eqb ".." "..") with true.
  cbv iota. unfold bind at 1.
  rewrite (sys_after (Readdir dp)
             (after (Readdir dp) (OkStr "..") w3
                (after (Readdir dp) (OkStr ".") w2 s1)) _ _ R3).
  assert (T : forall (s2 : state),
             exists s', (sys (Closedir dp) ;; ret 0) s2 = Val 0 s' /\
                        trace s' = (trace s2 ++ [Closedir dp])%list).
  { intros s2. unfold bind.
    rewrite (sys_after (Closedir dp) s2 _ _ (surjective_pairing _)).
    eexists. split; reflexivity. }
  destruct (T (after (Readdir dp) r4 w4
                 (after (Readdir dp) (OkStr "..") w3
                    (after (Readdir dp) (OkStr ".") w2 s1))))
    as (s' & E & Tr).
  exists s'. split.
  - destruct r4 as [e|v|st|name]; try exact E.
    exfalso. exact (End name eq_refl).
  - rewrite Tr. unfold after. cbn [trace]. rewrite <- !app_assoc. reflexivity.
Qed.

(** ** cow.c: [cow_cp] and [do_create] *)

(** X18.  When lstat() of the source does not succeed, [cow_cp] returns
    what the operation returned, -1 or -ENAMETOOLONG, right after the
    probe: nothing is copied, and the directories made for the parents
    stay. *)
Theorem cow_cp_source_gone fuel path branch_ro branch_rw s r0 s0 uid umask res buf s1 :
  path_create_cutlast uopt path branch_ro branch_rw s = Val r0 s0 ->
  cow_probe uopt path branch_ro s0 = Val (uid, umask, (res, buf)) s1 ->
  res <> 0 ->
  cow_cp uopt fuel path branch_ro branch_rw s = Val res s1.
Proof.
  intros H0 Hp N.
  unfold cow_probe in Hp. unfold bind at 1 in Hp.
  destruct (sys Setlocale s0) as [r1 t1|] eqn:E1; [|discriminate].
  unfold bind at 1 in Hp.
  destruct (sys_rv Getuid t1) as [u t2|] eqn:E2; [|discriminate].
  unfold bind at 1 in Hp.
  destruct (sys_rv (Umask 0) t2) as [m t3|] eqn:E3; [|discriminate].
  unfold bind at 1 in Hp.
  destruct (sys (Umask m) t3) as [r4 t4|] eqn:E4; [|discriminate].
  unfold bind at 1 in Hp.
  destruct (branch_lstat uopt indet branch_ro [path] t4) as [r5 t5|] eqn:E5;
    [|discriminate].
  injection Hp as -> -> -> ->.
  destruct (Z.eqb_spec res 0) as [|_]; [contradiction|].
  destruct fuel; cbn [cow_cp]; rewrite (bind_Val _ _ _ _ _ H0);
    rewrite (bind_Val _ _ _ _ _ E1), (bind_Val _ _ _ _ _ E2),
      (bind_Val _ _ _ _ _ E3), (bind_Val _ _ _ _ _ E4),
      (bind_Val _ _ _ _ _ E5);
    destruct (Z.eqb_spec res 0); try contradiction; reflexivity.
Qed.

(** X15.  Between two different branches, [do_create] makes no directory
    that the source branch does not have: when stat() finds the path on
    neither branch it returns 1 after these two calls. *)
Theorem do_create_source_gone path ro rw lr lw s :
  ro <> rw ->
  built_loc uopt rw [path] = Some lw ->
  built_loc uopt ro [path] = Some lr ->
  let r1 := fst (os (Stat lw) (world s)) in
  let w1 := snd (os (Stat lw) (world s)) in
  let r2 := fst (os (Stat lr) w1) in
  succeeds r1 = false ->
  succeeds r2 = false ->
  do_create uopt path ro rw s
  = Val 1 (after (Stat lr) r2 (snd (os (Stat lr) w1))
             (after (Stat lw) r1 w1 s)).
Proof.
  intros Ne Bw Br r1 w1 r2 F1 F2. unfold do_create.
  unfold bind at 1. rewrite (branch_stat_ok uopt _ _ _ _ s Bw).
  rewrite (sys_stat_after (Stat lw) indet s _ _ (surjective_pairing _)).
  fold r1 w1. destruct r1 as [e1| | |] eqn:R1; try discriminate.
  cbv iota. change (negb (-1 =? -1)) with false. cbv iota.
  destruct (Z.eqb_spec ro rw); [contradiction|].
  unfold bind at 1. unfold bind at 1.
  rewrite (branch_stat_ok uopt _ _ _ _ _ Br).
  rewrite (sys_stat_after (Stat lr) indet (after (Stat lw) (Fail e1) w1 s) _ _
             (surjective_pairing _)).
  cbn [world after]. fold r2.
  destruct r2 as [e2| | |] eqn:R2; try discriminate.
  reflexivity.
Qed.

(** ** branch_ops.c: [branch_truncate] with the openat family *)

(** X5.  With the openat family [branch_truncate] goes through a
    descriptor: it returns -1 without another call when the open fails;
    otherwise it calls ftruncate(), closes the descriptor in either
    case, and returns what ftruncate() returned, whatever close()
    answers. *)
Theorem branch_truncate_descriptor length branch ap l s :
  HAVE_AT_FAMILY = true ->
  built_loc uopt branch ap = Some l ->
  let o := Open l O_WRONLY 0 in
  let r1 := fst (os o (world s)) in
  let w1 := snd (os o (world s)) in
  let s1 := after o r1 w1 s in
  let d := rv r1 in
  let r2 := fst (os (Ftruncate d length) w1) in
  let w2 := snd (os (Ftruncate d length) w1) in
  branch_truncate uopt length branch ap s
  = if d =? -1 then Val (-1) s1
    else Val (rc r2)
             (after (Close d) (fst (os (Close d) w2)) (snd (os (Close d) w2))
                (after (Ftruncate d length) r2 w2 s1)).
Proof.
  intros At B. cbv zeta. unfold branch_truncate.
  rewrite (branch_call_ok uopt _ _ _ _ s B). rewrite At. unfold bind at 1.
  rewrite (sys_rv_after _ s _ _ (surjective_pairing _)).
  destruct (rv (fst (os (Open l O_WRONLY 0) (world s))) =? -1); [reflexivity|].
  unfold bind at 1.
  rewrite (sys_rc_after (Ftruncate _ length)
             (after (Open l O_WRONLY 0) _ _ s) _ _ (surjective_pairing _)).
  cbn [world after]. unfold bind.
  rewrite (sys_after (Close _) _ _ _ (surjective_pairing _)).
  reflexivity.
Qed.

(** ** general.c: [path_is_dir] *)

(** X24.  With a path that fits, [path_is_dir] makes the one call
    lstat() and answers NOT_EXISTING when it fails, IS_DIR when it finds
    a directory and IS_FILE for everything else; as lstat() does not
    follow links, a link to a directory is IS_FILE. *)
Theorem path_is_dir_fits branch ap l s :
  built_loc uopt branch ap = Some l ->
  let r := fst (os (Lstat l) (world s)) in
  path_is_dir uopt branch ap s
  = Val (match r with
         | Fail _ => NOT_EXISTING
         | OkStat st => if S_ISDIR (st_mode st) then IS_DIR else IS_FILE
         | _ => if S_ISDIR (st_mode indet) then IS_DIR else IS_FILE
         end)
        (after (Lstat l) r (snd (os (Lstat l) (world s))) s).
Proof.
  intros B. cbv zeta. unfold path_is_dir.
  change (branch_va_lstat uopt indet branch ap)
    with (branch_lstat uopt indet branch ap).
  unfold bind. rewrite (branch_lstat_ok uopt _ _ l _ _ B).
  rewrite (sys_stat_after (Lstat l) indet s _ _ (surjective_pairing _)).
  destruct (fst (os (Lstat l) (world s))) as [e|v|st|x]; cbv iota;
    try reflexivity.
  - change (0 =? -1) with false. cbv iota.
    destruct (S_ISDIR (st_mode indet)); reflexivity.
  - change (0 =? -1) with false. cbv iota.
    destruct (S_ISDIR (st_mode st)); reflexivity.
  - change (0 =? -1) with false. cbv iota.
    destruct (S_ISDIR (st_mode indet)); reflexivity.
Qed.

(** ** The calls a run can make *)

Lemma emits_ret {A} Q (a : A) : emits Q (ret a).
Proof. intros s. exists []. split; [symmetry; apply app_nil_r|constructor]. Qed.

Lemma emits_raise {A} Q f : emits Q (@raise P A f).
Proof. intros s. exists []. split; [symmetry; apply app_nil_r|constructor]. Qed.

Lemma emits_set_errno Q e : emits Q (set_errno e).
Proof. intros s. exists []. split; [symmetry; apply app_nil_r|constructor]. Qed.

Lemma emits_get_errno Q : emits Q get_errno.
Proof. intros s. exists []. split; [symmetry; apply app_nil_r|constructor]. Qed.

Lemma emits_bind {A B} Q (m : M A) (k : A -> M B) :
  emits Q m -> (forall a, emits Q (k a)) -> emits Q (bind m k).
Proof.
  intros Hm Hk s. destruct (Hm s) as (c1 & T1 & F1). unfold bind.
  destruct (m s) as [a s1|f s1]; cbn [final] in *.
  - destruct (Hk a s1) as (c2 & T2 & F2). exists (c1 ++ c2)%list. split.
    + rewrite T2, T1, app_assoc. reflexivity.
    + apply Forall_app. split; assumption.
  - exists c1. split; assumption.
Qed.

Lemma emits_sys (Q : syscall -> Prop) c : Q c -> emits Q (sys c).
Proof.
  intros H s. exists [c]. unfold sys. destruct (os c (world s)) as [r w].
  split; [reflexivity|]. constructor; [exact H|constructor].
Qed.

Lemma emits_sys_rc (Q : syscall -> Prop) c : Q c -> emits Q (sys_rc c).
Proof.
  intros H. apply emits_bind; [apply emits_sys; exact H|].
  intros r. apply emits_ret.
Qed.

Lemma emits_sys_rv (Q : syscall -> Prop) c : Q c -> emits Q (sys_rv c).
Proof.
  intros H. apply emits_bind; [apply emits_sys; exact H|].
  intros r. apply emits_ret.
Qed.

Lemma emits_sys_stat (Q : syscall -> Prop) c buf : Q c -> emits Q (sys_stat c buf).
Proof.
  intros H. apply emits_bind; [apply emits_sys; exact H|].
  intros r. destruct r; apply emits_ret.
Qed.

Lemma emits_ext {A} Q (m m' : M A) :
  (forall s, m s = m' s) -> emits Q m' -> emits Q m.
Proof. intros E H s. rewrite E. apply H. Qed.

(** The head that all branch operations share: the path is built, and
    the rest runs on the object it names. *)
Lemma emits_located {A} Q branch ap (F : Z -> string -> M A) (K : loc -> M A) :
  ap <> [] ->
  (forall res q, emits Q (F res q)) ->
  (forall l, built_loc uopt branch ap = Some l -> emits Q (K l)) ->
  emits Q ('(res, p) <- va_build_path uopt PATHLEN_MAX branch ap ;;
           if res <? 0 then F res p else
           l <- branch_loc uopt branch p ;;
           K l).
Proof.
  intros Hap HF HK s.
  destruct (va_build_path_cases uopt branch ap Hap)
    as [(p & Hp & E)|[(Hn & E)|(Hn & E)]].
  - rewrite (bind_Val _ _ _ _ _ (E s)). change (0 <? 0) with false. cbv iota.
    destruct (branch_loc_cases uopt branch ap p Hp) as [(l & Hl & El)|(_ & El)].
    + rewrite (bind_Val _ _ _ _ _ (El s)). apply (HK l Hl).
    + destruct (El s) as [f Ef]. rewrite (bind_Fault _ _ _ _ _ Ef).
      exists []. split; [symmetry; apply app_nil_r|constructor].
  - destruct (E s) as [q Eq]. rewrite (bind_Val _ _ _ _ _ Eq).
    change (- ENAMETOOLONG <? 0) with true. cbv iota.
    apply (HF (- ENAMETOOLONG) q (mkstate (world s) ENAMETOOLONG (trace s))).
  - destruct (E s) as [f Ef]. rewrite (bind_Fault _ _ _ _ _ Ef).
    exists []. split; [symmetry; apply app_nil_r|constructor].
Qed.

Lemma emits_branch_call Q branch ap call :
  ap <> [] ->
  (forall l, built_loc uopt branch ap = Some l -> emits Q (call l)) ->
  emits Q (branch_call uopt branch ap call).
Proof.
  intros Hap H.
  exact (emits_located Q branch ap (fun res _ => ret res) call Hap
           (fun res _ => emits_ret Q res) H).
Qed.

Lemma emits_branch_stat (Q : syscall -> Prop) buf branch ap :
  ap <> [] ->
  (forall l, built_loc uopt branch ap = Some l -> Q (Stat l)) ->
  emits Q (branch_stat uopt buf branch ap).
Proof.
  intros Hap H.
  exact (emits_located Q branch ap (fun res _ => ret (res, buf))
           (fun l => sys_stat (Stat l) buf) Hap
           (fun res _ => emits_ret Q (res, buf))
           (fun l Hl => emits_sys_stat Q (Stat l) buf (H l Hl))).
Qed.

Lemma emits_branch_lstat (Q : syscall -> Prop) buf branch ap :
  ap <> [] ->
  (forall l, built_loc uopt branch ap = Some l -> Q (Lstat l)) ->
  emits Q (branch_lstat uopt buf branch ap).
Proof.
  intros Hap H.
  exact (emits_located Q branch ap (fun res _ => ret (res, buf))
           (fun l => sys_stat (Lstat l) buf) Hap
           (fun res _ => emits_ret Q (res, buf))
           (fun l Hl => emits_sys_stat Q (Lstat l) buf (H l Hl))).
Qed.

Lemma emits_try_each {A} Q (body : string -> M (option A)) dflt l :
  (forall p, In p l -> emits Q (body p)) ->
  emits Q (try_each body dflt l).
Proof.
  induction l as [|p l IH]; intros H; cbn [try_each].
  - apply emits_ret.
  - apply emits_bind; [apply H; left; reflexivity|].
    intros [a|]; [apply emits_ret|]. apply IH. intros q Hq. apply H.
    right. exact Hq.
Qed.

(** ** general.c: what the lookups and the removal reach *)

(** X23.  Whatever the kernel answers and however the run ends,
    [path_hidden] makes no call but lstat() of the whiteout of a
    component prefix of its path on its branch: a lookup changes
    nothing. *)
Theorem path_hidden_only_looks path branch :
  emits (probes_marker uopt path branch) (path_hidden uopt path branch).
Proof.
  unfold path_hidden.
  destruct (negb (cow_enabled uopt)) eqn:Hcow; [apply emits_ret|].
  destruct (PATHLEN_MAX <=? strlen path); [apply emits_raise|].
  eapply emits_ext; [intros s; apply walk_path_try_each|].
  apply emits_try_each. intros p Hp. apply walk_prefixes_spec in Hp.
  apply emits_bind; [|intros [|]; apply emits_ret].
  unfold filedir_hidden. rewrite Hcow.
  apply emits_bind; [|intros [res b]; destruct (res =? 0); apply emits_ret].
  apply emits_branch_lstat; [discriminate|].
  intros l Hl. exists p, l. repeat split; assumption.
Qed.

Lemma emits_remove_loop path n : forall i,
  emits (clears_marker uopt path) (remove_loop uopt n path i).
Proof.
  induction n as [|n IH]; intros i; cbn [remove_loop].
  - apply emits_ret.
  - apply emits_bind; [|intros t; apply emits_bind; [|intros _; apply IH]].
    + unfold path_is_dir.
      apply emits_bind;
        [|intros [res b]; destruct (res =? -1); [apply emits_ret|];
          destruct (S_ISDIR (st_mode b)); apply emits_ret].
      apply (emits_branch_lstat (clears_marker uopt path) indet i
               [METADIR; path; HIDETAG]); [discriminate|].
      intros l Hl. exists i, l. split; [exact Hl|]. left. reflexivity.
    + destruct t; [apply emits_ret| |];
        (apply emits_bind; [|intros _; apply emits_ret]);
        apply emits_branch_call; try discriminate;
        intros l Hl; apply emits_sys_rc; exists i, l;
        (split; [exact Hl|]); [right; right|right; left]; reflexivity.
Qed.

(** X25.  Whatever the kernel answers and however the run ends,
    [remove_hidden] makes no call but lstat(), unlink() and rmdir() of
    the whiteout of its path on some branch: it removes nothing else. *)
Theorem remove_hidden_only_markers path maxbranch :
  emits (clears_marker uopt path) (remove_hidden uopt path maxbranch).
Proof.
  unfold remove_hidden.
  destruct (negb (cow_enabled uopt)); [apply emits_ret|]. cbv zeta.
  apply emits_bind; [apply emits_remove_loop|intros _; apply emits_ret].
Qed.

(** ** cow.c: what the creation of a path reaches *)

Lemma emits_bind_ret {A B} Q (a : A) (k : A -> M B) :
  emits Q (k a) -> emits Q (bind (ret a) k).
Proof. intros H s. exact (H s). Qed.

Ltac emits_step :=
  match goal with
  | |- emits _ (bind (ret _) _) => apply emits_bind_ret; cbv beta iota
  | |- emits _ (ret _) => apply emits_ret
  | |- emits _ (raise _) => apply emits_raise
  | |- emits _ get_errno => apply emits_get_errno
  | |- emits _ (set_errno _) => apply emits_set_errno
  | |- emits _ (sys_rc _) => apply emits_sys_rc
  | |- emits _ (sys_rv _) => apply emits_sys_rv
  | |- emits _ (sys_stat _ _) => apply emits_sys_stat
  | |- emits _ (sys _) => apply emits_sys
  | |- emits _ (branch_call _ _ _ _) =>
      apply emits_branch_call; [discriminate|intros]
  | |- emits _ (bind _ _) => apply emits_bind; [|intros]
  | |- emits _ (if ?b then _ else _) => destruct b
  | |- emits _ (match ?x with (_, _) => _ end) => destruct x
  | |- emits _ (let _ := _ in _) => cbv zeta
  end.

Lemma emits_setfile (Q : syscall -> Prop) branch p fs :
  (forall l c, built_loc uopt branch [p] = Some l ->
               target c = Some l -> lays_path c = true -> Q c) ->
  emits Q (setfile uopt branch p fs).
Proof.
  intros H.
  unfold setfile, branch_utimens, branch_chown, branch_chmod, branch_chflags.
  repeat emits_step;
    match goal with
    | Hl : built_loc uopt branch [p] = Some ?l |- _ =>
        apply (H l); [exact Hl|reflexivity|reflexivity]
    end.
Qed.

Lemma emits_do_create (Q : syscall -> Prop) p ro rw :
  (forall l, Q (Stat l)) ->
  (forall l c, built_loc uopt rw [p] = Some l ->
               target c = Some l -> lays_path c = true -> Q c) ->
  emits Q (do_create uopt p ro rw).
Proof.
  intros Hs H. unfold do_create, branch_mkdir.
  repeat first
    [ apply emits_branch_stat; [discriminate|intros; apply Hs]
    | apply emits_setfile; exact H
    | emits_step ];
    match goal with
    | Hl : built_loc uopt rw [p] = Some ?l |- _ =>
        apply (H l); [exact Hl|reflexivity|reflexivity]
    end.
Qed.

Lemma emits_path_create (Q : syscall -> Prop) path ro rw :
  (forall l, Q (Stat l)) ->
  (forall p, component_prefix p (strncpy path (PATHLEN_MAX - 1)) ->
             emits Q (do_create uopt p ro rw)) ->
  emits Q (path_create uopt path ro rw).
Proof.
  intros Hs H. unfold path_create.
  destruct (negb (cow_enabled uopt)); [apply emits_ret|].
  apply emits_bind; [apply emits_branch_stat; [discriminate|intros; apply Hs]|].
  intros [r b]. destruct (r =? 0); [apply emits_ret|]. cbv zeta.
  eapply emits_ext; [intros s; apply walk_path_try_each|].
  apply emits_try_each. intros p Hp. apply walk_prefixes_spec in Hp.
  apply emits_bind; [apply H; exact Hp|].
  intros res. destruct (negb (res =? 0)); apply emits_ret.
Qed.

(** X16.  Whatever the kernel answers and however the run ends,
    [path_create] only looks with stat(), and what it makes or changes,
    with mkdir(), chown(), chmod() and the time update, is a component
    prefix of its path, cut to PATHLEN_MAX - 1 characters, on the branch
    [nbranch_rw]: the other branch is only read. *)
Theorem path_create_only_ancestors path ro rw :
  emits (lays_ancestor uopt (strncpy path (PATHLEN_MAX - 1)) rw)
        (path_create uopt path ro rw).
Proof.
  apply emits_path_create.
  - intros l. left. exists l. reflexivity.
  - intros p Hp. apply emits_do_create.
    + intros l. left. exists l. reflexivity.
    + intros l c Hl Ht Hc. right. exists p, l. repeat split; assumption.
Qed.

(** The calls of [path_create] between a branch and itself. *)
Lemma metadata_mode_calls path b :
  emits (lays_metadata uopt (strncpy path (PATHLEN_MAX - 1)) b)
        (path_create uopt path b b).
Proof.
  apply emits_path_create.
  - intros l. left. exists l. reflexivity.
  - intros p Hp. unfold do_create, branch_mkdir. rewrite Z.eqb_refl.
    repeat first
      [ apply emits_branch_stat;
        [discriminate|intros l _; left; exists l; reflexivity]
      | emits_step ].
    right. exists p. eexists. split; [exact Hp|]. split; [eassumption|].
    reflexivity.
Qed.

(** X17.  Called with the same branch twice, as it is for the metadata
    directory, [path_create] copies no attributes: besides stat() its
    only calls are mkdir() with the mode 0770 of component prefixes of
    the path. *)
Theorem path_create_metadata_mode path b :
  emits (lays_metadata uopt (strncpy path (PATHLEN_MAX - 1)) b)
        (path_create uopt path b b).
Proof. exact (metadata_mode_calls path b). Qed.

Lemma strncpy_fits path n :
  strlen path <= n -> strncpy path n = path.
Proof.
  unfold strncpy, strlen. intros H.
  assert (L : (String.length path <= Z.to_nat n)%nat) by lia.
  clear H. revert L. generalize (Z.to_nat n). clear n.
  induction path as [|c p IH]; intros [|n] L; cbn in *; try reflexivity;
    try lia.
  rewrite IH by lia. reflexivity.
Qed.

(** ** general.c: whiteout directories and [maybe_whiteout] *)

Lemma hide_dir_marker path branch s s' :
  mkdir_seen ->
  hide_dir uopt path branch s = Val 0 s' ->
  exists metapath l,
    build_path PATHLEN_MAX [METADIR; path] = Some metapath /\
    built_loc uopt branch [metapath; HIDETAG] = Some l /\
    lstat_ok (world s') l.
Proof.
  intros Hmk. unfold hide_dir, do_create_whiteout.
  destruct (build_path PATHLEN_MAX [METADIR; path]) as [mp|]; [|discriminate].
  unfold bind at 1.
  destruct (path_create_cutlast uopt mp branch branch s) as [r0 s0|]; [|discriminate].
  unfold branch_mkdir.
  destruct (branch_call_cases uopt branch [mp; HIDETAG]
              (fun l => sys_rc (Mkdir l S_IRWXU)) ltac:(discriminate))
    as [(l & Hl & E)|[(_ & E)|E]];
    [rewrite (E s0); clear E|rewrite (E s0); discriminate
     |destruct (E s0) as [f ->]; discriminate].
  rewrite (sys_rc_after _ s0 _ _ (surjective_pairing _)).
  pose proof (Hmk l S_IRWXU (world s0)) as Hseen.
  destruct (fst (os (Mkdir l S_IRWXU) (world s0))) eqn:R; try discriminate;
    intros [= <-]; exists mp, l; (split; [reflexivity|]); (split; [exact Hl|]);
    apply Hseen; reflexivity.
Qed.

Lemma marker_hides path child branch l metapath s2 :
  cow_enabled uopt = true ->
  lstat_pure ->
  marker_agrees uopt path branch ->
  build_path PATHLEN_MAX [METADIR; path] = Some metapath ->
  built_loc uopt branch [metapath; HIDETAG] = Some l ->
  lstat_ok (world s2) l ->
  component_prefix path child ->
  strlen child < PATHLEN_MAX ->
  status (filedir_hidden uopt path branch s2) = Some true /\
  status (path_hidden uopt child branch s2) = Some true.
Proof.
  intros Hcow Hpure Hagree Hmp Hl Hok Hpre Hlen.
  destruct (Hagree metapath l Hmp Hl) as (l' & Hm & Hsame).
  assert (Hseen : marker_seen uopt (world s2) branch path = true).
  { unfold marker_seen. rewrite Hm. apply Hsame. exact Hok. }
  pose proof (built_loc_ready _ _ _ _ Hl) as Hready.
  split.
  - destruct (filedir_hidden_run uopt path branch s2 Hcow Hready Hpure) as (s3 & E & _).
    rewrite E, Hseen. reflexivity.
  - destruct (path_hidden_run uopt child branch s2 Hcow Hready Hpure Hlen)
      as (s3 & E & _).
    rewrite E. cbn [status]. f_equal. apply existsb_exists.
    exists path. split; [apply walk_prefixes_spec; exact Hpre|exact Hseen].
Qed.

(** X28.  Let COW be enabled, lstat() only look and find a directory
    that mkdir() has made, and the whiteout path of [hide_dir] be the
    one that [filedir_hidden] probes. After [hide_dir] has returned 0
    for a path on a branch, [filedir_hidden] answers true for this path
    on this branch, and [path_hidden] answers true for every path below
    it that is shorter than PATHLEN_MAX. *)
Theorem hide_dir_hides path child branch s s' s2 :
  cow_enabled uopt = true ->
  lstat_pure ->
  mkdir_seen ->
  marker_agrees uopt path branch ->
  hide_dir uopt path branch s = Val 0 s' ->
  world s2 = world s' ->
  component_prefix path child ->
  strlen child < PATHLEN_MAX ->
  status (filedir_hidden uopt path branch s2) = Some true /\
  status (path_hidden uopt child branch s2) = Some true.
Proof.
  intros Hcow Hpure Hmk Hagree Hhide Hw Hpre Hlen.
  destruct (hide_dir_marker path branch s s' Hmk Hhide) as (mp & l & Hmp & Hl & Hok).
  rewrite <- Hw in Hok.
  exact (marker_hides path child branch l mp s2 Hcow Hpure Hagree Hmp Hl Hok
           Hpre Hlen).
Qed.

(** X29.  Let COW be enabled and the kernel keep the laws of the
    whiteout protocol for files and for directories. When
    [maybe_whiteout] returns 0, either the search found the path on no
    branch and nothing was done after it, or the whiteout of the given
    mode was created and [filedir_hidden] answers true for the path from
    then on. *)
Theorem maybe_whiteout_hides find path branch mode s b sf s' :
  cow_enabled uopt = true ->
  whiteout_laws ->
  mkdir_seen ->
  marker_agrees uopt path branch ->
  find path s = Val b sf ->
  maybe_whiteout uopt find path branch mode s = Val 0 s' ->
  (b = -1 /\ s' = sf) \/
  (b <> -1 /\
   hide_or_dir uopt mode path branch sf = Val 0 s' /\
   status (filedir_hidden uopt path branch s') = Some true).
Proof.
  intros Hcow Hlaws Hmk Hagree Hf Hm. unfold maybe_whiteout in Hm.
  rewrite (bind_Val _ _ _ _ _ Hf) in Hm.
  destruct (Z.eqb_spec b (-1)) as [->|Hb]; cbn [negb] in Hm.
  - left. split; [reflexivity|]. injection Hm as <-. reflexivity.
  - right. split; [exact Hb|].
    assert (Hmark : exists metapath l,
               build_path PATHLEN_MAX [METADIR; path] = Some metapath /\
               built_loc uopt branch [metapath; HIDETAG] = Some l /\
               lstat_ok (world s') l).
    { destruct mode.
      - exact (hide_file_marker uopt path branch sf s' Hlaws Hm).
      - exact (hide_dir_marker path branch sf s' Hmk Hm). }
    destruct Hmark as (mp & l & Hmp & Hl & Hok).
    split; [destruct mode; exact Hm|].
    destruct (Hagree mp l Hmp Hl) as (l' & Hml & Hsame).
    pose proof (built_loc_ready _ _ _ _ Hl) as Hready.
    destruct (filedir_hidden_run uopt path branch s' Hcow Hready (wl_lstat Hlaws))
      as (s3 & E & _).
    rewrite E. unfold marker_seen. rewrite Hml.
    cbn [status]. f_equal. apply Hsame. exact Hok.
Qed.

(** ** general.c: [remove_hidden] takes the whiteout away *)

Lemma remove_round_gone {A} path i li l (k : M A) s :
  removal_laws l ->
  marker_loc uopt path i = Some li ->
  exists s1,
    (t <- path_is_dir uopt i [METADIR; path; HIDETAG] ;;
     match t with
     | IS_FILE => branch_unlink uopt i [METADIR; path; HIDETAG] ;; ret tt
     | IS_DIR => branch_rmdir uopt i [METADIR; path; HIDETAG] ;; ret tt
     | NOT_EXISTING => ret tt
     end ;;
     k) s = k s1 /\
    (~ lstat_ok (world s) l -> ~ lstat_ok (world s1) l) /\
    (li = l -> ~ lstat_ok (world s1) l).
Proof.
  intros [Hpure Hshape Hunlink Hrmdir Hgone]. unfold marker_loc. intros Hl.
  unfold path_is_dir.
  change (branch_va_lstat uopt indet i) with (branch_lstat uopt indet i).
  unfold bind at 1. unfold bind at 1.
  rewrite (branch_lstat_ok uopt _ _ li _ _ Hl).
  rewrite (sys_stat_after (Lstat li) indet s _ _ (surjective_pairing _)).
  rewrite (Hpure li (world s)).
  set (r := fst (os (Lstat li) (world s))).
  set (s0 := after (Lstat li) r (world s) s).
  assert (Rd : exists s1,
             ((branch_rmdir uopt i [METADIR; path; HIDETAG] ;; ret tt) ;; k) s0
             = k s1 /\
             world s1 = snd (os (Rmdir li) (world s))).
  { unfold branch_rmdir. unfold bind at 1. unfold bind at 1.
    rewrite (branch_call_ok uopt _ _ li _ _ Hl).
    rewrite (sys_rc_after (Rmdir li) s0 _ _ (surjective_pairing _)).
    eexists. split; reflexivity. }
  assert (Ul : exists s1,
             ((branch_unlink uopt i [METADIR; path; HIDETAG] ;; ret tt) ;; k) s0
             = k s1 /\
             world s1 = snd (os (Unlink li) (world s))).
  { unfold branch_unlink. unfold bind at 1. unfold bind at 1.
    rewrite (branch_call_ok uopt _ _ li _ _ Hl).
    rewrite (sys_rc_after (Unlink li) s0 _ _ (surjective_pairing _)).
    eexists. split; reflexivity. }
  destruct Rd as (sd & Ed & Wd). destruct Ul as (su & Eu & Wu).
  assert (Kd : ~ lstat_ok (world s) l -> ~ lstat_ok (world sd) l).
  { rewrite Wd. apply Hgone. reflexivity. }
  assert (Ku : ~ lstat_ok (world s) l -> ~ lstat_ok (world su) l).
  { rewrite Wu. apply Hgone. reflexivity. }
  assert (Odd : li = l -> (forall e, r <> Fail e) ->
                (forall st, r <> OkStat st) -> False).
  { intros -> N1 N2. destruct (Hshape (world s)) as [[e He]|[st He]].
    - exact (N1 e He).
    - exact (N2 st He). }
  destruct r as [e|v|st|x] eqn:R; cbv iota.
  - (* nothing is there *)
    change (-1 =? -1) with true. cbv iota. unfold bind at 1.
    exists s0. split; [reflexivity|]. split; [intros H; exact H|].
    intros ->. unfold lstat_ok. change (world s0) with (world s).
    change (fst (os (Lstat l) (world s))) with r. rewrite R. discriminate.
  - change (0 =? -1) with false. cbv iota.
    destruct (S_ISDIR (st_mode indet)); unfold ret at 1; cbv beta iota.
    + exists sd. split; [exact Ed|]. split; [exact Kd|].
      intros E. exfalso. apply (Odd E); intros; discriminate.
    + exists su. split; [exact Eu|]. split; [exact Ku|].
      intros E. exfalso. apply (Odd E); intros; discriminate.
  - change (0 =? -1) with false. cbv iota.
    destruct (S_ISDIR (st_mode st)) eqn:D; unfold ret at 1; cbv beta iota.
    + exists sd. split; [exact Ed|]. split; [exact Kd|].
      intros ->. rewrite Wd. exact (Hrmdir (world s) st R D).
    + exists su. split; [exact Eu|]. split; [exact Ku|].
      intros ->. rewrite Wu. exact (Hunlink (world s) st R D).
  - change (0 =? -1) with false. cbv iota.
    destruct (S_ISDIR (st_mode indet)); unfold ret at 1; cbv beta iota.
    + exists sd. split; [exact Ed|]. split; [exact Kd|].
      intros E. exfalso. apply (Odd E); intros; discriminate.
    + exists su. split; [exact Eu|]. split; [exact Ku|].
      intros E. exfalso. apply (Odd E); intros; discriminate.
Qed.

Lemma remove_loop_gone path b l n : forall i s ls,
  removal_laws l ->
  marker_loc uopt path b = Some l ->
  all_markers uopt path i n = Some ls ->
  ~ lstat_ok (world s) l \/ i <= b < i + Z.of_nat n ->
  exists s',
    remove_loop uopt n path i s = Val tt s' /\
    ~ lstat_ok (world s') l.
Proof.
  induction n as [|n IH]; intros i s ls Hlaws Hb H Hin; cbn [all_markers] in H.
  - exists s. split; [reflexivity|]. destruct Hin as [Hg|Hr]; [exact Hg|lia].
  - destruct (marker_loc uopt path i) as [li|] eqn:Hl; [|discriminate].
    destruct (all_markers uopt path (i + 1) n) as [ls'|] eqn:Hls; [|discriminate].
    destruct (remove_round_gone path i li l (remove_loop uopt n path (i + 1)) s
                Hlaws Hl) as (s1 & E1 & Keep & Here).
    rewrite remove_loop_S, E1.
    apply (IH (i + 1) s1 ls' Hlaws Hb Hls).
    destruct Hin as [Hg|Hr]; [left; exact (Keep Hg)|].
    destruct (Z.eq_dec i b) as [->|Hne].
    + left. apply Here. rewrite Hb in Hl. injection Hl as ->. reflexivity.
    + right. lia.
Qed.

(** X26.  Let COW be enabled, the branches 0 to [maxbranch] be
    configured with room for the whiteout path, [b] be one of them, and
    the kernel keep the laws of removal at the whiteout of the path on
    [b]. Then [remove_hidden] returns 0, and [filedir_hidden] answers
    false for the path on [b] afterwards. *)
Theorem remove_hidden_unhides path b maxbranch ls l s :
  cow_enabled uopt = true ->
  0 <= b <= maxbranch ->
  all_markers uopt path 0 (Z.to_nat (maxbranch + 1)) = Some ls ->
  marker_loc uopt path b = Some l ->
  removal_laws l ->
  exists s',
    remove_hidden uopt path maxbranch s = Val 0 s' /\
    status (filedir_hidden uopt path b s') = Some false.
Proof.
  intros Hcow Hb Hls Hl Hlaws. unfold remove_hidden. rewrite Hcow. cbn [negb].
  destruct (Z.eqb_spec maxbranch (-1)); [lia|].
  destruct (remove_loop_gone path b l _ 0 s ls Hlaws Hl Hls) as (s' & E & G).
  { right. lia. }
  rewrite (bind_Val _ _ _ _ _ E). exists s'. split; [reflexivity|].
  pose proof (built_loc_ready uopt _ _ _ Hl) as Hready.
  destruct (filedir_hidden_run uopt path b s' Hcow Hready (rl_lstat l Hlaws))
    as (s3 & E3 & _).
  rewrite E3. cbn [status]. f_equal. unfold marker_seen. rewrite Hl.
  unfold lstat_ok in G. destruct (succeeds _); [contradiction G; reflexivity|].
  reflexivity.
Qed.

(** ** cow.c: what a promotion reaches *)

Lemma target_place c l :
  target c = Some l -> lays_path c = true -> place c = Some l.
Proof. destruct c; cbn; intros H1 H2; try discriminate; exact H1. Qed.

Lemma emits_branch_opendir (Q : syscall -> Prop) branch ap :
  ap <> [] ->
  (forall c, by_descriptor c = true -> Q c) ->
  (forall c, looks c = true -> Q c) ->
  emits Q (branch_opendir uopt branch ap).
Proof.
  intros Hap Hd Hl.
  apply (emits_located Q branch ap (fun _ _ => ret 0)
           (fun l =>
              if HAVE_AT_FAMILY then
                d <- sys_rv (Open l (Z.lor O_RDONLY O_DIRECTORY) 0) ;;
                if d =? -1 then ret 0 else
                r <- sys (Fdopendir d) ;;
                match r with
                | Ok dir => if dir =? 0 then sys (Close d) ;; ret 0 else ret dir
                | _ => sys (Close d) ;; ret 0
                end
              else
                r <- sys (Opendir l) ;;
                match r with Ok dir => ret dir | _ => ret 0 end) Hap).
  - intros. apply emits_ret.
  - intros l _. destruct HAVE_AT_FAMILY.
    + apply emits_bind; [apply emits_sys_rv; apply Hl; reflexivity|].
      intros d. destruct (d =? -1); [apply emits_ret|].
      apply emits_bind; [apply emits_sys; apply Hd; reflexivity|].
      intros [e|dir|st|x];
        try (apply emits_bind;
             [apply emits_sys; apply Hd; reflexivity|intros; apply emits_ret]).
      destruct (dir =? 0); [|apply emits_ret].
      apply emits_bind;
        [apply emits_sys; apply Hd; reflexivity|intros; apply emits_ret].
    + apply emits_bind; [apply emits_sys; apply Hl; reflexivity|].
      intros [e|dir|st|x]; apply emits_ret.
Qed.

Lemma emits_branch_readlink (Q : syscall -> Prop) buf bufsiz branch ap :
  ap <> [] ->
  (forall c, looks c = true -> Q c) ->
  emits Q (branch_readlink uopt buf bufsiz branch ap).
Proof.
  intros Hap Hl.
  apply (emits_located Q branch ap (fun res _ => ret (res, buf))
           (fun l =>
              r <- sys (Readlink l bufsiz) ;;
              match r with
              | OkStr s => ret (strlen s, s)
              | r => ret (rv r, buf)
              end) Hap).
  - intros. apply emits_ret.
  - intros l _. apply emits_bind; [apply emits_sys; apply Hl; reflexivity|].
    intros [e|v|st|x]; apply emits_ret.
Qed.

Lemma emits_copy_loop (Q : syscall -> Prop) from_fd to_fd fuel :
  (forall c, by_descriptor c = true -> Q c) ->
  emits Q (copy_loop fuel from_fd to_fd).
Proof.
  intros Hd. induction fuel as [|fuel IH]; cbn [copy_loop].
  - apply emits_raise.
  - apply emits_bind; [apply emits_sys; apply Hd; reflexivity|].
    intros r. cbv zeta. destruct (0 <? rv r); [|apply emits_ret].
    apply emits_bind; [apply emits_sys_rv; apply Hd; reflexivity|].
    intros w. destruct (negb (rv r =? w) || (w =? -1)); [apply emits_ret|].
    exact IH.
Qed.

(** ** cow_utils.c: [copy_file] through mmap() *)

(** X11.  When both files are open and mmap() of a source of 1 byte to
    8 MiB has succeeded, [copy_file] copies by one write() of the whole
    mapping, with the size of the file as its count: whatever the
    kernel answers and however the run ends, its calls are the two
    opens, mmap(), madvise(), this write() and munmap(), followed by
    nothing but the metadata calls on the destination, fstat() and
    fchmod() of its descriptor and close() of the two descriptors, so
    that read() is never called and write() is called once.  When the
    write() does not return the size of the file, [copy_file] returns 1
    and all that follows munmap() is the two calls of close(). *)
Theorem copy_file_mmap_write fuel cow lf lt s d1 w1 d2 w2 data w3 :
  built_loc uopt (from_branch cow) [from_path cow] = Some lf ->
  built_loc uopt (to_branch cow) [to_path cow] = Some lt ->
  os (open_source lf) (world s) = (Ok d1, w1) -> d1 <> -1 ->
  os (open_copy lt (cow_stat cow)) w1 = (Ok d2, w2) -> d2 <> -1 ->
  let size := st_size (cow_stat cow) in
  0 < size <= 8 * 1048576 ->
  os (Mmap d1 size) w2 = (OkStr data, w3) ->
  let w4 := snd (os (Madvise size) w3) in
  let written := rv (fst (os (Write d2 data size) w4)) in
  exists rest,
    trace (final (copy_file uopt fuel cow s))
    = (trace s
       ++ [open_source lf; open_copy lt (cow_stat cow);
           Mmap d1 size; Madvise size; Write d2 data size; Munmap size]
       ++ rest)%list /\
    Forall (finishes_copy lt d1 d2) rest /\
    (written <> size ->
     status (copy_file uopt fuel cow s) = Some 1 /\
     rest = [Close d1; Close d2]).
Proof.
  intros Bf Bt O1 N1 O2 N2 size Sz Mm w4 written.
  assert (Hs : (0 <? size) && (size <=? 8 * 1048576) = true).
  { destruct (Z.ltb_spec 0 size); [|lia].
    destruct (Z.leb_spec size (8 * 1048576)); [reflexivity|lia]. }
  eassert (Run : copy_file uopt fuel cow s = _).
  { rewrite (copy_file_opened _ _ _ _ _ _ _ _ _ Bf Bt O1 N1 O2 N2). cbv zeta.
    fold size. rewrite Hs. unfold bind at 1. unfold bind at 1.
    rewrite (sys_after (Mmap d1 size)
               (both_open lf lt (cow_stat cow) d1 w1 d2 w2 s) _ _ Mm).
    cbv iota. unfold bind at 1.
    rewrite (sys_after (Madvise size) _ _ _ (surjective_pairing _)).
    cbn [world after]. fold w4. unfold bind at 1.
    rewrite (sys_rv_after (Write d2 (reply_data (OkStr data)) size) _ _ _
               (surjective_pairing _)).
    cbn [world after reply_data]. fold written. unfold bind at 1.
    rewrite (sys_rv_after (Munmap size) _ _ _ (surjective_pairing _)).
    unfold ret at 1. cbv beta iota. reflexivity. }
  rewrite Run. clear Run.
  match goal with
  | |- context [final (_ ?st)] => set (s6 := st)
  end.
  assert (T6 : trace s6
               = (trace s
                  ++ [open_source lf; open_copy lt (cow_stat cow);
                      Mmap d1 size; Madvise size; Write d2 data size;
                      Munmap size])%list).
  { subst s6. unfold both_open, after. cbn [trace].
    rewrite <- !app_assoc. reflexivity. }
  clearbody s6.
  destruct (Z.eqb_spec written size) as [Ew|Nw].
  - (* the write took all of it *)
    match goal with
    | |- context [final (?m s6)] =>
        assert (E : emits (finishes_copy lt d1 d2) m)
    end.
    { repeat first
        [ apply emits_setfile; intros l c Hl Ht Hc; right; right; right; right;
          rewrite Bt in Hl; injection Hl as <-; split; assumption
        | apply emits_sys; first [left; reflexivity|right; left; reflexivity]
        | apply emits_sys_rc; first [right; left; reflexivity
                                    |right; right; right; left; eexists; reflexivity]
        | apply emits_sys_stat; right; right; left; reflexivity
        | emits_step ]. }
    destruct (E s6) as (rest & T & F). exists rest.
    split; [rewrite T, T6, <- app_assoc; reflexivity|].
    split; [exact F|]. intros N. contradiction.
  - (* a short write *)
    exists [Close d1; Close d2]. cbn [negb].
    match goal with
    | |- context [if ?m <? 0 then 1 else 1] =>
        replace (if m <? 0 then 1 else 1) with 1
          by (destruct (m <? 0); reflexivity)
    end.
    change (1 =? 1) with true. cbv iota. unfold bind.
    rewrite (sys_after (Close d1) s6 _ _ (surjective_pairing _)).
    rewrite (sys_after (Close d2) _ _ _ (surjective_pairing _)).
    cbn [final status ret]. unfold after. cbn [trace].
    split; [rewrite T6, <- !app_assoc; reflexivity|].
    split; [|intros _; split; reflexivity].
    constructor; [left; reflexivity|].
    constructor; [right; left; reflexivity|constructor].
Qed.

Section Promotion.
Variable rw : Z.

Lemma spares_descriptor c : by_descriptor c = true -> spares_source uopt rw c.
Proof. intros H. left. exact H. Qed.

Lemma spares_looks c : looks c = true -> spares_source uopt rw c.
Proof. intros H. right. left. exact H. Qed.

Lemma spares_place p l c :
  built_loc uopt rw [p] = Some l -> place c = Some l -> spares_source uopt rw c.
Proof. intros H1 H2. right. right. exists p, l. split; assumption. Qed.

Lemma spares_setfile p fs : emits (spares_source uopt rw) (setfile uopt rw p fs).
Proof.
  apply emits_setfile. intros l c Hl Ht Hc.
  exact (spares_place p l c Hl (target_place c l Ht Hc)).
Qed.

Lemma spares_path_create path ro : emits (spares_source uopt rw) (path_create uopt path ro rw).
Proof.
  apply emits_path_create.
  - intros l. apply spares_looks. reflexivity.
  - intros p _. apply emits_do_create.
    + intros l. apply spares_looks. reflexivity.
    + intros l c Hl Ht Hc.
      exact (spares_place p l c Hl (target_place c l Ht Hc)).
Qed.

Lemma spares_path_create_cutlast path ro :
  emits (spares_source uopt rw) (path_create_cutlast uopt path ro rw).
Proof.
  unfold path_create_cutlast. destruct (u_dirname path).
  - apply spares_path_create.
  - apply emits_ret.
Qed.

Ltac spares :=
  first
    [ apply spares_setfile
    | apply spares_descriptor; reflexivity
    | apply spares_looks; reflexivity
    | match goal with
      | Hl : built_loc uopt rw [?p] = Some ?l |- _ =>
          apply (spares_place p l); [exact Hl|reflexivity]
      end
    | emits_step ].

Lemma spares_copy_link umask uid ro path buf :
  emits (spares_source uopt rw) (copy_link uopt (mkcow umask uid ro path buf rw path)).
Proof.
  unfold copy_link, setlink, branch_symlink, branch_lchown.
  cbn [from_branch from_path to_branch to_path cow_stat].
  apply emits_bind;
    [apply emits_branch_readlink; [discriminate|apply spares_looks]|].
  intros [len link]. repeat spares.
Qed.

Lemma spares_copy_fifo umask uid ro path buf :
  emits (spares_source uopt rw) (copy_fifo uopt (mkcow umask uid ro path buf rw path)).
Proof.
  unfold copy_fifo, branch_mkfifo.
  cbn [from_branch from_path to_branch to_path cow_stat].
  repeat spares.
Qed.

Lemma spares_copy_special umask uid ro path buf :
  emits (spares_source uopt rw) (copy_special uopt (mkcow umask uid ro path buf rw path)).
Proof.
  unfold copy_special, branch_mknod.
  cbn [from_branch from_path to_branch to_path cow_stat].
  repeat spares.
Qed.

Lemma spares_copy_file fuel umask uid ro path buf :
  emits (spares_source uopt rw) (copy_file uopt fuel (mkcow umask uid ro path buf rw path)).
Proof.
  unfold copy_file, branch_open.
  cbn [from_branch from_path to_branch to_path cow_stat cow_uid cow_umask].
  repeat first
    [ apply emits_copy_loop; apply spares_descriptor
    | match goal with
      | |- emits _ (match ?r with Fail _ => _ | _ => _ end) => destruct r
      end
    | spares ].
Qed.

Lemma spares_readdir_loop (cp : string -> Z -> Z -> M Z) dp path len ro fuel :
  (forall p, emits (spares_source uopt rw) (cp p ro rw)) ->
  emits (spares_source uopt rw) (readdir_loop fuel cp dp path len ro rw).
Proof.
  intros Hcp. induction fuel as [|fuel IH]; cbn [readdir_loop].
  - apply emits_raise.
  - apply emits_bind; [apply emits_sys; apply spares_descriptor; reflexivity|].
    intros [e|v|st|name];
      try (apply emits_bind;
           [apply emits_sys; apply spares_descriptor; reflexivity
           |intros; apply emits_ret]).
    destruct (String.eqb name "." || String.eqb name ".."); [exact IH|].
    destruct (PATHLEN_MAX <=? len + strlen name).
    + apply emits_bind; [apply emits_set_errno|intros; apply emits_ret].
    + apply emits_bind; [apply Hcp|].
      intros res. destruct (negb (res =? 0)); [apply emits_ret|exact IH].
Qed.

Lemma spares_copy_directory_with fuel (cp : string -> Z -> Z -> M Z) path ro :
  (forall p, emits (spares_source uopt rw) (cp p ro rw)) ->
  emits (spares_source uopt rw) (copy_directory_with uopt fuel cp path ro rw).
Proof.
  intros Hcp. unfold copy_directory_with.
  apply emits_bind; [apply spares_path_create|].
  intros res. destruct (negb (res =? 0)); [apply emits_ret|]. cbv zeta.
  apply emits_bind;
    [apply emits_branch_opendir;
     [discriminate|apply spares_descriptor|apply spares_looks]|].
  intros dp. destruct (dp =? 0); [apply emits_ret|].
  apply spares_readdir_loop. exact Hcp.
Qed.

Lemma spares_cow_cp fuel : forall path ro,
  emits (spares_source uopt rw) (cow_cp uopt fuel path ro rw).
Proof.
  induction fuel as [|fuel IH]; intros path ro; cbn [cow_cp];
    (apply emits_bind; [apply spares_path_create_cutlast|intros _]);
    (apply emits_bind; [apply emits_sys; apply spares_descriptor; reflexivity
                       |intros _]);
    (apply emits_bind; [apply emits_sys_rv; apply spares_descriptor; reflexivity
                       |intros uid]);
    (apply emits_bind; [apply emits_sys_rv; apply spares_descriptor; reflexivity
                       |intros umask]);
    (apply emits_bind; [apply emits_sys; apply spares_descriptor; reflexivity
                       |intros _]);
    (apply emits_bind;
     [apply emits_branch_lstat;
      [discriminate|intros l _; apply spares_looks; reflexivity]
     |intros [res buf]]);
    (destruct (negb (res =? 0)); [apply emits_ret|]); cbv zeta;
    (destruct (Z.land (st_mode buf) S_IFMT =? S_IFLNK);
     [apply spares_copy_link|]);
    (destruct (Z.land (st_mode buf) S_IFMT =? S_IFDIR);
     [first [apply emits_raise
            |apply spares_copy_directory_with; intros p; apply IH]|]);
    (destruct ((Z.land (st_mode buf) S_IFMT =? S_IFBLK)
               || (Z.land (st_mode buf) S_IFMT =? S_IFCHR));
     [apply spares_copy_special|]);
    (destruct (Z.land (st_mode buf) S_IFMT =? S_IFIFO);
     [apply spares_copy_fifo|]);
    (destruct (Z.land (st_mode buf) S_IFMT =? S_IFSOCK);
     [apply emits_ret|]);
    apply spares_copy_file.
Qed.

End Promotion.

(** X20.  Whatever the kernel answers and however the run ends, every
    call of [cow_cp] either goes by a descriptor or handle or concerns
    the process, or only reads what a path names (stat, lstat, readlink,
    opendir, open for reading), or names an object of the branch
    [branch_rw]: a promotion creates, changes and removes nothing by
    name on the branch it copies from. *)
Theorem cow_cp_spares_source fuel path branch_ro branch_rw :
  emits (spares_source uopt branch_rw)
        (cow_cp uopt fuel path branch_ro branch_rw).
Proof. apply spares_cow_cp. Qed.

(** ** general.c: what the creation of a whiteout reaches *)

Lemma emits_weaken {A} (Q Q' : syscall -> Prop) (m : M A) :
  (forall c, Q c -> Q' c) -> emits Q m -> emits Q' m.
Proof.
  intros H Hm s. destruct (Hm s) as (calls & T & F). exists calls.
  split; [exact T|]. revert F. apply Forall_impl. exact H.
Qed.

(** X27.  Whatever the kernel answers and however the run ends,
    [do_create_whiteout], and with it [hide_file] and [hide_dir], only
    adds: besides stat() and close() its calls are mkdir() with the mode
    0770 or 0700 and open() with O_WRONLY and O_CREAT and the mode 0600,
    all on its branch. It removes, truncates and renames nothing and
    changes no attribute. *)
Theorem whiteout_only_adds path branch_rw mode :
  emits (adds_whiteout uopt branch_rw)
        (do_create_whiteout uopt path branch_rw mode) /\
  emits (adds_whiteout uopt branch_rw) (hide_file uopt path branch_rw) /\
  emits (adds_whiteout uopt branch_rw) (hide_dir uopt path branch_rw).
Proof.
  assert (H : forall mode,
             emits (adds_whiteout uopt branch_rw)
                   (do_create_whiteout uopt path branch_rw mode)).
  { clear mode. intros mode. unfold do_create_whiteout.
    destruct (build_path PATHLEN_MAX [METADIR; path]) as [mp|];
      [|apply emits_ret].
    apply emits_bind.
    - unfold path_create_cutlast. destruct (u_dirname mp) as [dname|];
        [|apply emits_ret].
      apply (emits_weaken
               (lays_metadata uopt (strncpy dname (PATHLEN_MAX - 1)) branch_rw));
        [|apply metadata_mode_calls].
      intros c [Hs|(p & l & _ & Hl & ->)]; [left; exact Hs|].
      right. left. exists [p], l. split; [exact Hl|]. left. reflexivity.
    - intros _. destruct mode.
      + unfold branch_open. apply emits_bind.
        * apply emits_branch_call; [discriminate|]. intros l Hl.
          apply emits_sys_rv. right. left. exists [mp; HIDETAG], l.
          split; [exact Hl|]. right. right. reflexivity.
        * intros res. destruct (res =? -1); [apply emits_ret|].
          apply emits_sys_rc. right. right. exists res. reflexivity.
      + unfold branch_mkdir. apply emits_branch_call; [discriminate|].
        intros l Hl. apply emits_sys_rc. right. left.
        exists [mp; HIDETAG], l. split; [exact Hl|]. right. left. reflexivity. }
  split; [apply H|]. split; apply H.
Qed.

(** ** cow.c: the umask around a promotion *)

Lemma bind_assoc {A B C} (m : M A) (k : A -> M B) (h : B -> M C) s :
  bind (bind m k) h s = bind m (fun a => bind (k a) h) s.
Proof. unfold bind. destruct (m s); reflexivity. Qed.

Lemma cow_cp_dispatch fuel path branch_ro branch_rw s :
  cow_cp uopt fuel path branch_ro branch_rw s
  = (path_create_cutlast uopt path branch_ro branch_rw ;;
     probe <- cow_probe uopt path branch_ro ;;
     cow_dispatch uopt fuel path branch_ro branch_rw probe) s.
Proof.
  destruct fuel; cbn [cow_cp]; unfold cow_probe, cow_dispatch, bind;
    destruct (path_create_cutlast uopt path branch_ro branch_rw s) as [? s0|];
    try reflexivity;
    destruct (sys Setlocale s0) as [? s1|]; try reflexivity;
    destruct (sys_rv Getuid s1) as [uid s2|]; try reflexivity;
    destruct (sys_rv (Umask 0) s2) as [um s3|]; try reflexivity;
    destruct (sys (Umask um) s3) as [? s4|]; try reflexivity;
    destruct (branch_lstat uopt indet branch_ro [path] s4) as [[res buf] s5|];
    reflexivity.
Qed.

Lemma spares_cow_dispatch fuel path branch_ro branch_rw probe :
  emits (spares_source uopt branch_rw)
        (cow_dispatch uopt fuel path branch_ro branch_rw probe).
Proof.
  destruct probe as [[uid umask] [res buf]]. unfold cow_dispatch.
  destruct (negb (res =? 0)); [apply emits_ret|]. cbv zeta.
  destruct (Z.land (st_mode buf) S_IFMT =? S_IFLNK);
    [apply spares_copy_link|].
  destruct (Z.land (st_mode buf) S_IFMT =? S_IFDIR).
  { destruct fuel; [apply emits_raise|].
    apply spares_copy_directory_with. intros p. apply spares_cow_cp. }
  destruct ((Z.land (st_mode buf) S_IFMT =? S_IFBLK)
            || (Z.land (st_mode buf) S_IFMT =? S_IFCHR));
    [apply spares_copy_special|].
  destruct (Z.land (st_mode buf) S_IFMT =? S_IFIFO);
    [apply spares_copy_fifo|].
  destruct (Z.land (st_mode buf) S_IFMT =? S_IFSOCK); [apply emits_ret|].
  apply spares_copy_file.
Qed.

(** X19.  Once the parents are dealt with, [cow_cp] reads the umask of
    the process by setting it to 0 and sets it back at once: its next
    four calls are setlocale(), getuid(), umask(0) and umask() with the
    value the call before returned, whatever follows. *)
Theorem cow_cp_restores_umask fuel path branch_ro branch_rw s r0 s0 :
  path_create_cutlast uopt path branch_ro branch_rw s = Val r0 s0 ->
  let w1 := snd (os Setlocale (world s0)) in
  let w2 := snd (os Getuid w1) in
  let umask := rv (fst (os (Umask 0) w2)) in
  exists rest,
    trace (final (cow_cp uopt fuel path branch_ro branch_rw s))
    = (trace s0 ++ [Setlocale; Getuid; Umask 0; Umask umask] ++ rest)%list.
Proof.
  intros H0 w1 w2 umask. rewrite cow_cp_dispatch.
  rewrite (bind_Val _ _ _ _ _ H0). unfold cow_probe.
  rewrite bind_assoc. unfold bind at 1.
  rewrite (sys_after Setlocale s0 _ _ (surjective_pairing _)). fold w1.
  rewrite bind_assoc. unfold bind at 1.
  rewrite (sys_rv_after Getuid _ _ _ (surjective_pairing _)).
  cbn [world after]. fold w2.
  rewrite bind_assoc. unfold bind at 1.
  rewrite (sys_rv_after (Umask 0) _ _ _ (surjective_pairing _)).
  cbn [world after]. fold umask.
  rewrite bind_assoc. unfold bind at 1.
  rewrite (sys_after (Umask umask) _ _ _ (surjective_pairing _)).
  cbn [world after].
  match goal with
  | |- context [bind _ _ ?st] => set (s4 := st)
  end.
  assert (T4 : trace s4
               = (trace s0 ++ [Setlocale; Getuid; Umask 0; Umask umask])%list).
  { subst s4. unfold after. cbn [trace]. rewrite <- !app_assoc. reflexivity. }
  clearbody s4.
  match goal with
  | |- context [final (?m s4)] =>
      assert (E : emits (spares_source uopt branch_rw) m)
  end.
  { apply emits_bind.
    - apply emits_bind; [|intros r; apply emits_ret].
      apply emits_branch_lstat; [discriminate|].
      intros l _. right. left. reflexivity.
    - intros probe. apply spares_cow_dispatch. }
  destruct (E s4) as (rest & T & _). exists rest.
  rewrite T, T4, <- app_assoc. reflexivity.
Qed.

(** ** cow.c: a socket is refused *)

Lemma replay_app calls1 calls2 (w : World) :
  replay (calls1 ++ calls2) w = replay calls2 (replay calls1 w).
Proof.
  revert w. induction calls1 as [|c calls1 IH]; intros w; [reflexivity|].
  cbn [replay app]. apply IH.
Qed.

Lemma replays_ret {A} (a : A) : replays (ret a).
Proof. intros s. exists []. cbn. rewrite app_nil_r. auto. Qed.

Lemma replays_raise {A} f : replays (@raise P A f).
Proof. intros s. exists []. cbn. rewrite app_nil_r. auto. Qed.

Lemma replays_set_errno e : replays (set_errno e).
Proof. intros s. exists []. cbn. rewrite app_nil_r. auto. Qed.

Lemma replays_get_errno : replays get_errno.
Proof. intros s. exists []. cbn. rewrite app_nil_r. auto. Qed.

Lemma replays_sys c : replays (sys c).
Proof.
  intros s. exists [c]. unfold sys. cbn [replay].
  destruct (os c (world s)) as [r w]. cbn. auto.
Qed.

Lemma replays_bind {A B} (m : M A) (k : A -> M B) :
  replays m -> (forall a, replays (k a)) -> replays (bind m k).
Proof.
  intros Hm Hk s. destruct (Hm s) as (c1 & T1 & W1). unfold bind.
  destruct (m s) as [a s1|f s1]; cbn [final] in *.
  - destruct (Hk a s1) as (c2 & T2 & W2). exists (c1 ++ c2)%list.
    rewrite T2, T1, W2, W1, replay_app, app_assoc. auto.
  - exists c1. auto.
Qed.

Lemma replays_ext {A} (m m' : M A) :
  (forall s, m s = m' s) -> replays m' -> replays m.
Proof. intros E H s. rewrite E. apply H. Qed.

Lemma replays_va_build_loop ap : forall p space,
  replays (va_build_loop ap p space).
Proof.
  induction ap as [|str ap IH]; intros p space; cbn [va_build_loop].
  - apply replays_ret.
  - cbv zeta. destruct (space - strlen str <=? 0); [|apply IH].
    apply replays_bind; [apply replays_set_errno|intros _].
    apply replays_bind; [apply replays_get_errno|intros e].
    apply replays_ret.
Qed.

Lemma replays_try_each {A} (body : string -> M (option A)) dflt l :
  (forall p, replays (body p)) -> replays (try_each body dflt l).
Proof.
  intros H. induction l as [|p l IH]; cbn [try_each].
  - apply replays_ret.
  - apply replays_bind; [apply H|]. intros [a|]; [apply replays_ret|apply IH].
Qed.

Ltac replays_step :=
  match goal with
  | |- replays (ret _) => apply replays_ret
  | |- replays (raise _) => apply replays_raise
  | |- replays get_errno => apply replays_get_errno
  | |- replays (set_errno _) => apply replays_set_errno
  | |- replays (sys _) => apply replays_sys
  | |- replays (va_build_loop _ _ _) => apply replays_va_build_loop
  | |- replays (bind _ _) => apply replays_bind; [|intros]
  | |- replays (if ?b then _ else _) => destruct b
  | |- replays (match ?x with (_, _) => _ end) => destruct x
  | |- replays (match ?x with Some _ => _ | None => _ end) => destruct x
  | |- replays (match ?x with Fail _ => _ | _ => _ end) => destruct x
  | |- replays (let _ := _ in _) => cbv zeta
  end.

Lemma replays_branch_stat buf branch ap :
  replays (branch_stat uopt buf branch ap).
Proof.
  unfold branch_stat, va_build_path, branch_loc, branch_at, sys_stat.
  repeat replays_step.
Qed.

Lemma replays_branch_lstat buf branch ap :
  replays (branch_lstat uopt buf branch ap).
Proof.
  unfold branch_lstat, branch_va_lstat, va_build_path, branch_loc, branch_at,
    sys_stat.
  repeat replays_step.
Qed.

Lemma replays_branch_call branch ap call :
  (forall l, replays (call l)) -> replays (branch_call uopt branch ap call).
Proof.
  intros H. unfold branch_call, va_build_path, branch_loc, branch_at.
  repeat first [apply H|replays_step].
Qed.

Lemma replays_setfile branch p fs : replays (setfile uopt branch p fs).
Proof.
  unfold setfile, branch_utimens, branch_chown, branch_chmod, branch_chflags.
  repeat first
    [ apply replays_branch_call; intros; unfold sys_rc
    | progress unfold sys_stat
    | replays_step ].
Qed.

Lemma replays_do_create p ro rw : replays (do_create uopt p ro rw).
Proof.
  unfold do_create, branch_mkdir.
  repeat first
    [ apply replays_branch_stat
    | apply replays_setfile
    | apply replays_branch_call; intros; unfold sys_rc
    | replays_step ].
Qed.

Lemma replays_path_create path ro rw : replays (path_create uopt path ro rw).
Proof.
  unfold path_create.
  destruct (negb (cow_enabled uopt)); [apply replays_ret|].
  apply replays_bind; [apply replays_branch_stat|].
  intros [r b]. destruct (r =? 0); [apply replays_ret|]. cbv zeta.
  eapply replays_ext; [intros s; apply walk_path_try_each|].
  apply replays_try_each. intros p.
  apply replays_bind; [apply replays_do_create|].
  intros res. destruct (negb (res =? 0)); apply replays_ret.
Qed.

Lemma replays_cow_probe path ro : replays (cow_probe uopt path ro).
Proof.
  unfold cow_probe, sys_rv.
  repeat first [apply replays_branch_lstat|replays_step].
Qed.

Lemma replay_brings_nothing dest calls : forall w,
  Forall (brings_nothing dest) calls ->
  ~ lstat_ok w dest -> ~ lstat_ok (replay calls w) dest.
Proof.
  induction calls as [|c calls IH]; intros w H Hw; [exact Hw|].
  inversion H as [|? ? Hc Hcs]; subst. cbn [replay].
  apply IH; [exact Hcs|]. apply Hc. exact Hw.
Qed.

(** C9.  Let [dname] be the directory name that u_dirname gives for the
    path, and [dest] the path itself on the RW branch, which none of the
    directories of [dname] is.  When the source that the type probe of
    [cow_cp] finds on the RO branch is a socket, [cow_cp] returns 1.
    Its calls from the start to the return are those that make the
    directories of [dname] on the RW branch, then setlocale, getuid,
    umask twice and the lstat of the source, and nothing else: no copy
    is attempted.  The destination is not created: no call other than
    stat() and lstat() names it, and with a kernel in which a call that
    only looks, or names another object, brings nothing to [dest], a
    destination that lstat() does not find before the run is not found
    after it either. *)
Theorem cow_cp_socket fuel path branch_ro branch_rw dname dest
  s r0 s0 uid umask buf s1 :
  u_dirname path = Some dname ->
  built_loc uopt branch_rw [path] = Some dest ->
  (forall p, component_prefix p (strncpy dname (PATHLEN_MAX - 1)) ->
             built_loc uopt branch_rw [p] <> Some dest) ->
  path_create_cutlast uopt path branch_ro branch_rw s = Val r0 s0 ->
  cow_probe uopt path branch_ro s0 = Val (uid, umask, (0, buf)) s1 ->
  Z.land (st_mode buf) S_IFMT = S_IFSOCK ->
  cow_cp uopt fuel path branch_ro branch_rw s = Val 1 s1 /\
  exists parents l,
    let calls :=
      (parents ++ [Setlocale; Getuid; Umask 0; Umask umask; Lstat l])%list in
    trace s1 = (trace s ++ calls)%list /\
    Forall (lays_ancestor uopt (strncpy dname (PATHLEN_MAX - 1)) branch_rw)
           parents /\
    Forall (fun c => place c = Some dest -> looks c = true) calls /\
    (absence_laws uopt dest (strncpy dname (PATHLEN_MAX - 1)) branch_rw ->
     ~ lstat_ok (world s) dest -> ~ lstat_ok (world s1) dest).
Proof.
  intros Hd Hdest Hne H0 Hp Hsock.
  assert (Hp' := Hp).
  unfold cow_probe in Hp. unfold bind at 1 in Hp.
  destruct (sys Setlocale s0) as [r1 t1|] eqn:E1; [|discriminate].
  unfold bind at 1 in Hp.
  destruct (sys_rv Getuid t1) as [u t2|] eqn:E2; [|discriminate].
  unfold bind at 1 in Hp.
  destruct (sys_rv (Umask 0) t2) as [m t3|] eqn:E3; [|discriminate].
  unfold bind at 1 in Hp.
  destruct (sys (Umask m) t3) as [r4 t4|] eqn:E4; [|discriminate].
  unfold bind at 1 in Hp.
  destruct (branch_lstat uopt indet branch_ro [path] t4) as [r5 t5|] eqn:E5;
    [|discriminate].
  injection Hp as -> -> -> ->.
  split.
  { destruct fuel; cbn [cow_cp]; rewrite (bind_Val _ _ _ _ _ H0);
      rewrite (bind_Val _ _ _ _ _ E1), (bind_Val _ _ _ _ _ E2),
        (bind_Val _ _ _ _ _ E3), (bind_Val _ _ _ _ _ E4),
        (bind_Val _ _ _ _ _ E5);
      cbn [negb Z.eqb]; cbv zeta; rewrite Hsock; reflexivity. }
  apply sys_trace in E1. apply sys_rv_trace in E2. apply sys_rv_trace in E3.
  apply sys_trace in E4.
  destruct (branch_lstat_zero _ _ _ _ _ _ _ E5) as [l E6].
  assert (T5 : trace s1
               = (trace s0 ++ [Setlocale; Getuid; Umask 0; Umask umask; Lstat l])
                   %list).
  { rewrite E6, E4, E3, E2, E1. rewrite <- !app_assoc. reflexivity. }
  clear E1 E2 E3 E4 E5 E6 r1 t1 t2 t3 r4 t4.
  (* the parents step *)
  unfold path_create_cutlast in H0. rewrite Hd in H0.
  destruct (emits_path_create
              (lays_ancestor uopt (strncpy dname (PATHLEN_MAX - 1)) branch_rw)
              dname branch_ro branch_rw) with (s := s)
    as (parents & T0 & F0).
  { intros l0. left. exists l0. reflexivity. }
  { intros p Hpre. apply emits_do_create.
    - intros l0. left. exists l0. reflexivity.
    - intros l0 c Hl Ht Hc. right. exists p, l0. repeat split; assumption. }
  destruct (replays_path_create dname branch_ro branch_rw s)
    as (parents' & T0' & W0).
  rewrite T0 in T0'. apply app_inv_head in T0'. subst parents'.
  destruct (replays_cow_probe path branch_ro s0) as (five & T5' & W5).
  rewrite H0 in T0, W0. rewrite Hp' in T5', W5. cbn [final] in *.
  rewrite T5 in T5'. apply app_inv_head in T5'. subst five.
  exists parents, l. cbv zeta.
  assert (N : forall c, lays_ancestor uopt (strncpy dname (PATHLEN_MAX - 1))
                          branch_rw c ->
                        place c = Some dest -> looks c = true).
  { intros c [[l0 ->]|(p & l0 & Hpre & Hl & Ht & Hlp)] Hc; [reflexivity|].
    exfalso. apply (Hne p Hpre). rewrite Hl.
    rewrite (target_place _ _ Ht Hlp) in Hc. exact Hc. }
  split; [rewrite T5, T0, <- app_assoc; reflexivity|].
  split; [exact F0|].
  split.
  { apply Forall_app. split.
    - eapply Forall_impl; [|exact F0]. exact N.
    - repeat constructor; discriminate. }
  intros L Hw. rewrite W5, W0, <- replay_app.
  apply replay_brings_nothing; [|exact Hw].
  apply Forall_app. split.
  - eapply Forall_impl; [|exact F0].
    intros c [[l0 ->]|(p & l0 & Hpre & Hl & Ht & Hlp)].
    + apply (al_looks _ _ _ _ L). left. reflexivity.
    + apply (al_above _ _ _ _ L p l0 c Hpre Hl).
      exact (target_place _ _ Ht Hlp).
  - repeat constructor; apply (al_looks _ _ _ _ L);
      first [left; reflexivity|right; reflexivity].
Qed.

End Further.

(** * A file copied block by block *)

Lemma copy_loop_blocks at_family from_fd to_fd blocks : forall rest e t,
  Forall (fun b => b <> EmptyString) blocks ->
  @copy_loop (Script.platform at_family) (S (List.length blocks)) from_fd to_fd
    (@mkstate (Script.platform at_family) (Blocks.answers blocks ++ rest)%list e t)
  = Val (0, 0)
        (@mkstate (Script.platform at_family) rest e
           (t ++ Blocks.transfers from_fd to_fd blocks)%list).
Proof.
  induction blocks as [|b bs IH]; intros rest e t Hne.
  - reflexivity.
  - inversion Hne as [|? ? Hb Hbs]; subst.
    change (List.length (b :: bs)) with (S (List.length bs)).
    change (@copy_loop (Script.platform at_family) (S (S (List.length bs)))
              from_fd to_fd)
      with (r <- @sys (Script.platform at_family) (Read from_fd MAXBSIZE) ;;
            let rcount := rv r in
            if 0 <? rcount then
              wcount <- sys_rv (Write to_fd (reply_data r) rcount) ;;
              if negb (rcount =? wcount) || (wcount =? -1)
              then ret (1, rcount)
              else @copy_loop (Script.platform at_family)
                     (S (List.length bs)) from_fd to_fd
            else ret (0, rcount)).
    unfold bind at 1.
    change (@sys (Script.platform at_family) (Read from_fd MAXBSIZE)
              (@mkstate (Script.platform at_family)
                 (Blocks.answers (b :: bs) ++ rest)%list e t))
      with (Val (OkStr b)
              (@mkstate (Script.platform at_family)
                 (Ok (strlen b) :: Blocks.answers bs ++ rest)%list e
                 (t ++ [Read from_fd MAXBSIZE])%list)).
    cbv zeta. cbn [rv reply_data].
    assert (Hpos : 0 < strlen b).
    { unfold strlen. destruct b; [contradiction Hb; reflexivity|]. cbn. lia. }
    destruct (Z.ltb_spec 0 (strlen b)); [|lia].
    unfold bind at 1.
    change (@sys_rv (Script.platform at_family) (Write to_fd b (strlen b))
              (@mkstate (Script.platform at_family)
                 (Ok (strlen b) :: Blocks.answers bs ++ rest)%list e
                 (t ++ [Read from_fd MAXBSIZE])%list))
      with (Val (strlen b)
              (@mkstate (Script.platform at_family)
                 (Blocks.answers bs ++ rest)%list e
                 ((t ++ [Read from_fd MAXBSIZE])
                  ++ [Write to_fd b (strlen b)])%list)).
    cbv beta iota. rewrite Z.eqb_refl.
    destruct (Z.eqb_spec (strlen b) (-1)); [lia|].
    cbn [negb orb]. rewrite (IH rest e _ Hbs). f_equal. f_equal.
    rewrite <- !app_assoc. reflexivity.
Qed.

(** X8.  On the kernel that answers from a script: a file that is served
    block by block, outside the size range copied through mmap() and
    without setuid or setgid bit, is copied in full when every call
    succeeds. [copy_file] opens both files, writes every block it reads,
    in order and with its length, until read() finds the end of the
    file, then sets the times, the owner and the mode, closes both
    descriptors and returns 0. One round of the loop per block and one
    more are enough. *)
Theorem copy_file_copies_all uopt cow lf lt d1 d2 blocks :
  @built_loc (Script.platform true) uopt
    (from_branch cow) [from_path cow] = Some lf ->
  @built_loc (Script.platform true) uopt
    (to_branch cow) [to_path cow] = Some lt ->
  d1 <> -1 -> d2 <> -1 ->
  Forall (fun b => b <> EmptyString) blocks ->
  st_size (cow_stat cow) <= 0 \/ 8 * 1048576 < st_size (cow_stat cow) ->
  Z.land (Z.land (st_mode (cow_stat cow)) 3583) (Z.lor S_ISUID S_ISGID) = 0 ->
  let fs := cow_stat cow in
  copy_file uopt (S (List.length blocks)) cow
    (Script.start true
       (Ok d1 :: Ok d2 :: Blocks.answers blocks
        ++ [Ok 0; Ok 0; Ok 0; Ok 0; Ok 0])%list)
  = Val 0
      (@mkstate (Script.platform true) [] 0
         ([open_source lf; open_copy lt fs]
          ++ Blocks.transfers d1 d2 blocks
          ++ [Utimens lt (st_atime fs) (st_mtime fs);
              Chown lt (st_uid fs) (st_gid fs);
              Chmod lt (Z.land (st_mode fs) 3583);
              Close d1; Close d2])%list).
Proof.
  intros Bf Bt N1 N2 Hne Sz Hbits fs. subst fs.
  set (fs := cow_stat cow) in *.
  rewrite (@copy_file_opened (Script.platform true) uopt _ cow lf lt
             (Script.start true
                (Ok d1 :: Ok d2 :: Blocks.answers blocks
                 ++ [Ok 0; Ok 0; Ok 0; Ok 0; Ok 0])%list)
             d1 (Ok d2 :: Blocks.answers blocks
                 ++ [Ok 0; Ok 0; Ok 0; Ok 0; Ok 0])%list
             d2 (Blocks.answers blocks ++ [Ok 0; Ok 0; Ok 0; Ok 0; Ok 0])%list
             Bf Bt eq_refl N1 eq_refl N2).
  cbv zeta. fold fs.
  assert (Hs : (0 <? st_size fs) && (st_size fs <=? 8 * 1048576) = false).
  { destruct Sz.
    - destruct (Z.ltb_spec 0 (st_size fs)); [lia|reflexivity].
    - destruct (Z.leb_spec (st_size fs) (8 * 1048576)); [lia|].
      apply andb_false_r. }
  rewrite Hs. unfold bind at 1. unfold bind at 1.
  unfold both_open, after. cbn [world errno trace Script.start].
  rewrite (copy_loop_blocks true d1 d2 blocks _ 0 _ Hne).
  unfold ret at 1. cbv beta iota. unfold ret at 1. cbv beta iota.
  change (0 <? 0) with false. change (0 =? 1) with false. cbv iota.
  destruct (@setfile_run (Script.platform true) uopt
              (to_branch cow) (to_path cow) fs lt
              (@mkstate (Script.platform true) [Ok 0; Ok 0; Ok 0; Ok 0; Ok 0] 0
                 ((([] ++ [open_source lf]) ++ [open_copy lt fs])
                  ++ Blocks.transfers d1 d2 blocks)%list)
              0
              (@mkstate (Script.platform true) [Ok 0; Ok 0; Ok 0; Ok 0] 0
                 ((((([] ++ [open_source lf]) ++ [open_copy lt fs])
                    ++ Blocks.transfers d1 d2 blocks)
                   ++ [Utimens lt (st_atime fs) (st_mtime fs)]))%list)
              eq_refl Bt) as [E _].
  { unfold branch_utimens.
    rewrite (@branch_call_ok (Script.platform true) uopt _ _ lt _ _ Bt).
    reflexivity. }
  cbv zeta in E. cbn [world fst snd os Script.platform Script.scripted succeeds
                      chown_fatal after errno trace] in E.
  unfold bind at 1. unfold open_source, open_copy in *. fold fs. rewrite E.
  clear E. unfold after. cbn [world errno trace negb orb].
  change (0 =? 0) with true. cbn [negb orb]. cbv iota.
  cbn [st_mode set_mode st_uid].
  unfold bind at 1. rewrite Hbits. change (0 =? 0) with true.
  cbn [negb andb]. cbv iota. unfold ret at 1. cbv beta iota.
  unfold bind, sys_rc, sys.
  cbn [world errno trace os Script.platform Script.scripted rc].
  unfold bind. cbv beta.
  cbn [world errno trace Script.scripted rc].
  change (0 =? 0) with true. cbn [negb]. unfold ret. f_equal. f_equal.
  cbn [app]. rewrite <- !app_assoc. reflexivity.
Qed.

(** * The small kernel lets a whiteout go *)

Module KernelRemoval.
Import Kernel KernelFacts.

Lemma lookup_remove_same {A} k (m : list (list string * A)) :
  lookup k (remove_key k m) = None.
Proof.
  induction m as [|[k0 v] m IH]; [reflexivity|]. cbn.
  destruct (key_eqb k k0) eqn:E; [exact IH|]. cbn. rewrite E. exact IH.
Qed.

Lemma lookup_remove_some {A} k k' (m : list (list string * A)) v :
  lookup k (remove_key k' m) = Some v -> lookup k m = Some v.
Proof.
  destruct (key_eqb k k') eqn:E.
  - apply key_eqb_true in E. subst k'. rewrite lookup_remove_same.
    discriminate.
  - assert (Hne : k <> k').
    { intros ->. rewrite key_eqb_refl in E. discriminate. }
    rewrite (lookup_remove_other _ _ _ Hne). auto.
Qed.

Lemma kernel_mkdir_seen at_family : @mkdir_seen (platform at_family).
Proof.
  intros l mode w. unfold lstat_ok. cbn [os platform kernel fst snd].
  apply create_lstat.
Qed.

Lemma do_remove_removes w l dir k n :
  resolve w l = Some k -> k <> [] ->
  lookup k (nodes w) = Some n -> is_dir n = dir ->
  succeeds (do_lstat (snd (do_remove w l dir)) l) = false.
Proof.
  intros Hk Hne Hn Hd. unfold do_remove. rewrite Hk, Hn, Hd.
  rewrite Bool.eqb_reflx. cbn [snd]. unfold do_lstat.
  change (resolve (with_nodes w (remove_key k (nodes w))) l) with (resolve w l).
  rewrite Hk. destruct k as [|x k]; [contradiction Hne; reflexivity|].
  cbn [nodes with_nodes]. rewrite lookup_remove_same. reflexivity.
Qed.

Lemma do_remove_brings_nothing w l' dir l :
  succeeds (do_lstat (snd (do_remove w l' dir)) l) = true ->
  succeeds (do_lstat w l) = true.
Proof.
  unfold do_remove. destruct (resolve w l') as [k'|]; [|auto].
  destruct (lookup k' (nodes w)) as [n'|]; [|auto].
  destruct (Bool.eqb (is_dir n') dir); [|auto]. cbn [snd]. unfold do_lstat.
  change (resolve (with_nodes w (remove_key k' (nodes w))) l) with (resolve w l).
  destruct (resolve w l) as [[|x k]|]; auto.
  cbn [nodes with_nodes].
  destruct (lookup (x :: k) (remove_key k' (nodes w))) as [n|] eqn:E;
    [|discriminate].
  rewrite (lookup_remove_some _ _ _ _ E). auto.
Qed.

(** The removal laws hold at every location that is not the root. *)
Lemma kernel_removal_laws at_family l :
  (forall w k, resolve w l = Some k -> k <> []) ->
  @removal_laws (platform at_family) l.
Proof.
  intros Hroot. constructor.
  - intros l' w. reflexivity.
  - intros w. cbn [os platform kernel fst]. apply do_lstat_shape.
  - intros w st. unfold lstat_ok. cbn [os platform kernel fst snd].
    intros H D. unfold do_lstat in H.
    destruct (resolve w l) as [k|] eqn:Hk; [|discriminate].
    pose proof (Hroot w k Hk) as Hne.
    destruct k as [|x k]; [contradiction Hne; reflexivity|].
    destruct (lookup (x :: k) (nodes w)) as [n|] eqn:Hn; [|discriminate].
    injection H as <-.
    intros H. discriminate (eq_trans (eq_sym H)
             (do_remove_removes w l false (x :: k) n Hk Hne Hn D)).
  - intros w st. unfold lstat_ok. cbn [os platform kernel fst snd].
    intros H D. unfold do_lstat in H.
    destruct (resolve w l) as [k|] eqn:Hk; [|discriminate].
    pose proof (Hroot w k Hk) as Hne.
    destruct k as [|x k]; [contradiction Hne; reflexivity|].
    destruct (lookup (x :: k) (nodes w)) as [n|] eqn:Hn; [|discriminate].
    injection H as <-.
    intros H. discriminate (eq_trans (eq_sym H)
             (do_remove_removes w l true (x :: k) n Hk Hne Hn D)).
  - intros c w Hc. unfold lstat_ok.
    destruct c; try discriminate; cbn [os platform kernel fst snd];
      intros Hg H; apply Hg; try exact H;
      exact (do_remove_brings_nothing _ _ _ _ H).
Qed.

(** A name below a directory handle is not the root. *)
Lemma below_handle d rel x xs :
  components rel = x :: xs ->
  forall w k, resolve w (AtFd d rel) = Some k -> k <> [].
Proof.
  intros Hc w k. cbn [resolve]. rewrite Hc.
  destruct (lookup_fd d (dirfds w)) as [root|]; [|discriminate].
  intros [= <-] H. symmetry in H. exact (app_cons_not_nil _ _ _ H).
Qed.

End KernelRemoval.

(** * What the small kernel leaves alone *)

Module KernelAbsence.
Import Kernel KernelFacts KernelReach.

Lemma only_at_refl l w : only_at l w w.
Proof. split; reflexivity. Qed.

Lemma only_at_update l w k v :
  resolve w l = Some k ->
  only_at l w (with_nodes w (update k v (nodes w))).
Proof.
  intros Hk. split; [reflexivity|]. intros k0 H. cbn [nodes with_nodes].
  apply lookup_update_other. exact (H k Hk).
Qed.

Lemma only_at_remove l w k :
  resolve w l = Some k ->
  only_at l w (with_nodes w (remove_key k (nodes w))).
Proof.
  intros Hk. split; [reflexivity|]. intros k0 H. cbn [nodes with_nodes].
  apply lookup_remove_other. exact (H k Hk).
Qed.

Lemma create_only_at w l fmt mode dev target :
  only_at l w (snd (create w l fmt mode dev target)).
Proof.
  unfold create. destruct (resolve w l) as [k|] eqn:Hk; [|apply only_at_refl].
  destruct (lookup k (nodes w)); [apply only_at_refl|].
  destruct (parent_ok w k); [|apply only_at_refl].
  apply only_at_update. exact Hk.
Qed.

Lemma change_only_at w l f : only_at l w (snd (change w l f)).
Proof.
  unfold change. destruct (resolve w l) as [k|] eqn:Hk; [|apply only_at_refl].
  destruct (lookup k (nodes w)); [|apply only_at_refl].
  apply only_at_update. exact Hk.
Qed.

Lemma do_chown_only_at w l owner group :
  only_at l w (snd (do_chown w l owner group)).
Proof.
  unfold do_chown. destruct (do_lstat w l); try apply only_at_refl.
  destruct ((id_limit w <? owner) || (id_limit w <? group));
    [apply only_at_refl|].
  destruct ((euid w =? 0) || ((owner =? st_uid st) && (group =? st_gid st)));
    [apply change_only_at|apply only_at_refl].
Qed.

Lemma do_open_only_at w l flags mode :
  only_at l w (snd (do_open w l flags mode)).
Proof.
  unfold do_open. cbv zeta.
  destruct (do_lstat w l); try apply only_at_refl;
    [|exact (only_at_refl l w)].
  destruct ((e =? ENOENT) && negb (Z.land flags O_CREAT =? 0));
    [|apply only_at_refl].
  pose proof (create_only_at w l S_IFREG mode 0 EmptyString) as H.
  destruct (create w l S_IFREG mode 0 EmptyString) as [[] w']; exact H.
Qed.

Lemma do_remove_only_at w l dir : only_at l w (snd (do_remove w l dir)).
Proof.
  unfold do_remove. destruct (resolve w l) as [k|] eqn:Hk; [|apply only_at_refl].
  destruct (lookup k (nodes w)) as [n|]; [|apply only_at_refl].
  destruct (Bool.eqb (is_dir n) dir); [|apply only_at_refl].
  apply only_at_remove. exact Hk.
Qed.

(** A call that names one object changes no other. *)
Lemma kernel_only_at c l w :
  place c = Some l -> only_at l w (snd (kernel c w)).
Proof.
  destruct c; cbn [place]; intros H; try discriminate; injection H as ->;
    cbn [kernel snd];
    first [ apply only_at_refl | apply do_open_only_at | apply create_only_at
          | apply change_only_at | apply do_chown_only_at
          | apply do_remove_only_at | idtac ].
  destruct (resolve w l) as [k|]; [|apply only_at_refl].
  destruct (lookup k (nodes w)) as [n|]; [|apply only_at_refl].
  destruct (S_ISLNK (st_mode (nstat n))); apply only_at_refl.
Qed.

(** A call that only looks, or names no path, changes no object. *)
Lemma kernel_keeps c w :
  looks c = true \/ by_descriptor c = true ->
  dirfds (snd (kernel c w)) = dirfds w /\ nodes (snd (kernel c w)) = nodes w.
Proof.
  intros [H|H]; destruct c; try discriminate H; cbn [kernel snd];
    try (split; reflexivity).
  - unfold do_open. cbv zeta. destruct (do_lstat w l); try (split; reflexivity).
    assert (F : (Z.land flags O_CREAT =? 0) = true).
    { cbn [looks] in H. apply Bool.orb_true_iff in H as [H|H];
        apply Z.eqb_eq in H; subst flags; reflexivity. }
    rewrite F, Bool.andb_false_r. split; reflexivity.
  - destruct (resolve w l) as [k|]; [|split; reflexivity].
    destruct (lookup k (nodes w)) as [n|]; [|split; reflexivity].
    destruct (S_ISLNK (st_mode (nstat n))); split; reflexivity.
  - destruct ((0 <=? d) && existsb (Z.eqb d) (fds w)); split; reflexivity.
Qed.

Lemma do_lstat_alike w w' l :
  dirfds w' = dirfds w ->
  (forall k, resolve w l = Some k -> lookup k (nodes w') = lookup k (nodes w)) ->
  do_lstat w' l = do_lstat w l.
Proof.
  intros Hd Hn. unfold do_lstat.
  assert (R : resolve w' l = resolve w l).
  { unfold resolve. rewrite Hd. reflexivity. }
  rewrite R. destruct (resolve w l) as [[|x k]|]; try reflexivity.
  rewrite (Hn (x :: k) eq_refl). reflexivity.
Qed.

(** The laws of absence hold at a destination that none of the
    directories above it resolves to. *)
Lemma kernel_absence_laws at_family uopt dest dname rw :
  (forall p l w k k',
      component_prefix p dname ->
      @built_loc (platform at_family) uopt rw [p] = Some l ->
      resolve w dest = Some k -> resolve w l = Some k' -> k <> k') ->
  @absence_laws (platform at_family) uopt dest dname rw.
Proof.
  intros Hne. constructor.
  - intros c Hc w. unfold lstat_ok. cbn [os platform fst].
    destruct (kernel_keeps c w Hc) as [Hd Hn]. cbn [kernel fst].
    assert (E : do_lstat (snd (kernel c w)) dest = do_lstat w dest).
    { apply do_lstat_alike; [exact Hd|]. intros k _. rewrite Hn. reflexivity. }
    intros H1 H2. apply H1.
    exact (eq_trans (f_equal succeeds (eq_sym E)) H2).
  - intros p l c Hp Hl Hc w. unfold lstat_ok. cbn [os platform fst].
    destruct (kernel_only_at c l w Hc) as [Hd Hn]. cbn [kernel fst].
    assert (E : do_lstat (snd (kernel c w)) dest = do_lstat w dest).
    { apply do_lstat_alike; [exact Hd|].
      intros k Hk. apply Hn. intros k' Hk'.
      exact (Hne p l w k k' Hp Hl Hk Hk'). }
    intros H1 H2. apply H1.
    exact (eq_trans (f_equal succeeds (eq_sym E)) H2).
Qed.

End KernelAbsence.


(** * The further statements at work *)

Local Open Scope string_scope.

Lemma setlink_status_witness :
  setlink Demo.cow_on 1 "/l" Runs.link_stat (Script.start true [Fail EPERM])
  = Val 0 (@mkstate (Script.platform true) [] EPERM
             [Lchown (AtFd 11 "l") 0 0]).
Proof.
  exact (eq_trans
           (@setlink_status (Script.platform true) Demo.cow_on 1 "/l"
              Runs.link_stat (Script.start true [Fail EPERM])
              (Runs.rw_ready true))
           eq_refl).
Defined.

Lemma set_owner_status_witness :
  set_owner Demo.cow_on (mkctx 1000 1000) "/f" 1
    (Script.start true [Fail EPERM])
  = Val (- EPERM) (@mkstate (Script.platform true) [] EPERM
                     [Lchown (AtFd 11 "f") 1000 1000]).
Proof.
  exact (eq_trans
           (@set_owner_status (Script.platform true) Demo.cow_on
              (mkctx 1000 1000) "/f" 1 (AtFd 11 "f")
              (Script.start true [Fail EPERM]) eq_refl)
           eq_refl).
Defined.

Lemma branch_utimens_enoent_witness :
  branch_utimens Demo.cow_on 5 6 1 ["/l"]
    (Script.start false [Fail ENOENT; OkStat Runs.link_stat])
  = Val 0 (@mkstate (Script.platform false) [] ENOENT
             [Utimes (Abs "/rw/l") 5 6; Lstat (Abs "/rw/l")]).
Proof.
  exact (eq_trans
           (@branch_utimens_enoent (Script.platform false) Demo.cow_on 5 6 1
              ["/l"] (Abs "/rw/l")
              (Script.start false [Fail ENOENT; OkStat Runs.link_stat])
              ENOENT [OkStat Runs.link_stat] eq_refl eq_refl eq_refl)
           eq_refl).
Defined.

Lemma xattr_symlink_enotsup_witness :
  let s := Script.start true [Fail ELOOP] in
  let refusal (o : Z) :=
    Val (-1) (@mkstate (Script.platform true) [] ENOTSUP
                [Open (AtFd 11 "l") (Z.lor o O_NOFOLLOW) 0]) in
  branch_lsetxattr Demo.cow_on "user.a" "v" 0 1 ["/l"] s = refusal O_WRONLY /\
  branch_lremovexattr Demo.cow_on "user.a" 1 ["/l"] s = refusal O_WRONLY /\
  branch_lgetxattr Demo.cow_on "user.a" 16 1 ["/l"] s = refusal O_RDONLY /\
  branch_llistxattr Demo.cow_on 16 1 ["/l"] s = refusal O_RDONLY.
Proof.
  exact (@xattr_symlink_enotsup (Script.platform true) Demo.cow_on
           "user.a" "v" 0 16 1 ["/l"] (AtFd 11 "l")
           (Script.start true [Fail ELOOP]) ELOOP [] []
           eq_refl eq_refl eq_refl eq_refl).
Defined.

Lemma branch_opendir_descriptor_witness :
  branch_opendir Demo.cow_on 0 ["/docs"]
    (Script.start true [Ok 5; Fail Kernel.ENOTDIR; Ok 0])
  = Val 0 (@mkstate (Script.platform true) [] Kernel.ENOTDIR
             [Open (AtFd 10 "docs") (Z.lor O_RDONLY O_DIRECTORY) 0;
              Fdopendir 5; Close 5]).
Proof.
  exact (eq_trans
           (@branch_opendir_descriptor (Script.platform true) Demo.cow_on 0
              ["/docs"] (AtFd 10 "docs")
              (Script.start true [Ok 5; Fail Kernel.ENOTDIR; Ok 0])
              eq_refl eq_refl)
           eq_refl).
Defined.

Lemma branch_truncate_descriptor_witness :
  branch_truncate Demo.cow_on 7 1 ["/f"]
    (Script.start true [Ok 5; Fail Kernel.EINVAL; Fail Kernel.EBADF])
  = Val (-1) (@mkstate (Script.platform true) [] Kernel.EBADF
                [Open (AtFd 11 "f") O_WRONLY 0; Ftruncate 5 7; Close 5]).
Proof.
  exact (eq_trans
           (@branch_truncate_descriptor (Script.platform true) Demo.cow_on 7 1
              ["/f"] (AtFd 11 "f")
              (Script.start true [Ok 5; Fail Kernel.EINVAL; Fail Kernel.EBADF])
              eq_refl eq_refl)
           eq_refl).
Defined.

Lemma setfile_status_witness :
  setfile Demo.cow_on 1 "/f" Demo.setuid_stat
    (Script.start true [Ok 0; Fail Kernel.EINVAL; Ok 0])
  = Val (1, set_mode Demo.setuid_stat 493)
        (@mkstate (Script.platform true) [] Kernel.EINVAL
           [Utimens (AtFd 11 "f") 300 400; Chown (AtFd 11 "f") 0 0;
            Chmod (AtFd 11 "f") 493]).
Proof.
  exact (eq_trans
           (proj1
              (@setfile_status (Script.platform true) Demo.cow_on 1 "/f"
                 Demo.setuid_stat (AtFd 11 "f")
                 (Script.start true [Ok 0; Fail Kernel.EINVAL; Ok 0]) 0
                 (@mkstate (Script.platform true) [Fail Kernel.EINVAL; Ok 0] 0
                    [Utimens (AtFd 11 "f") 300 400])
                 eq_refl eq_refl eq_refl))
           eq_refl).
Defined.

Lemma copy_node_refused_witness :
  let s := Script.start true [Fail EPERM] in
  let cow := Runs.cow_of "/n" (mkstat (Z.lor S_IFCHR 420) 0 0 0 300 400 1025 0) in
  copy_fifo Demo.cow_on cow s
  = Val 1 (@mkstate (Script.platform true) [] EPERM
             [Mkfifo (AtFd 11 "n") (Z.lor S_IFCHR 420)]) /\
  copy_special Demo.cow_on cow s
  = Val 1 (@mkstate (Script.platform true) [] EPERM
             [Mknod (AtFd 11 "n") (Z.lor S_IFCHR 420) 1025]).
Proof.
  pose proof (@copy_node_refused (Script.platform true) Demo.cow_on
                (Runs.cow_of "/n"
                   (mkstat (Z.lor S_IFCHR 420) 0 0 0 300 400 1025 0))
                (AtFd 11 "n") (Script.start true [Fail EPERM]) eq_refl)
    as [H1 H2].
  split; [exact (H1 eq_refl)|exact (H2 eq_refl)].
Defined.

Lemma copy_link_target_witness :
  copy_link Demo.cow_on (Runs.cow_of "/l" Runs.link_stat)
    (Script.start true [OkStr "docs/a"; Ok 0; Ok 0])
  = Val 0 (@mkstate (Script.platform true) [] 0
             [Readlink (AtFd 10 "l") 63; Symlink "docs/a" (AtFd 11 "l");
              Lchown (AtFd 11 "l") 0 0]).
Proof.
  exact (eq_trans
           (proj2
              (@copy_link_target (Script.platform true) Demo.cow_on
                 (Runs.cow_of "/l" Runs.link_stat) (AtFd 10 "l") (AtFd 11 "l")
                 (Script.start true [OkStr "docs/a"; Ok 0; Ok 0])
                 eq_refl eq_refl)
              "docs/a" eq_refl eq_refl)
           eq_refl).
Defined.

Lemma copy_link_long_source_witness :
  copy_link Demo.cow_on (mkcow 18 0 0 (Demo.name 70) Runs.link_stat 1 "/l")
    (Script.start true [])
  = Fault BufferOverflow
      (@mkstate (Script.platform true) [] ENAMETOOLONG []).
Proof.
  exact (@copy_link_long_source (Script.platform true) Demo.cow_on
           (mkcow 18 0 0 (Demo.name 70) Runs.link_stat 1 "/l")
           (Script.start true []) Runs.ro_ready eq_refl).
Defined.

Lemma copy_file_read_error_witness :
  copy_file Demo.cow_on 1 (Runs.cow_of "/f" Runs.empty_stat)
    (Script.start true [Ok 5; Ok 6; Fail 5])
  = Val 1 (@mkstate (Script.platform true) [] 5
             [open_source (AtFd 10 "f");
              open_copy (AtFd 11 "f") Runs.empty_stat;
              Read 5 MAXBSIZE]).
Proof.
  destruct (@copy_file_read_error (Script.platform true) Demo.cow_on 0
              (Runs.cow_of "/f" Runs.empty_stat) (AtFd 10 "f") (AtFd 11 "f")
              (Script.start true [Ok 5; Ok 6; Fail 5])
              5 [Ok 6; Fail 5] 6 [Fail 5] 5 []) as [H _];
    [reflexivity|reflexivity|reflexivity|discriminate|reflexivity|discriminate
    |left; discriminate|reflexivity|].
  exact H.
Defined.


Lemma copy_directory_long_name_witness :
  copy_directory Demo.cow_on 1 "/docs" 0 1
    (Script.start true [OkStat Runs.dir_stat; Ok 5; Ok 77; OkStr (Demo.xs 70)])
  = Val 1 (@mkstate (Script.platform true) [] ENAMETOOLONG
             [Stat (AtFd 11 "docs");
              Open (AtFd 10 "docs") (Z.lor O_RDONLY O_DIRECTORY) 0;
              Fdopendir 5; Readdir 77]).
Proof.
  apply (@copy_directory_long_name (Script.platform true) Demo.cow_on 0
           "/docs" 0 1
           (Script.start true
              [OkStat Runs.dir_stat; Ok 5; Ok 77; OkStr (Demo.xs 70)])
           (@mkstate (Script.platform true) [Ok 5; Ok 77; OkStr (Demo.xs 70)] 0
              [Stat (AtFd 11 "docs")])
           77
           (@mkstate (Script.platform true) [OkStr (Demo.xs 70)] 0
              [Stat (AtFd 11 "docs");
               Open (AtFd 10 "docs") (Z.lor O_RDONLY O_DIRECTORY) 0;
               Fdopendir 5])
           (Demo.xs 70) []);
    try reflexivity; discriminate.
Defined.

Lemma copy_directory_skips_dots_witness :
  exists s',
    copy_directory Demo.cow_on 3 "/docs" 0 1
      (Script.start true
         [OkStat Runs.dir_stat; Ok 5; Ok 77; OkStr "."; OkStr ".."; Ok 0;
          Fail Kernel.EBADF])
    = Val 0 s' /\
    trace s'
    = [Stat (AtFd 11 "docs");
       Open (AtFd 10 "docs") (Z.lor O_RDONLY O_DIRECTORY) 0; Fdopendir 5;
       Readdir 77; Readdir 77; Readdir 77; Closedir 77].
Proof.
  apply (@copy_directory_skips_dots (Script.platform true) Demo.cow_on 0
           "/docs" 0 1
           (Script.start true
              [OkStat Runs.dir_stat; Ok 5; Ok 77; OkStr "."; OkStr ".."; Ok 0;
               Fail Kernel.EBADF])
           (@mkstate (Script.platform true)
              [Ok 5; Ok 77; OkStr "."; OkStr ".."; Ok 0; Fail Kernel.EBADF] 0
              [Stat (AtFd 11 "docs")])
           77
           (@mkstate (Script.platform true)
              [OkStr "."; OkStr ".."; Ok 0; Fail Kernel.EBADF] 0
              [Stat (AtFd 11 "docs");
               Open (AtFd 10 "docs") (Z.lor O_RDONLY O_DIRECTORY) 0;
               Fdopendir 5])
           [OkStr ".."; Ok 0; Fail Kernel.EBADF] [Ok 0; Fail Kernel.EBADF]
           (Ok 0) [Fail Kernel.EBADF]);
    try reflexivity; discriminate.
Defined.

Lemma cow_cp_source_gone_witness :
  cow_cp Demo.cow_on 1 "/gone" 0 1
    (Script.start true
       [OkStat Runs.dir_stat; Ok 0; Ok 0; Ok 18; Ok 0; Fail ENOENT])
  = Val (-1) (@mkstate (Script.platform true) [] ENOENT
                [Stat (AtFd 11 "."); Setlocale; Getuid; Umask 0; Umask 18;
                 Lstat (AtFd 10 "gone")]).
Proof.
  apply (@cow_cp_source_gone (Script.platform true) Demo.cow_on 1 "/gone" 0 1
           (Script.start true
              [OkStat Runs.dir_stat; Ok 0; Ok 0; Ok 18; Ok 0; Fail ENOENT])
           0
           (@mkstate (Script.platform true)
              [Ok 0; Ok 0; Ok 18; Ok 0; Fail ENOENT] 0 [Stat (AtFd 11 ".")])
           0 18 (-1) (mkstat 0 0 0 0 0 0 0 0));
    try reflexivity; discriminate.
Defined.

Lemma do_create_source_gone_witness :
  do_create Demo.cow_on "/docs" 0 1
    (Script.start true [Fail ENOENT; Fail ENOENT])
  = Val 1 (@mkstate (Script.platform true) [] ENOENT
             [Stat (AtFd 11 "docs"); Stat (AtFd 10 "docs")]).
Proof.
  apply (@do_create_source_gone (Script.platform true) Demo.cow_on "/docs" 0 1
           (AtFd 10 "docs") (AtFd 11 "docs")
           (Script.start true [Fail ENOENT; Fail ENOENT]));
    try reflexivity; discriminate.
Defined.

Lemma path_is_dir_fits_witness :
  path_is_dir Demo.cow_on 0 ["/docs"]
    (Script.start true [OkStat Runs.link_stat])
  = Val IS_FILE (@mkstate (Script.platform true) [] 0
                   [Lstat (AtFd 10 "docs")]).
Proof.
  apply (@path_is_dir_fits (Script.platform true) Demo.cow_on 0 ["/docs"]
           (AtFd 10 "docs") (Script.start true [OkStat Runs.link_stat])).
  reflexivity.
Defined.

Lemma hide_dir_hides_witness :
  hide_dir Demo.cow_on "/tmp" 1 (Demo.start true (Demo.tree 0 65535))
  = Val 0 Runs.after_hide_dir /\
  status (filedir_hidden Demo.cow_on "/tmp" 1 Runs.after_hide_dir) = Some true /\
  status (path_hidden Demo.cow_on "/tmp/x/y" 1 Runs.after_hide_dir) = Some true.
Proof.
  assert (H : hide_dir Demo.cow_on "/tmp" 1 (Demo.start true (Demo.tree 0 65535))
              = Val 0 Runs.after_hide_dir)
    by (apply run_eq; vm_compute; reflexivity).
  assert (Hag : @marker_agrees (Kernel.platform true) Demo.cow_on "/tmp" 1).
  { apply marker_agrees_concat. intros mp Hmp. vm_compute in Hmp.
    injection Hmp as <-. reflexivity. }
  split; [exact H|].
  apply (@hide_dir_hides (Kernel.platform true) Demo.cow_on "/tmp" "/tmp/x/y" 1
           (Demo.start true (Demo.tree 0 65535)) _ _
           eq_refl (fun l w => eq_refl) (KernelRemoval.kernel_mkdir_seen true)
           Hag H eq_refl
           (ex_intro _ "/x/y"%string (conj eq_refl (or_introl (conj eq_refl eq_refl))))
           eq_refl).
Defined.

Lemma maybe_whiteout_hides_witness :
  maybe_whiteout Demo.cow_on Runs.found_on_0 "/tmp" 1 WHITEOUT_DIR
    (Demo.start true (Demo.tree 0 65535))
  = Val 0 Runs.after_hide_dir /\
  status (filedir_hidden Demo.cow_on "/tmp" 1 Runs.after_hide_dir) = Some true.
Proof.
  assert (H : maybe_whiteout Demo.cow_on Runs.found_on_0 "/tmp" 1 WHITEOUT_DIR
                (Demo.start true (Demo.tree 0 65535))
              = Val 0 Runs.after_hide_dir)
    by (apply run_eq; vm_compute; reflexivity).
  assert (Hag : @marker_agrees (Kernel.platform true) Demo.cow_on "/tmp" 1).
  { apply marker_agrees_concat. intros mp Hmp. vm_compute in Hmp.
    injection Hmp as <-. reflexivity. }
  destruct (@maybe_whiteout_hides (Kernel.platform true) Demo.cow_on
              Runs.found_on_0 "/tmp" 1 WHITEOUT_DIR
              (Demo.start true (Demo.tree 0 65535)) 0
              (Demo.start true (Demo.tree 0 65535)) Runs.after_hide_dir
              eq_refl (KernelFacts.kernel_whiteout_laws true)
              (KernelRemoval.kernel_mkdir_seen true) Hag eq_refl H)
    as [[E _]|(_ & _ & S)]; [discriminate E|].
  split; [exact H|exact S].
Defined.

Lemma remove_hidden_unhides_witness :
  exists s',
    remove_hidden Demo.cow_on "/tmp" 1 Demo.after_hide = Val 0 s' /\
    status (filedir_hidden Demo.cow_on "/tmp" 1 s') = Some false.
Proof.
  apply (@remove_hidden_unhides (Kernel.platform true) Demo.cow_on "/tmp" 1 1
           [AtFd 10 ".unionfs//tmp_HIDDEN~"; AtFd 11 ".unionfs//tmp_HIDDEN~"]
           (AtFd 11 ".unionfs//tmp_HIDDEN~") Demo.after_hide).
  - reflexivity.
  - lia.
  - reflexivity.
  - reflexivity.
  - apply KernelRemoval.kernel_removal_laws.
    apply (KernelRemoval.below_handle 11 ".unionfs//tmp_HIDDEN~"
             ".unionfs" ["tmp_HIDDEN~"]).
    reflexivity.
Defined.

Lemma copy_file_copies_all_witness :
  copy_file Demo.cow_on 3 (Runs.cow_of "/f" Runs.empty_stat)
    (Script.start true
       [Ok 5; Ok 6; OkStr "ab"; Ok 2; OkStr "c"; Ok 1; Ok 0;
        Ok 0; Ok 0; Ok 0; Ok 0; Ok 0])
  = Val 0
      (@mkstate (Script.platform true) [] 0
         [open_source (AtFd 10 "f"); open_copy (AtFd 11 "f") Runs.empty_stat;
          Read 5 MAXBSIZE; Write 6 "ab" 2; Read 5 MAXBSIZE; Write 6 "c" 1;
          Read 5 MAXBSIZE;
          Utimens (AtFd 11 "f") 300 400; Chown (AtFd 11 "f") 0 0;
          Chmod (AtFd 11 "f") 420; Close 5; Close 6]).
Proof.
  apply (copy_file_copies_all Demo.cow_on (Runs.cow_of "/f" Runs.empty_stat)
           (AtFd 10 "f") (AtFd 11 "f") 5 6 ["ab"; "c"]);
    try reflexivity; try discriminate.
  - repeat constructor; discriminate.
  - left. discriminate.
Defined.

Lemma cow_cp_restores_umask_witness :
  exists rest,
    trace (final (cow_cp Demo.cow_on 1 "/gone" 0 1
                    (Script.start true
                       [OkStat Runs.dir_stat; Ok 0; Ok 0; Ok 18; Ok 0;
                        Fail ENOENT])))
    = ([Stat (AtFd 11 ".")] ++ [Setlocale; Getuid; Umask 0; Umask 18] ++ rest)%list.
Proof.
  apply (@cow_cp_restores_umask (Script.platform true) Demo.cow_on 1 "/gone" 0 1
           (Script.start true
              [OkStat Runs.dir_stat; Ok 0; Ok 0; Ok 18; Ok 0; Fail ENOENT])
           0
           (@mkstate (Script.platform true)
              [Ok 0; Ok 0; Ok 18; Ok 0; Fail ENOENT] 0 [Stat (AtFd 11 ".")])).
  reflexivity.
Defined.

Lemma copy_file_mmap_write_witness :
  let s := Script.start true
             [Ok 5; Ok 6; OkStr "0123456789"; Ok 0; Ok 10; Ok 0;
              Ok 0; Ok 0; Ok 0; Ok 0; Ok 0] in
  let cow := Runs.cow_of "/f" Runs.small_stat in
  let mapped := [open_source (AtFd 10 "f"); open_copy (AtFd 11 "f") Runs.small_stat;
                 Mmap 5 10; Madvise 10; Write 6 "0123456789" 10; Munmap 10] in
  copy_file Demo.cow_on 1 cow s
  = Val 0 (@mkstate (Script.platform true) [] 0
             (mapped ++ [Utimens (AtFd 11 "f") 300 400; Chown (AtFd 11 "f") 0 0;
                         Chmod (AtFd 11 "f") 420; Close 5; Close 6])%list) /\
  exists rest,
    trace (final (copy_file Demo.cow_on 1 cow s)) = ([] ++ mapped ++ rest)%list /\
    Forall (finishes_copy (AtFd 11 "f") 5 6) rest /\
    (10 <> 10 ->
     status (copy_file Demo.cow_on 1 cow s) = Some 1 /\ rest = [Close 5; Close 6]).
Proof.
  split; [reflexivity|].
  apply (@copy_file_mmap_write (Script.platform true) Demo.cow_on 1
           (Runs.cow_of "/f" Runs.small_stat) (AtFd 10 "f") (AtFd 11 "f")
           (Script.start true
              [Ok 5; Ok 6; OkStr "0123456789"; Ok 0; Ok 10; Ok 0;
               Ok 0; Ok 0; Ok 0; Ok 0; Ok 0])
           5 [Ok 6; OkStr "0123456789"; Ok 0; Ok 10; Ok 0;
              Ok 0; Ok 0; Ok 0; Ok 0; Ok 0]
           6 [OkStr "0123456789"; Ok 0; Ok 10; Ok 0; Ok 0; Ok 0; Ok 0; Ok 0; Ok 0]
           "0123456789" [Ok 0; Ok 10; Ok 0; Ok 0; Ok 0; Ok 0; Ok 0; Ok 0]);
    try reflexivity; try discriminate.
  split; [reflexivity|discriminate].
Defined.

(** The only component prefix of the root is the root. *)
Lemma prefix_of_root p : component_prefix p "/" -> p = "/".
Proof.
  intros (rest & E & H). destruct p as [|a [|b p]].
  - cbn in E. subst rest. destruct H as [[H _]|[_ H]]; discriminate.
  - cbn in E. injection E as <- _. reflexivity.
  - cbn in E. discriminate.
Qed.

Lemma cow_cp_socket_witness :
  cow_cp Demo.cow_on 1 "/sock" 0 1 (Demo.start true (Demo.tree 0 65535))
  = Val 1 Demo.sock_probed /\
  (exists parents l,
      trace Demo.sock_probed
      = ([] ++ parents ++ [Setlocale; Getuid; Umask 0; Umask 18; Lstat l])%list /\
      Forall (@lays_ancestor (Kernel.platform true) Demo.cow_on "/" 1)
        parents /\
      Forall (fun c => place c = Some (AtFd 11 "sock") -> looks c = true)
        (parents ++ [Setlocale; Getuid; Umask 0; Umask 18; Lstat l])%list) /\
  ~ lstat_ok (world Demo.sock_probed) (AtFd 11 "sock") /\
  Kernel.lookup ["rw"; "sock"] (Kernel.nodes (world Demo.sock_probed)) = None.
Proof.
  assert (H0 : path_create_cutlast Demo.cow_on "/sock" 0 1
                 (Demo.start true (Demo.tree 0 65535))
               = Val 0 Demo.sock_parents)
    by (apply run_eq; vm_compute; reflexivity).
  assert (H1 : cow_probe Demo.cow_on "/sock" 0 Demo.sock_parents
               = Val (0, 18, (0, Kernel.nstat (Demo.file S_IFSOCK 420 0 0)))
                     Demo.sock_probed)
    by (apply run_eq; vm_compute; reflexivity).
  assert (Hne : forall p,
             component_prefix p "/" ->
             @built_loc (Kernel.platform true) Demo.cow_on 1 [p]
             <> Some (AtFd 11 "sock")).
  { intros p Hp. apply prefix_of_root in Hp. subst p. discriminate. }
  destruct (@cow_cp_socket (Kernel.platform true) Demo.cow_on 1 "/sock" 0 1
              "/" (AtFd 11 "sock") _ _ _ _ _ _ _
              eq_refl eq_refl Hne H0 H1 eq_refl)
    as (E & parents & l & T & F & N & A).
  split; [exact E|].
  split; [exists parents, l; repeat split; assumption|].
  split; [|reflexivity].
  apply A.
  - apply KernelAbsence.kernel_absence_laws.
    intros p l0 w k k' Hp Hl Hk Hk'. apply prefix_of_root in Hp. subst p.
    injection Hl as <-. cbn [Kernel.resolve] in Hk, Hk'.
    destruct (Kernel.lookup_fd 11 (Kernel.dirfds w)) as [root|];
      [|discriminate].
    injection Hk as <-. injection Hk' as <-. intros H.
    apply (f_equal (@List.length string)) in H.
    rewrite !length_app in H. cbn in H. lia.
  - intros H. vm_compute in H. discriminate.
Defined.
